(** * DLOB: the order-filler's decentralized limit order book

    A shallow embedding of [src/dlob/DLOB.ts] together with the parts of the
    SDK, of [DLOBNode.ts] and of [NodeList.ts] that it calls, followed by the
    properties of the book that the specification states.

    Conventions of the embedding:
    - [BN] values (arbitrary precision integers) and slots are [Z];
      [lt]/[gt] are [Z.ltb]/[Z.gtb]; [marketIndex.toNumber()] is [toNumber],
      which returns the number itself when it fits 53 bits and throws
      otherwise;
    - a thrown JavaScript exception is [Throw e]; methods that mutate [this]
      live in the monad [M], which keeps the state reached when an exception
      is thrown;
    - a generator over a list is the list of the nodes it has yet to yield. *)

From stdpp Require Import base option list sorting gmap sets strings.
From Stdlib Require Import ZArith Lia.

Local Open Scope Z_scope.

(** ** Exceptions *)

Inductive Error :=
  | TypeError (reading : string)  (* property [reading] read on [undefined] *)
  | AssertionError (message : string) (* the [Error] of a failed [assert] of bn.js *)
  | MissingOracle                 (* a floating price asked without oracle data *)
  | Diverged.                     (* model only: a bounded loop ran out of steps *)

Inductive Result (A : Type) :=
  | Ok (a : A)
  | Throw (e : Error).
Arguments Ok {A} a.
Arguments Throw {A} e.

#[global] Instance Result_ret : MRet Result := λ A a, Ok a.
#[global] Instance Result_bind : MBind Result := λ A B f r,
  match r with
  | Ok a => f a
  | Throw e => Throw e
  end.

(** ** The SDK ([@drift-labs/sdk]) *)

(** Anchor enums are objects with one own property, the variant's name;
    [isVariant(object, type)] is [object.hasOwnProperty(type)]. *)
Class HasOwnProperty (A : Type) := hasOwnProperty : A → string → bool.

Definition isVariant {A} `{HasOwnProperty A} (object : A) (type : string) : bool :=
  hasOwnProperty object type.

Definition isOneOfVariant {A} `{HasOwnProperty A} (object : A) (types : list string) : bool :=
  fold_left (λ result type, result || hasOwnProperty object type) types false.

Inductive OrderStatus := StatusInit | StatusOpen | StatusFilled | StatusCanceled.
Inductive OrderType := TypeLimit | TypeMarket | TypeTriggerLimit | TypeTriggerMarket.
Inductive PositionDirection := DirLong | DirShort.
Inductive OrderTriggerCondition := CondAbove | CondBelow.

#[global] Instance OrderStatus_eq_dec : EqDecision OrderStatus.
Proof. solve_decision. Defined.
#[global] Instance OrderType_eq_dec : EqDecision OrderType.
Proof. solve_decision. Defined.
#[global] Instance PositionDirection_eq_dec : EqDecision PositionDirection.
Proof. solve_decision. Defined.
#[global] Instance OrderTriggerCondition_eq_dec : EqDecision OrderTriggerCondition.
Proof. solve_decision. Defined.

Definition OrderStatus_tag (s : OrderStatus) : string :=
  match s with
  | StatusInit => "init"
  | StatusOpen => "open"
  | StatusFilled => "filled"
  | StatusCanceled => "canceled"
  end.

Definition OrderType_tag (t : OrderType) : string :=
  match t with
  | TypeLimit => "limit"
  | TypeMarket => "market"
  | TypeTriggerLimit => "triggerLimit"
  | TypeTriggerMarket => "triggerMarket"
  end.

Definition PositionDirection_tag (d : PositionDirection) : string :=
  match d with
  | DirLong => "long"
  | DirShort => "short"
  end.

Definition OrderTriggerCondition_tag (c : OrderTriggerCondition) : string :=
  match c with
  | CondAbove => "above"
  | CondBelow => "below"
  end.

#[global] Instance OrderStatus_props : HasOwnProperty OrderStatus :=
  λ s type, String.eqb (OrderStatus_tag s) type.
#[global] Instance OrderType_props : HasOwnProperty OrderType :=
  λ t type, String.eqb (OrderType_tag t) type.
#[global] Instance PositionDirection_props : HasOwnProperty PositionDirection :=
  λ d type, String.eqb (PositionDirection_tag d) type.
#[global] Instance OrderTriggerCondition_props : HasOwnProperty OrderTriggerCondition :=
  λ c type, String.eqb (OrderTriggerCondition_tag c) type.

(** The fields of an [Order] that the book reads. *)
Record Order := {
  orderId : Z;
  marketIndex : Z;
  orderType : OrderType;
  status : OrderStatus;
  direction : PositionDirection;
  triggerCondition : OrderTriggerCondition;
  triggered : bool;
  price : Z;
  oraclePriceOffset : Z;
  triggerPrice : Z;
  ts : Z;
  postOnly : bool;
  auctionDuration : Z;
  auctionStartPrice : Z;
  auctionEndPrice : Z
}.

(** The own properties of an [Order] object are its fields. *)
Definition Order_fields : list string :=
  [ "orderId"; "marketIndex"; "orderType"; "status"; "direction";
    "triggerCondition"; "triggered"; "price"; "oraclePriceOffset";
    "triggerPrice"; "ts"; "postOnly"; "auctionDuration";
    "auctionStartPrice"; "auctionEndPrice" ].

#[global] Instance Order_props : HasOwnProperty Order :=
  λ _ type, existsb (String.eqb type) Order_fields.

Module OraclePriceData.
Record t := { price : Z }.
End OraclePriceData.

Definition ZERO : Z := 0.

(** [BN.toNumber()] of bn.js: the value as a JavaScript number when it has at
    most 53 bits; otherwise [assert(false, 'Number can only safely store up
    to 53 bits')], which throws an [Error] with that message. *)
Definition toNumber (n : Z) : Result Z :=
  if Z.abs n <? 2 ^ 53 then Ok n
  else Throw (AssertionError "Number can only safely store up to 53 bits").

(** Modelled from the spec: [isAuctionComplete(order, slot)] of the SDK, "true
    iff [slot ≥ order.ts + order.auctionDuration]". *)
Definition isAuctionComplete (order : Order) (slot : Z) : bool :=
  ts order + auctionDuration order <=? slot.

Definition PublicKey := string.

(** ** [DLOBNode.ts] *)

Inductive DLOBNodeType := NLimit | NFloatingLimit | NMarket | NTrigger.

(** A node of a [NodeList]: an order, its owner and the class of its list. *)
Record OrderNode := {
  nodeClass : DLOBNodeType;
  order : Order;
  userAccount : PublicKey
}.

Definition TriggerOrderNode := OrderNode.

(** What the merged streams yield: a user's node, or the synthetic node of the
    vAMM, which has neither [order] nor [userAccount]. *)
Inductive DLOBNode :=
  | UserNode (n : OrderNode)
  | VammNode (vprice : Z).

Definition isVammNode (n : DLOBNode) : bool :=
  match n with
  | VammNode _ => true
  | UserNode _ => false
  end.

(** [node.order], a [TypeError] when something is read on it at a vAMM node. *)
Definition node_order (reading : string) (n : DLOBNode) : Result Order :=
  match n with
  | UserNode u => Ok (order u)
  | VammNode _ => Throw (TypeError reading)
  end.

(** Modelled from the spec: the auction price of a market order, missing with
    [DLOBNode.ts]: "if auction is ongoing, linearly interpolates
    [auctionStartPrice → auctionEndPrice] over [slot - order.ts] /
    [auctionDuration], clamped to the endpoints; if complete, returns
    [auctionEndPrice]". *)
Definition auctionPrice (o : Order) (slot : Z) : Z :=
  if isAuctionComplete o slot then auctionEndPrice o
  else if slot <=? ts o then auctionStartPrice o
  else auctionStartPrice o
       + Z.quot ((auctionEndPrice o - auctionStartPrice o) * (slot - ts o))
                (auctionDuration o).

(** Modelled from the spec: [getPrice(oracle, slot)] of the node classes,
    missing with [DLOBNode.ts]: a limit node returns [order.price], a floating
    limit node [oracle.price + order.oraclePriceOffset] and fails when no
    oracle data was supplied, a market node its auction price, the vAMM node
    the constant it was built with, a trigger node its [triggerPrice]. *)
Definition getPrice (n : DLOBNode) (oraclePriceData : option OraclePriceData.t)
    (slot : Z) : Result Z :=
  match n with
  | VammNode p => Ok p
  | UserNode u =>
      match nodeClass u with
      | NLimit => Ok (price (order u))
      | NFloatingLimit =>
          match oraclePriceData with
          | Some o => Ok (OraclePriceData.price o + oraclePriceOffset (order u))
          | None => Throw MissingOracle
          end
      | NMarket => Ok (auctionPrice (order u) slot)
      | NTrigger => Ok (triggerPrice (order u))
      end
  end.

(** ** [NodeList.ts] *)

(** Modelled from the spec: [getOrderId], missing with [NodeList.ts]: "a
    deterministic string fingerprint of [(userAccount, order.orderId)]; unique
    globally". The fingerprint is kept as the pair it is computed from. *)
Definition OrderId : Type := PublicKey * Z.

Definition getOrderId (o : Order) (user : PublicKey) : OrderId := (user, orderId o).

(** Modelled from the spec: [getVammNodeGenerator], missing with
    [NodeList.ts]: "a single-element vAMM generator yielding one synthetic node
    at price [vAsk] (resp. [vBid])". *)
Definition getVammNodeGenerator (p : Z) : list DLOBNode := [VammNode p].

Inductive SortDirection := asc | desc.

Module NodeList.

(** Modelled from the spec: the class [NodeList], missing from the sources:
    the nodes of one (market, class, side) in priority order, best first. *)
Record t := {
  nodeType : DLOBNodeType;
  listMarket : Z;
  sortDirection : SortDirection;
  nodes : list OrderNode
}.

Definition new (ty : DLOBNodeType) (market : Z) (dir : SortDirection) : t :=
  {| nodeType := ty; listMarket := market; sortDirection := dir; nodes := [] |}.

(** Modelled from the spec: the sort keys, "Limit ask / bid: by [order.price].
    FloatingLimit: by [order.oraclePriceOffset]. Market: by [order.ts]
    ascending. Trigger above/below: by [order.triggerPrice]". *)
Definition getSortValue (ty : DLOBNodeType) (o : Order) : Z :=
  match ty with
  | NLimit => price o
  | NFloatingLimit => oraclePriceOffset o
  | NMarket => ts o
  | NTrigger => triggerPrice o
  end.

(** The new order goes in front of [cur]: a strictly better key, or, "within a
    key, earlier [ts] first; within equal [ts], stable insertion order". *)
Definition goesBefore (l : t) (new cur : Order) : bool :=
  let kn := getSortValue (nodeType l) new in
  let kc := getSortValue (nodeType l) cur in
  match sortDirection l with
  | asc => kn <? kc
  | desc => kn >? kc
  end || ((kn =? kc) && (ts new <? ts cur)).

Fixpoint place (l : t) (n : OrderNode) (ns : list OrderNode) : list OrderNode :=
  match ns with
  | [] => [n]
  | c :: rest =>
      if goesBefore l (order n) (order c) then n :: c :: rest
      else c :: place l n rest
  end.

Definition withNodes (l : t) (ns : list OrderNode) : t :=
  {| nodeType := nodeType l; listMarket := listMarket l;
     sortDirection := sortDirection l; nodes := ns |}.

Definition sameOrder (o : Order) (user : PublicKey) (n : OrderNode) : bool :=
  bool_decide (getOrderId (order n) (userAccount n) = getOrderId o user).

(** Modelled from the spec: "inserts a new node, preserving sort order". *)
Definition insert (o : Order) (user : PublicKey) (l : t) : t :=
  withNodes l
    (place l {| nodeClass := nodeType l; order := o; userAccount := user |} (nodes l)).

(** Modelled from the spec: "removes by identity; silently no-ops if absent". *)
Definition remove (o : Order) (user : PublicKey) (l : t) : t :=
  withNodes l (filter (λ n, negb (sameOrder o user n)) (nodes l)).

(** Modelled from the spec: "replaces the underlying order in the existing
    node; does not re-position the node by price". *)
Definition update (o : Order) (user : PublicKey) (l : t) : t :=
  withNodes l
    (map (λ n, if sameOrder o user n
               then {| nodeClass := nodeClass n; order := o; userAccount := userAccount n |}
               else n) (nodes l)).

(** Modelled from the spec: "produces nodes in the list's priority order;
    finite". *)
Definition getGenerator (l : t) : list DLOBNode := map UserNode (nodes l).

End NodeList.

(** ** [DLOB.ts] *)

Module MarketNodeLists.
Record sides := { ask : NodeList.t; bid : NodeList.t }.
Record conditions := { above : NodeList.t; below : NodeList.t }.
Record t := {
  limit : sides;
  floatingLimit : sides;
  market : sides;
  trigger : conditions
}.
End MarketNodeLists.

(** The second key of [orderLists.get(i)[type][subType]]. *)
Inductive SubType := SubAsk | SubBid | SubAbove | SubBelow.

Definition DLOBNodeType_name (type : DLOBNodeType) : string :=
  match type with
  | NLimit => "limit"
  | NFloatingLimit => "floatingLimit"
  | NMarket => "market"
  | NTrigger => "trigger"
  end.

(** [nodeLists[type][subType]]; [None] is JavaScript's [undefined]. *)
Definition select (m : MarketNodeLists.t) (type : DLOBNodeType) (subType : SubType)
    : option NodeList.t :=
  match type, subType with
  | NLimit, SubAsk => Some (MarketNodeLists.ask (MarketNodeLists.limit m))
  | NLimit, SubBid => Some (MarketNodeLists.bid (MarketNodeLists.limit m))
  | NFloatingLimit, SubAsk => Some (MarketNodeLists.ask (MarketNodeLists.floatingLimit m))
  | NFloatingLimit, SubBid => Some (MarketNodeLists.bid (MarketNodeLists.floatingLimit m))
  | NMarket, SubAsk => Some (MarketNodeLists.ask (MarketNodeLists.market m))
  | NMarket, SubBid => Some (MarketNodeLists.bid (MarketNodeLists.market m))
  | NTrigger, SubAbove => Some (MarketNodeLists.above (MarketNodeLists.trigger m))
  | NTrigger, SubBelow => Some (MarketNodeLists.below (MarketNodeLists.trigger m))
  | _, _ => None
  end.

Definition withSide (s : MarketNodeLists.sides) (subType : SubType) (l : NodeList.t)
    : MarketNodeLists.sides :=
  match subType with
  | SubAsk => {| MarketNodeLists.ask := l; MarketNodeLists.bid := MarketNodeLists.bid s |}
  | SubBid => {| MarketNodeLists.ask := MarketNodeLists.ask s; MarketNodeLists.bid := l |}
  | _ => s
  end.

Definition withCondition (c : MarketNodeLists.conditions) (subType : SubType) (l : NodeList.t)
    : MarketNodeLists.conditions :=
  match subType with
  | SubAbove => {| MarketNodeLists.above := l; MarketNodeLists.below := MarketNodeLists.below c |}
  | SubBelow => {| MarketNodeLists.above := MarketNodeLists.above c; MarketNodeLists.below := l |}
  | _ => c
  end.

(** The lists of a market after the list at [type], [subType] was mutated
    into [l]. *)
Definition assign (m : MarketNodeLists.t) (type : DLOBNodeType) (subType : SubType)
    (l : NodeList.t) : MarketNodeLists.t :=
  let '(MarketNodeLists.Build_t lim flo mar tri) := m in
  match type with
  | NLimit => MarketNodeLists.Build_t (withSide lim subType l) flo mar tri
  | NFloatingLimit => MarketNodeLists.Build_t lim (withSide flo subType l) mar tri
  | NMarket => MarketNodeLists.Build_t lim flo (withSide mar subType l) tri
  | NTrigger => MarketNodeLists.Build_t lim flo mar (withCondition tri subType l)
  end.

(** A reference to one of the lists of the book, as [getListForOrder]
    returns it. *)
Record ListRef := {
  refMarket : Z;
  refType : DLOBNodeType;
  refSubType : SubType
}.

Module NodeToFill.
Record t := { node : DLOBNode; makerNode : option DLOBNode }.
End NodeToFill.

Module NodeToTrigger.
Record t := { node : DLOBNode }.
End NodeToTrigger.

Inductive Side := SideAsk | SideBid.

(** The result of [findCrossingOrders]: both fields are optional. *)
Record Crossing := {
  crossingNodes : option NodeToFill.t;
  crossingSide : option Side
}.

(** *** Loops and generators *)

(** [for (const x of items) body], over a state [S]; [body] answers whether
    the loop goes on ([true]) or breaks ([false]). *)
Fixpoint forOf {A S : Type} (body : S → A → Result (S * bool)) (items : list A) (s : S)
    : Result S :=
  match items with
  | [] => Ok s
  | x :: rest =>
      '(s', continue) ← body s x;
      if continue : bool then forOf body rest s' else Ok s'
  end.

(** [array.reduce(f)] without an initial value. *)
Fixpoint foldlM {A B : Type} (f : B → A → Result B) (l : list A) (b : B) : Result B :=
  match l with
  | [] => Ok b
  | x :: rest => b' ← f b x; foldlM f rest b'
  end.

Definition reduce {A : Type} (f : A → A → Result A) (l : list A) : Result A :=
  match l with
  | [] => Throw (TypeError "reduce")
  | x :: rest => foldlM f rest x
  end.

(** One entry [{ next: generator.next(), generator }] of the merge: the node
    peeked last ([None] when [done]) and the nodes still to come. *)
Record Peeked := {
  next : option DLOBNode;
  generator : list DLOBNode
}.

Definition peek (g : list DLOBNode) : Peeked :=
  match g with
  | [] => {| next := None; generator := [] |}
  | value :: rest => {| next := Some value; generator := rest |}
  end.

(** The reducer of [getAsks] ([keeps] is [lt]) and of [getBids] ([keeps] is
    [gt]). The entries carry their index in the array, which is what tells
    which object of the array the reducer returned. *)
Definition reducer (keeps : Z → Z → bool) (oraclePriceData : option OraclePriceData.t)
    (slot : Z) (bestGenerator currentGenerator : nat * Peeked) : Result (nat * Peeked) :=
  match next currentGenerator.2 with
  | None => Ok bestGenerator
  | Some currentValue =>
      match next bestGenerator.2 with
      | None => Ok currentGenerator
      | Some bestValue =>
          bestPrice ← getPrice bestValue oraclePriceData slot;
          currentPrice ← getPrice currentValue oraclePriceData slot;
          Ok (if keeps bestPrice currentPrice then bestGenerator else currentGenerator)
      end
  end.

(** A suspended [getAsks] or [getBids] generator. [sources] is [Throw e] when
    its body throws [e] before its loop, at the first [next()]. *)
Record MergeGenerator := {
  keeps : Z → Z → bool;
  mergeOracle : option OraclePriceData.t;
  mergeSlot : Z;
  sources : Result (list Peeked)
}.

Definition indexed (generators : list Peeked) : list (nat * Peeked) :=
  imap (λ i g, (i, g)) generators.

(** One turn of the [while] loop of the generator, until its [yield]. *)
Definition mergeStep (keeps : Z → Z → bool) (oraclePriceData : option OraclePriceData.t)
    (slot : Z) (generators : list Peeked) : Result (option DLOBNode * list Peeked) :=
  '(i, bestGenerator) ← reduce (reducer keeps oraclePriceData slot) (indexed generators);
  match next bestGenerator with
  | Some value => Ok (Some value, <[i := peek (generator bestGenerator)]> generators)
  | None => Ok (None, generators)
  end.

(** [g.next()]: the node yielded ([None] when [done]) and the generator
    afterwards. *)
Definition MergeGenerator_next (g : MergeGenerator) : Result (option DLOBNode * MergeGenerator) :=
  generators ← sources g;
  '(value, generators') ← mergeStep (keeps g) (mergeOracle g) (mergeSlot g) generators;
  Ok (value, {| keeps := keeps g; mergeOracle := mergeOracle g;
                mergeSlot := mergeSlot g; sources := Ok generators' |}).

Definition remaining (generators : list Peeked) : nat :=
  foldr (λ p n, (length (generator p) + match next p with Some _ => 1 | None => 0 end + n)%nat) 0%nat generators.

Fixpoint drain (fuel : nat) (g : MergeGenerator) : Result (list DLOBNode) :=
  match fuel with
  | O => Throw Diverged
  | S fuel =>
      '(value, g') ← MergeGenerator_next g;
      match value with
      | Some v => rest ← drain fuel g'; Ok (v :: rest)
      | None => Ok []
      end
  end.

(** [Array.from(g)]: all the nodes the generator yields, in order. *)
Definition yielded (g : MergeGenerator) : Result (list DLOBNode) :=
  match sources g with
  | Ok generators => drain (S (remaining generators)) g
  | Throw e => Throw e
  end.

(** *** The class [DLOB] *)

Module DLOB.

Record t := {
  openOrders : gset OrderId;
  orderLists : gmap Z MarketNodeLists.t
}.

(** Methods run on [this] and may throw; what they did to [this] before
    throwing stays done. *)
Definition M (A : Type) : Type := t → Result A * t.

#[global] Instance M_ret : MRet M := λ A a d, (Ok a, d).
#[global] Instance M_bind : MBind M := λ A B f m d,
  match m d with
  | (Ok a, d') => f a d'
  | (Throw e, d') => (Throw e, d')
  end.

Definition lift {A : Type} (r : Result A) : M A := λ d, (r, d).
Definition this : M t := λ d, (Ok d, d).
Definition skip : M unit := mret ().

Definition OrderBookCallback : Type := M unit.

(** [if (callback) { callback(); }] *)
Definition fire (callback : option OrderBookCallback) : M unit :=
  match callback with
  | Some f => f
  | None => skip
  end.

Definition newMarket (marketIndex : Z) : MarketNodeLists.t :=
  {| MarketNodeLists.limit :=
       {| MarketNodeLists.ask := NodeList.new NLimit marketIndex asc;
          MarketNodeLists.bid := NodeList.new NLimit marketIndex desc |};
     MarketNodeLists.floatingLimit :=
       {| MarketNodeLists.ask := NodeList.new NFloatingLimit marketIndex asc;
          MarketNodeLists.bid := NodeList.new NFloatingLimit marketIndex desc |};
     MarketNodeLists.market :=
       {| MarketNodeLists.ask := NodeList.new NMarket marketIndex asc;
          (* always sort ascending for market orders *)
          MarketNodeLists.bid := NodeList.new NMarket marketIndex asc |};
     MarketNodeLists.trigger :=
       {| MarketNodeLists.above := NodeList.new NTrigger marketIndex asc;
          MarketNodeLists.below := NodeList.new NTrigger marketIndex desc |} |}.

(** The book that [new DLOB(marketIndexes)] returns: the eight lists of each
    index, set in turn at the number of the index. *)
Definition new (marketIndexes : list Z) : t :=
  {| openOrders := ∅;
     orderLists :=
       fold_left (λ lists marketIndex, <[marketIndex := newMarket marketIndex]> lists)
                 marketIndexes ∅ |}.

(** The constructor with its conversions: it converts each index with
    [toNumber] before it sets the lists of the market, and throws at the
    first index that does not convert; it returns a book exactly when every
    index converts, and that book is [new marketIndexes] (see
    [constructor_new]). *)
Definition constructor (marketIndexes : list Z) : Result t :=
  lists ← foldlM (λ lists marketIndex,
                    n ← toNumber marketIndex;
                    Ok (<[n := newMarket marketIndex]> lists))
                 marketIndexes ∅;
  Ok {| openOrders := ∅; orderLists := lists |}.

Definition getOpenOrderId (order : Order) (userAccount : PublicKey) : OrderId :=
  getOrderId order userAccount.

Definition openOrders_add (id : OrderId) : M unit := λ d,
  (Ok (), {| openOrders := {[id]} ∪ openOrders d; orderLists := orderLists d |}).

Definition openOrders_delete (id : OrderId) : M unit := λ d,
  (Ok (), {| openOrders := openOrders d ∖ {[id]}; orderLists := orderLists d |}).

(** [this.orderLists.get(marketIndex.toNumber()).reading]. The keys of
    [orderLists] are the numbers that [toNumber] returned to the constructor
    (see [constructor_new]; the mutators set no key, see
    [mutators_wellKeyed]), so a market that is found is the market of an
    index that converts; for an index that is not found, either the
    conversion throws, or [get] returns [undefined] and reading a property
    on it is a [TypeError]. On such books this is the conversion followed by
    the look-up, in the order of the source (see
    [marketLists_converts_first]). *)
Definition marketLists (d : t) (marketIndex : Z) (reading : string)
    : Result MarketNodeLists.t :=
  match orderLists d !! marketIndex with
  | Some nodeLists => Ok nodeLists
  | None => _ ← toNumber marketIndex; Throw (TypeError reading)
  end.

Definition orderListType (order : Order) : DLOBNodeType :=
  let isInactiveTriggerOrder :=
    isOneOfVariant (orderType order) ["triggerMarket"; "triggerLimit"]
    && negb (triggered order) in
  if isInactiveTriggerOrder then NTrigger
  else if isOneOfVariant (orderType order) ["market"; "triggerMarket"] then NMarket
  else if oraclePriceOffset order >? ZERO then NFloatingLimit
  else NLimit.

Definition orderListSubType (order : Order) : SubType :=
  let isInactiveTriggerOrder :=
    isOneOfVariant (orderType order) ["triggerMarket"; "triggerLimit"]
    && negb (triggered order) in
  if isInactiveTriggerOrder
  then (if isVariant (triggerCondition order) "above" then SubAbove else SubBelow)
  else (if isVariant (direction order) "long" then SubBid else SubAsk).

Definition getListForOrder (d : t) (order : Order) : Result ListRef :=
  let type := orderListType order in
  let subType := orderListSubType order in
  _ ← marketLists d (marketIndex order) (DLOBNodeType_name type);
  Ok {| refMarket := marketIndex order; refType := type; refSubType := subType |}.

(** [list.method(order, userAccount)] on the list that [r] refers to, where
    the method turns the list into [op list]. *)
Definition onList (r : ListRef) (method : string) (op : NodeList.t → NodeList.t) : M unit := λ d,
  match orderLists d !! refMarket r with
  | None => (Throw (TypeError (DLOBNodeType_name (refType r))), d)
  | Some nodeLists =>
      match select nodeLists (refType r) (refSubType r) with
      | None => (Throw (TypeError method), d)
      | Some l =>
          (Ok (),
           {| openOrders := openOrders d;
              orderLists :=
                <[refMarket r := assign nodeLists (refType r) (refSubType r) (op l)]>
                  (orderLists d) |})
      end
  end.

Definition insert (order : Order) (userAccount : PublicKey)
    (onInsert : option OrderBookCallback) : M unit :=
  if isVariant order "init" then skip
  else
    (if isVariant (status order) "open"
     then openOrders_add (getOpenOrderId order userAccount)
     else skip);;
    d ← this;
    list ← lift (getListForOrder d order);
    onList list "insert" (NodeList.insert order userAccount);;
    fire onInsert.

Definition remove (order : Order) (userAccount : PublicKey)
    (onRemove : option OrderBookCallback) : M unit :=
  openOrders_delete (getOpenOrderId order userAccount);;
  d ← this;
  list ← lift (getListForOrder d order);
  onList list "remove" (NodeList.remove order userAccount);;
  fire onRemove.

Definition update (order : Order) (userAccount : PublicKey)
    (onUpdate : option OrderBookCallback) : M unit :=
  d ← this;
  list ← lift (getListForOrder d order);
  onList list "update" (NodeList.update order userAccount);;
  fire onUpdate.

Definition trigger (order : Order) (userAccount : PublicKey)
    (onTrigger : option OrderBookCallback) : M unit :=
  d ← this;
  _ ← lift (marketLists d (marketIndex order) "trigger");
  let triggerList :=
    {| refMarket := marketIndex order; refType := NTrigger;
       refSubType := if isVariant (triggerCondition order) "above"
                     then SubAbove else SubBelow |} in
  onList triggerList "remove" (NodeList.remove order userAccount);;
  d ← this;
  list ← lift (getListForOrder d order);
  onList list "insert" (NodeList.insert order userAccount);;
  fire onTrigger.

Definition getMarketBids (d : t) (marketIndex : Z) : Result (list DLOBNode) :=
  nodeLists ← marketLists d marketIndex "market";
  Ok (NodeList.getGenerator (MarketNodeLists.bid (MarketNodeLists.market nodeLists))).

Definition getMarketAsks (d : t) (marketIndex : Z) : Result (list DLOBNode) :=
  nodeLists ← marketLists d marketIndex "market";
  Ok (NodeList.getGenerator (MarketNodeLists.ask (MarketNodeLists.market nodeLists))).

(** The body of the two loops of [findMarketNodesToFill]. *)
Definition pushIfAuctionComplete (slot : Z) (nodesToFill : list NodeToFill.t)
    (marketNode : DLOBNode) : Result (list NodeToFill.t * bool) :=
  o ← node_order "ts" marketNode;
  if isAuctionComplete o slot
  then Ok (nodesToFill ++ [{| NodeToFill.node := marketNode; NodeToFill.makerNode := None |}], true)
  else Ok (nodesToFill, true).

Definition findMarketNodesToFill (d : t) (marketIndex : Z) (slot : Z)
    : Result (list NodeToFill.t) :=
  let nodesToFill := [] in
  marketBids ← getMarketBids d marketIndex;
  nodesToFill ← forOf (pushIfAuctionComplete slot) marketBids nodesToFill;
  marketAsks ← getMarketAsks d marketIndex;
  forOf (pushIfAuctionComplete slot) marketAsks nodesToFill.

Definition getAsks (d : t) (marketIndex : Z) (vAsk : Z) (slot : Z)
    (oraclePriceData : option OraclePriceData.t) : MergeGenerator :=
  {| keeps := Z.ltb; mergeOracle := oraclePriceData; mergeSlot := slot;
     sources :=
       nodeLists ← marketLists d marketIndex "limit";
       Ok (map peek
             [ NodeList.getGenerator (MarketNodeLists.ask (MarketNodeLists.limit nodeLists));
               NodeList.getGenerator (MarketNodeLists.ask (MarketNodeLists.floatingLimit nodeLists));
               NodeList.getGenerator (MarketNodeLists.ask (MarketNodeLists.market nodeLists));
               getVammNodeGenerator vAsk ]) |}.

Definition getBids (d : t) (marketIndex : Z) (vBid : Z) (slot : Z)
    (oraclePriceData : option OraclePriceData.t) : MergeGenerator :=
  {| keeps := Z.gtb; mergeOracle := oraclePriceData; mergeSlot := slot;
     sources :=
       nodeLists ← marketLists d marketIndex "limit";
       Ok (map peek
             [ NodeList.getGenerator (MarketNodeLists.bid (MarketNodeLists.limit nodeLists));
               NodeList.getGenerator (MarketNodeLists.bid (MarketNodeLists.floatingLimit nodeLists));
               NodeList.getGenerator (MarketNodeLists.bid (MarketNodeLists.market nodeLists));
               getVammNodeGenerator vBid ]) |}.

(** The two generators that the source passes to [findCrossingOrders] are
    not used by it and are left out. *)
Definition findCrossingOrders (askNode bidNode : DLOBNode)
    (oraclePriceData : option OraclePriceData.t) (slot : Z) : Result Crossing :=
  bidPrice ← getPrice bidNode oraclePriceData slot;
  askPrice ← getPrice askNode oraclePriceData slot;
  (* no cross *)
  if bidPrice <? askPrice then Ok {| crossingNodes := None; crossingSide := None |}
  (* User bid crosses the vamm ask *)
  else if isVammNode askNode then Ok {| crossingNodes := None; crossingSide := Some SideBid |}
  (* User ask crosses the vamm bid *)
  else if isVammNode bidNode then Ok {| crossingNodes := None; crossingSide := Some SideAsk |}
  else
    bidOrder ← node_order "postOnly" bidNode;
    askOrder ← node_order "postOnly" askNode;
    (* Two maker orders cross *)
    if postOnly bidOrder && postOnly askOrder then
      Ok {| crossingNodes := None;
            crossingSide := Some (if ts bidOrder <? ts askOrder then SideBid else SideAsk) |}
    (* Bid is maker *)
    else if postOnly bidOrder then
      Ok {| crossingNodes :=
              Some {| NodeToFill.node := askNode; NodeToFill.makerNode := Some bidNode |};
            crossingSide := Some SideAsk |}
    (* Ask is maker *)
    else if postOnly askOrder then
      Ok {| crossingNodes :=
              Some {| NodeToFill.node := bidNode; NodeToFill.makerNode := Some askNode |};
            crossingSide := Some SideBid |}
    else
      (* Both are takers; older order is maker *)
      let newerNode := if ts bidOrder <? ts askOrder then askNode else bidNode in
      let olderNode := if ts askOrder <? ts bidOrder then bidNode else askNode in
      let crossingSide := if ts askOrder <? ts bidOrder then SideBid else SideAsk in
      Ok {| crossingNodes :=
              Some {| NodeToFill.node := newerNode; NodeToFill.makerNode := Some olderNode |};
            crossingSide := Some crossingSide |}.

(** Where the [while] loop of [findCrossingNodesToFill] ended: the fills
    pushed and the two iterator results it was looking at. *)
Record Scan := {
  nodesToFill : list NodeToFill.t;
  nextAsk : option DLOBNode;
  nextBid : option DLOBNode
}.

Fixpoint scanLoop (fuel : nat) (oraclePriceData : option OraclePriceData.t) (slot : Z)
    (nodesToFill : list NodeToFill.t)
    (nextAsk : option DLOBNode) (askGenerator : MergeGenerator)
    (nextBid : option DLOBNode) (bidGenerator : MergeGenerator) : Result Scan :=
  match fuel with
  | O => Throw Diverged
  | S fuel =>
      match nextAsk, nextBid with
      | Some askNode, Some bidNode =>
          crossing ← findCrossingOrders askNode bidNode oraclePriceData slot;
          let nodesToFill :=
            match crossingNodes crossing with
            | Some nodes => nodesToFill ++ [nodes]
            | None => nodesToFill
            end in
          if bool_decide (is_Some (crossingNodes crossing))
             && bool_decide (length nodesToFill = 10%nat)
          then Ok {| nodesToFill := nodesToFill; nextAsk := nextAsk; nextBid := nextBid |}
          else
            match crossingSide crossing with
            | Some SideBid =>
                '(nextBid, bidGenerator) ← MergeGenerator_next bidGenerator;
                scanLoop fuel oraclePriceData slot nodesToFill
                         nextAsk askGenerator nextBid bidGenerator
            | Some SideAsk =>
                '(nextAsk, askGenerator) ← MergeGenerator_next askGenerator;
                scanLoop fuel oraclePriceData slot nodesToFill
                         nextAsk askGenerator nextBid bidGenerator
            | None =>
                Ok {| nodesToFill := nodesToFill; nextAsk := nextAsk; nextBid := nextBid |}
            end
      | _, _ => Ok {| nodesToFill := nodesToFill; nextAsk := nextAsk; nextBid := nextBid |}
      end
  end.

Definition sourcesLeft (g : MergeGenerator) : nat :=
  match sources g with
  | Ok generators => remaining generators
  | Throw _ => 0
  end.

(** [findCrossingNodesToFill], together with where its loop ended. *)
Definition scanCrossingNodes (d : t) (marketIndex : Z) (vBid vAsk : Z) (slot : Z)
    (oraclePriceData : option OraclePriceData.t) : Result Scan :=
  let askGenerator := getAsks d marketIndex vAsk slot oraclePriceData in
  let bidGenerator := getBids d marketIndex vBid slot oraclePriceData in
  let fuel := S (sourcesLeft askGenerator + sourcesLeft bidGenerator) in
  '(nextAsk, askGenerator) ← MergeGenerator_next askGenerator;
  '(nextBid, bidGenerator) ← MergeGenerator_next bidGenerator;
  scanLoop fuel oraclePriceData slot [] nextAsk askGenerator nextBid bidGenerator.

Definition findCrossingNodesToFill (d : t) (marketIndex : Z) (vBid vAsk : Z) (slot : Z)
    (oraclePriceData : option OraclePriceData.t) : Result (list NodeToFill.t) :=
  scan ← scanCrossingNodes d marketIndex vBid vAsk slot oraclePriceData;
  Ok (nodesToFill scan).

Definition findNodesToFill (d : t) (marketIndex : Z) (vBid vAsk : Z) (slot : Z)
    (oraclePriceData : option OraclePriceData.t) : Result (list NodeToFill.t) :=
  crossingNodesToFill ← findCrossingNodesToFill d marketIndex vBid vAsk slot oraclePriceData;
  marketNodesToFill ← findMarketNodesToFill d marketIndex slot;
  Ok (crossingNodesToFill ++ marketNodesToFill).

(** [generator.next().value.getPrice(oraclePriceData, slot)] *)
Definition bestPrice (g : MergeGenerator) (oraclePriceData : option OraclePriceData.t)
    (slot : Z) : Result Z :=
  '(value, _) ← MergeGenerator_next g;
  match value with
  | Some node => getPrice node oraclePriceData slot
  | None => Throw (TypeError "getPrice")
  end.

Definition getBestAsk (d : t) (marketIndex : Z) (vAsk : Z) (slot : Z)
    (oraclePriceData : option OraclePriceData.t) : Result Z :=
  bestPrice (getAsks d marketIndex vAsk slot oraclePriceData) oraclePriceData slot.

Definition getBestBid (d : t) (marketIndex : Z) (vBid : Z) (slot : Z)
    (oraclePriceData : option OraclePriceData.t) : Result Z :=
  bestPrice (getBids d marketIndex vBid slot oraclePriceData) oraclePriceData slot.

(** The body of the two loops of [findNodesToTrigger]; [crosses] is
    [oraclePrice.gt] for the list [above] and [oraclePrice.lt] for [below]. *)
Definition pushIfTriggered (crosses : Z → bool) (slot : Z)
    (nodesToTrigger : list NodeToTrigger.t) (node : DLOBNode)
    : Result (list NodeToTrigger.t * bool) :=
  o ← node_order "triggerPrice" node;
  if crosses (triggerPrice o) then
    if isAuctionComplete o slot
    then Ok (nodesToTrigger ++ [{| NodeToTrigger.node := node |}], true)
    else Ok (nodesToTrigger, true)
  else Ok (nodesToTrigger, false).

Definition findNodesToTrigger (d : t) (marketIndex : Z) (slot : Z) (oraclePrice : Z)
    : Result (list NodeToTrigger.t) :=
  let nodesToTrigger := [] in
  nodeLists ← marketLists d marketIndex "trigger";
  nodesToTrigger ←
    forOf (pushIfTriggered (λ p, oraclePrice >? p) slot)
          (NodeList.getGenerator (MarketNodeLists.above (MarketNodeLists.trigger nodeLists)))
          nodesToTrigger;
  nodeLists ← marketLists d marketIndex "trigger";
  forOf (pushIfTriggered (λ p, oraclePrice <? p) slot)
        (NodeList.getGenerator (MarketNodeLists.below (MarketNodeLists.trigger nodeLists)))
        nodesToTrigger.

End DLOB.

(** ** Sample books *)

(** An order of market 0 that is not a trigger order and whose auction is
    over from its slot on. *)
Definition sampleOrder (id : Z) (type : OrderType) (st : OrderStatus)
    (dir : PositionDirection) (p offset slotPlaced : Z) (maker : bool) : Order :=
  {| orderId := id; marketIndex := 0; orderType := type; status := st;
     direction := dir; triggerCondition := CondAbove; triggered := false;
     price := p; oraclePriceOffset := offset; triggerPrice := 0; ts := slotPlaced;
     postOnly := maker; auctionDuration := 0;
     auctionStartPrice := p; auctionEndPrice := p |}.

(** A pending trigger order of market 0, to fire above [p]. *)
Definition sampleTrigger (id : Z) (p slotPlaced duration : Z) : Order :=
  {| orderId := id; marketIndex := 0; orderType := TypeTriggerLimit;
     status := StatusOpen; direction := DirLong; triggerCondition := CondAbove;
     triggered := false; price := p; oraclePriceOffset := 0; triggerPrice := p;
     ts := slotPlaced; postOnly := false; auctionDuration := duration;
     auctionStartPrice := p; auctionEndPrice := p |}.

Definition inMarket (m : Z) (o : Order) : Order :=
  {| orderId := orderId o; marketIndex := m; orderType := orderType o;
     status := status o; direction := direction o;
     triggerCondition := triggerCondition o; triggered := triggered o;
     price := price o; oraclePriceOffset := oraclePriceOffset o;
     triggerPrice := triggerPrice o; ts := ts o; postOnly := postOnly o;
     auctionDuration := auctionDuration o;
     auctionStartPrice := auctionStartPrice o; auctionEndPrice := auctionEndPrice o |}.

(** The book after a method ran on it, and what the method returned. *)
Definition after {A : Type} (m : DLOB.M A) (d : DLOB.t) : DLOB.t := (m d).2.
Definition outcome {A : Type} (m : DLOB.M A) (d : DLOB.t) : Result A := (m d).1.

Definition inserted (orders : list (Order * PublicKey)) (d : DLOB.t) : DLOB.t :=
  fold_left (λ d ou, after (DLOB.insert ou.1 ou.2 None) d) orders d.

Definition emptyBook : DLOB.t := DLOB.new [0].

Definition userNode (type : DLOBNodeType) (o : Order) (user : PublicKey) : DLOBNode :=
  UserNode {| nodeClass := type; order := o; userAccount := user |}.

Definition oracleAt (p : Z) : option OraclePriceData.t :=
  Some {| OraclePriceData.price := p |}.

(** The nodes of the list that [r] refers to. *)
Definition nodesAt (d : DLOB.t) (r : ListRef) : option (list OrderNode) :=
  nodeLists ← DLOB.orderLists d !! refMarket r;
  l ← select nodeLists (refType r) (refSubType r);
  Some (NodeList.nodes l).

(** A market order of market 0 with an auction of [duration] slots. *)
Definition sampleMarket (id : Z) (dir : PositionDirection)
    (slotPlaced duration startPrice endPrice : Z) : Order :=
  {| orderId := id; marketIndex := 0; orderType := TypeMarket; status := StatusOpen;
     direction := dir; triggerCondition := CondAbove; triggered := false;
     price := 0; oraclePriceOffset := 0; triggerPrice := 0; ts := slotPlaced;
     postOnly := false; auctionDuration := duration;
     auctionStartPrice := startPrice; auctionEndPrice := endPrice |}.

(** The lists of market [m], the empty ones when the book has none. *)
Definition listsOf (d : DLOB.t) (m : Z) : MarketNodeLists.t :=
  default (DLOB.newMarket m) (DLOB.orderLists d !! m).

(** Three pending triggers, above 90, 95 and 100. *)
Definition triggerBook : DLOB.t :=
  inserted [ (sampleTrigger 1 95 1 0, "alice");
             (sampleTrigger 2 100 1 0, "bob");
             (sampleTrigger 3 90 1 0, "carol") ] emptyBook.

(** Two market bids, the second still in its auction at slot 5, and one
    market ask. *)
Definition marketBook : DLOB.t :=
  inserted [ (sampleMarket 1 DirLong 1 2 100 110, "alice");
             (sampleMarket 2 DirLong 2 10 100 110, "bob");
             (sampleMarket 3 DirShort 3 1 120 105, "carol") ] emptyBook.

(** An open limit bid of market 7, which [emptyBook] does not have. *)
Definition strayOrder : Order :=
  inMarket 7 (sampleOrder 1 TypeLimit StatusOpen DirLong 100 0 1 false).

(** ** Vocabulary of the statements *)

(** An order of limit type that is not waiting for its trigger. *)
Definition activeLimitOrder (o : Order) : Prop :=
  orderType o = TypeLimit ∨ (orderType o = TypeTriggerLimit ∧ triggered o = true).

Definition sideOf (o : Order) : SubType :=
  match direction o with
  | DirLong => SubBid
  | DirShort => SubAsk
  end.


(** The fill and the trigger that the scans emit for a node of a list. *)
Definition marketFill (n : OrderNode) : NodeToFill.t :=
  {| NodeToFill.node := UserNode n; NodeToFill.makerNode := None |}.

Definition triggerOf (n : OrderNode) : NodeToTrigger.t :=
  {| NodeToTrigger.node := UserNode n |}.

Definition auctionComplete (slot : Z) (n : OrderNode) : Prop :=
  isAuctionComplete (order n) slot = true.

#[global] Instance auctionComplete_dec slot n : Decision (auctionComplete slot n).
Proof. unfold auctionComplete. apply _. Defined.

(** The nodes a trigger scan visits, in the words of the specification: walk
    from the head and stop at the first node that the oracle price does not
    cross. *)
Fixpoint scanned (crosses : Z → bool) (ns : list OrderNode) : list OrderNode :=
  match ns with
  | [] => []
  | n :: rest =>
      if crosses (triggerPrice (order n)) then n :: scanned crosses rest else []
  end.

(** A trigger list in the order of its sort key. *)
Fixpoint triggerSorted (dir : SortDirection) (ns : list OrderNode) : Prop :=
  match ns with
  | [] => True
  | n :: rest =>
      Forall (λ n', match dir with
                    | asc => triggerPrice (order n) ≤ triggerPrice (order n')
                    | desc => triggerPrice (order n') ≤ triggerPrice (order n)
                    end) rest
      ∧ triggerSorted dir rest
  end.

(** The price of a node when oracle data is supplied: then [getPrice] does
    not throw (see [getPrice_supplied]). *)
Definition priceAt (o : OraclePriceData.t) (slot : Z) (n : DLOBNode) : Z :=
  match getPrice n (Some o) slot with
  | Ok p => p
  | Throw _ => 0
  end.

(** The nodes that an entry of the merge has yet to give, its peeked node
    first. *)
Definition elems (p : Peeked) : list DLOBNode :=
  match next p with
  | Some value => value :: generator p
  | None => []
  end.

(** [a] is at least as good a price as [b] on the side. *)
Definition noWorse (side : Side) (a b : Z) : Prop :=
  match side with
  | SideAsk => a ≤ b
  | SideBid => b ≤ a
  end.

(** The rank of a price on a side: the smaller, the better. *)
Definition rank (side : Side) (p : Z) : Z :=
  match side with
  | SideAsk => p
  | SideBid => - p
  end.

Definition sideKeeps (side : Side) : Z → Z → bool :=
  match side with
  | SideAsk => Z.ltb
  | SideBid => Z.gtb
  end.

(** The rank of the node an entry has peeked, if any. *)
Definition headRank (side : Side) (o : OraclePriceData.t) (slot : Z) (p : Peeked)
    : option Z :=
  (λ n, rank side (priceAt o slot n)) <$> next p.

(** Orders on optional ranks in which an exhausted entry ([None]) is worse
    than everything. *)
Definition optLe (a b : option Z) : Prop :=
  match b with
  | None => True
  | Some y => match a with Some x => x ≤ y | None => False end
  end.

Definition optLt (a b : option Z) : Prop :=
  match b with
  | None => True
  | Some y => match a with Some x => x < y | None => False end
  end.

(** The generator of a side of the book. *)
Definition sideGenerator (side : Side) (d : DLOB.t) (marketIndex vPrice slot : Z)
    (oracle : option OraclePriceData.t) : MergeGenerator :=
  match side with
  | SideAsk => DLOB.getAsks d marketIndex vPrice slot oracle
  | SideBid => DLOB.getBids d marketIndex vPrice slot oracle
  end.

(** [g'] is [g] after some calls of [next()]. *)
Inductive laterState (g : MergeGenerator) : MergeGenerator → Prop :=
  | later_now : laterState g g
  | later_next g' g'' value :
      laterState g g' →
      MergeGenerator_next g' = Ok (value, g'') →
      laterState g g''.

(** A generator of a side that was given oracle data and whose entries are
    [generators]. *)
Definition generatorAt (side : Side) (o : OraclePriceData.t) (slot : Z)
    (generators : list Peeked) : MergeGenerator :=
  {| keeps := sideKeeps side; mergeOracle := Some o; mergeSlot := slot;
     sources := Ok generators |}.

(** The three lists of a side, in the order in which the merge holds them. *)
Definition sideLists (side : Side) (nodeLists : MarketNodeLists.t) : list NodeList.t :=
  match side with
  | SideAsk =>
      [ MarketNodeLists.ask (MarketNodeLists.limit nodeLists);
        MarketNodeLists.ask (MarketNodeLists.floatingLimit nodeLists);
        MarketNodeLists.ask (MarketNodeLists.market nodeLists) ]
  | SideBid =>
      [ MarketNodeLists.bid (MarketNodeLists.limit nodeLists);
        MarketNodeLists.bid (MarketNodeLists.floatingLimit nodeLists);
        MarketNodeLists.bid (MarketNodeLists.market nodeLists) ]
  end.

(** The entries of the merge of a side when its generator starts: the three
    lists, then the vAMM. *)
Definition sideSources (side : Side) (nodeLists : MarketNodeLists.t) (vPrice : Z)
    : list Peeked :=
  map peek (map NodeList.getGenerator (sideLists side nodeLists)
            ++ [getVammNodeGenerator vPrice]).

(** The price of [x] is at least as good as the price of [y] on the side. *)
Definition noWorseNode (side : Side) (o : OraclePriceData.t) (slot : Z)
    (x y : DLOBNode) : Prop :=
  noWorse side (priceAt o slot x) (priceAt o slot y).

(** A limit ask at 100, to be merged with a vAMM ask at 100. *)
Definition tieBook : DLOB.t :=
  inserted [(sampleOrder 1 TypeLimit StatusOpen DirShort 100 0 1 false, "alice")] emptyBook.

(** Two market asks whose auctions are over at slot 5: the older one ends at
    100, the newer one at 50. *)
Definition auctionBook : DLOB.t :=
  inserted [ (sampleMarket 1 DirShort 1 2 120 100, "alice");
             (sampleMarket 2 DirShort 2 2 60 50, "bob") ] emptyBook.

(** A book with orders of every class on both sides of market 0. *)
Definition mixedBook : DLOB.t :=
  inserted [ (sampleOrder 1 TypeLimit StatusOpen DirShort 105 0 1 false, "alice");
             (sampleOrder 2 TypeLimit StatusOpen DirShort 101 0 2 false, "bob");
             (sampleOrder 3 TypeLimit StatusOpen DirShort 0 3 3 false, "carol");
             (sampleMarket 4 DirShort 1 2 120 102, "dave");
             (sampleOrder 5 TypeLimit StatusOpen DirLong 95 0 1 false, "erin");
             (sampleOrder 6 TypeLimit StatusOpen DirLong 99 0 2 false, "frank");
             (sampleOrder 7 TypeLimit StatusOpen DirLong 0 2 3 false, "grace");
             (sampleMarket 8 DirLong 1 2 80 98, "heidi") ] emptyBook.

(** The scan ended on the pair whose crossing it pushed last: nothing was
    advanced after that fill. *)
Definition stoppedOnLastFill (oracle : option OraclePriceData.t) (slot : Z)
    (scan : DLOB.Scan) : Prop :=
  ∃ askNode bidNode crossing nodes,
    DLOB.nextAsk scan = Some askNode
    ∧ DLOB.nextBid scan = Some bidNode
    ∧ DLOB.findCrossingOrders askNode bidNode oracle slot = Ok crossing
    ∧ crossingNodes crossing = Some nodes
    ∧ last (DLOB.nodesToFill scan) = Some nodes.

(** What an iterator result counts for in the nodes still to be looked at. *)
Definition weight (value : option DLOBNode) : nat :=
  match value with
  | Some _ => 1
  | None => 0
  end.

(** One post-only bid at 100 and twelve asks at 99, each of which crosses
    it. *)
Definition crowdedBook : DLOB.t :=
  inserted
    ((sampleOrder 100 TypeLimit StatusOpen DirLong 100 0 1 true, "maker")
     :: map (λ i : nat,
               (sampleOrder (Z.of_nat i) TypeLimit StatusOpen DirShort 99 0 (Z.of_nat i) false,
                "taker"))
            (seq 1 12))
    emptyBook.

(** [a] is not after [b] under the sort key and the direction of the list. *)
Definition keyOrder (l : NodeList.t) (a b : OrderNode) : Prop :=
  match NodeList.sortDirection l with
  | asc =>
      NodeList.getSortValue (NodeList.nodeType l) (order a)
      ≤ NodeList.getSortValue (NodeList.nodeType l) (order b)
  | desc =>
      NodeList.getSortValue (NodeList.nodeType l) (order b)
      ≤ NodeList.getSortValue (NodeList.nodeType l) (order a)
  end.

(** ** Further vocabulary *)

#[global] Instance DLOBNodeType_eq_dec : EqDecision DLOBNodeType.
Proof. solve_decision. Defined.
#[global] Instance SubType_eq_dec : EqDecision SubType.
Proof. solve_decision. Defined.
#[global] Instance ListRef_eq_dec : EqDecision ListRef.
Proof. solve_decision. Defined.

(** The list of the book that [r] refers to; [None] when the book has no
    such market or the market no such list. *)
Definition listAt (d : DLOB.t) (r : ListRef) : option NodeList.t :=
  nodeLists ← DLOB.orderLists d !! refMarket r;
  select nodeLists (refType r) (refSubType r).

(** A trigger order that has not been triggered yet. *)
Definition pendingTrigger (o : Order) : Prop :=
  (orderType o = TypeTriggerMarket ∨ orderType o = TypeTriggerLimit)
  ∧ triggered o = false.

#[global] Instance pendingTrigger_dec o : Decision (pendingTrigger o).
Proof. unfold pendingTrigger. apply _. Defined.

Definition conditionOf (o : Order) : SubType :=
  match triggerCondition o with
  | CondAbove => SubAbove
  | CondBelow => SubBelow
  end.

(** The reference that [trigger] computes for the trigger list of an order. *)
Definition triggerRef (o : Order) : ListRef :=
  {| refMarket := marketIndex o; refType := NTrigger; refSubType := conditionOf o |}.

(** The reference that [getListForOrder] computes for an order. *)
Definition routedRef (o : Order) : ListRef :=
  {| refMarket := marketIndex o;
     refType := DLOB.orderListType o;
     refSubType := DLOB.orderListSubType o |}.

(** The book whose list at [r] is [l], everything else as in [d]. *)
Definition withList (d : DLOB.t) (r : ListRef) (l : NodeList.t) : DLOB.t :=
  match DLOB.orderLists d !! refMarket r with
  | Some nodeLists =>
      {| DLOB.openOrders := DLOB.openOrders d;
         DLOB.orderLists :=
           <[refMarket r := assign nodeLists (refType r) (refSubType r) l]>
             (DLOB.orderLists d) |}
  | None => d
  end.

(** All the nodes that the entries of a merge have yet to give. *)
Definition pending (gens : list Peeked) : list DLOBNode := gens ≫= elems.

(** The nodes of the three lists of a side. *)
Definition sideNodes (side : Side) (nodeLists : MarketNodeLists.t) : list DLOBNode :=
  sideLists side nodeLists ≫= NodeList.getGenerator.

(** A fill between two users' orders whose taker is not post-only. *)
Definition peerFill (f : NodeToFill.t) : Prop :=
  ∃ taker maker,
    NodeToFill.node f = UserNode taker
    ∧ NodeToFill.makerNode f = Some (UserNode maker)
    ∧ postOnly (order taker) = false.

(** The four mutators, run without call-back. *)
Definition mutators (o : Order) (user : PublicKey) : list (DLOB.M unit) :=
  [ DLOB.insert o user None; DLOB.remove o user None;
    DLOB.update o user None; DLOB.trigger o user None ].

(** The order, once the caller has set [triggered]. *)
Definition fired (o : Order) : Order :=
  {| orderId := orderId o; marketIndex := marketIndex o; orderType := orderType o;
     status := status o; direction := direction o;
     triggerCondition := triggerCondition o; triggered := true;
     price := price o; oraclePriceOffset := oraclePriceOffset o;
     triggerPrice := triggerPrice o; ts := ts o; postOnly := postOnly o;
     auctionDuration := auctionDuration o;
     auctionStartPrice := auctionStartPrice o; auctionEndPrice := auctionEndPrice o |}.

(** The trigger above 95 of [triggerBook], triggered. *)
Definition firedTrigger : Order := fired (sampleTrigger 1 95 1 0).

(** An open limit bid at 97 that [mixedBook] does not hold. *)
Definition freshBid : Order := sampleOrder 20 TypeLimit StatusOpen DirLong 97 0 4 false.

(** What a mutator does when it is given a call-back, in terms of what it
    does without: the call-back runs on the book the mutator leaves, and only
    when the mutator returned. *)
Definition thenCallback (callback : DLOB.OrderBookCallback)
    (run : Result unit * DLOB.t) : Result unit * DLOB.t :=
  match run with
  | (Ok _, d') => callback d'
  | (Throw e, d') => (Throw e, d')
  end.

(** The orders of [mixedBook] in a book built with the markets 0 and 7. *)
Definition twoMarketBook : DLOB.t :=
  {| DLOB.openOrders := DLOB.openOrders mixedBook;
     DLOB.orderLists := <[7 := DLOB.newMarket 7]> (DLOB.orderLists mixedBook) |}.

(** The nodes a generator has yet to yield. *)
Definition pendingOf (g : MergeGenerator) : list DLOBNode :=
  match sources g with
  | Ok gens => pending gens
  | Throw _ => []
  end.

(** The nodes of the ask and bid lists of a market: its limit, floating-limit
    and market lists, not its trigger lists. *)
Definition bookNodes (nodeLists : MarketNodeLists.t) : list DLOBNode :=
  sideNodes SideAsk nodeLists ++ sideNodes SideBid nodeLists.

(** A fill between two orders that rest in the ask and bid lists of the
    market, whose taker is not post-only. *)
Definition bookFill (nodeLists : MarketNodeLists.t) (f : NodeToFill.t) : Prop :=
  ∃ taker maker,
    NodeToFill.node f = UserNode taker
    ∧ NodeToFill.makerNode f = Some (UserNode maker)
    ∧ postOnly (order taker) = false
    ∧ UserNode taker ∈ bookNodes nodeLists
    ∧ UserNode maker ∈ bookNodes nodeLists.

(** What a call returned, or [fallback] when it threw. *)
Definition returned {A : Type} (fallback : A) (r : Result A) : A :=
  match r with
  | Ok a => a
  | Throw _ => fallback
  end.

(** A fill with, and without, a maker. *)
Definition hasMaker (f : NodeToFill.t) : Prop := is_Some (NodeToFill.makerNode f).
Definition hasNoMaker (f : NodeToFill.t) : Prop := NodeToFill.makerNode f = None.

(** The first node of a list, as the merge peeks it. *)
Definition firstNode (l : NodeList.t) : option DLOBNode :=
  head (NodeList.getGenerator l).

(** The fills against the vAMM at a slot: the market bids, then the market
    asks, whose auction is complete. *)
Definition marketFills (slot : Z) (nodeLists : MarketNodeLists.t) : list NodeToFill.t :=
  map marketFill
    (filter (auctionComplete slot)
       (NodeList.nodes (MarketNodeLists.bid (MarketNodeLists.market nodeLists))))
  ++ map marketFill
    (filter (auctionComplete slot)
       (NodeList.nodes (MarketNodeLists.ask (MarketNodeLists.market nodeLists)))).

(** A market none of whose eight lists holds a node. *)
Definition noOrders (nodeLists : MarketNodeLists.t) : Prop :=
  ∀ type subType l, select nodeLists type subType = Some l → NodeList.nodes l = [].

(** [out] is a merge of the sequences [streams]: it is built by taking, time
    after time, the first element of one of them, until all are used up; the
    elements of each sequence keep their order. *)
Inductive interleaved {A : Type} : list (list A) → list A → Prop :=
  | interleaved_done streams :
      Forall (λ s, s = []) streams → interleaved streams []
  | interleaved_take streams (i : nat) x rest out :
      streams !! i = Some (x :: rest) →
      interleaved (<[i := rest]> streams) out →
      interleaved streams (x :: out).

(** ** Unknown markets, the positions of the merge, the order of the lists *)

(** The error that a method throws for a market that is not in the book:
    the error of [toNumber] when the index does not convert, and otherwise
    the [TypeError] of reading [reading] on [undefined]. *)
Definition unknownMarketError (marketIndex : Z) (reading : string) : Error :=
  match toNumber marketIndex with
  | Ok _ => TypeError reading
  | Throw e => e
  end.

(** [e] is such an error, for some property read. *)
Definition isUnknownMarketError (marketIndex : Z) (e : Error) : Prop :=
  ∃ reading, e = unknownMarketError marketIndex reading.

(** Every market of the book has an index that [toNumber] converts, as in a
    book that the constructor built. *)
Definition wellKeyed (d : DLOB.t) : Prop :=
  ∀ m, is_Some (DLOB.orderLists d !! m) → toNumber m = Ok m.

(** The four sources of the merge of a side, in the order of the array of
    [getAsks] and [getBids]: limit, floatingLimit, market, vAMM. *)
Definition sideStreams (side : Side) (nodeLists : MarketNodeLists.t) (vPrice : Z)
    : list (list DLOBNode) :=
  map NodeList.getGenerator (sideLists side nodeLists) ++ [getVammNodeGenerator vPrice].

(** Each entry of [gens] holds what is left of the source at its position:
    the nodes it has yet to give are the last nodes of that source. *)
Definition entriesOf (streams : list (list DLOBNode)) (gens : list Peeked) : Prop :=
  Forall2 (λ stream p, elems p `suffix_of` stream) streams gens.

(** The generator after one [next()]. *)
Definition afterNext (g : MergeGenerator) : MergeGenerator :=
  match MergeGenerator_next g with
  | Ok (_, g') => g'
  | Throw _ => g
  end.

(** A limit ask at 90, a limit ask at 100, to be merged with a vAMM ask at
    100. *)
Definition stepBook : DLOB.t :=
  inserted [ (sampleOrder 1 TypeLimit StatusOpen DirShort 90 0 1 false, "alice");
             (sampleOrder 2 TypeLimit StatusOpen DirShort 100 0 2 false, "bob") ]
           emptyBook.

(** [triggerBook] after the trigger price of carol's order was updated from
    90 to 200: the order keeps its place at the head of the list. *)
Definition updatedTriggerBook : DLOB.t :=
  after (DLOB.update (sampleTrigger 3 200 1 0) "carol" None) triggerBook.

(** A pending trigger order of market 0, to fire below [p]. *)
Definition sampleTriggerBelow (id : Z) (p slotPlaced duration : Z) : Order :=
  {| orderId := id; marketIndex := 0; orderType := TypeTriggerLimit;
     status := StatusOpen; direction := DirShort; triggerCondition := CondBelow;
     triggered := false; price := p; oraclePriceOffset := 0; triggerPrice := p;
     ts := slotPlaced; postOnly := false; auctionDuration := duration;
     auctionStartPrice := p; auctionEndPrice := p |}.

(** Triggers above 90, 95 and 100 and below 99, 98 and 80; the auction of
    the trigger below 99 ends at slot 11. *)
Definition bothTriggersBook : DLOB.t :=
  inserted [ (sampleTriggerBelow 4 98 1 0, "dave");
             (sampleTriggerBelow 5 80 1 0, "erin");
             (sampleTriggerBelow 6 99 1 10, "frank") ] triggerBook.

(** An open limit bid of a market whose index has more than 53 bits. *)
Definition hugeOrder : Order :=
  inMarket (2 ^ 53) (sampleOrder 1 TypeLimit StatusOpen DirLong 100 0 1 false).

(** A filled limit bid of market 7, which [emptyBook] does not have. *)
Definition strayFilledOrder : Order :=
  inMarket 7 (sampleOrder 2 TypeLimit StatusFilled DirLong 100 0 1 false).

(** The direction the constructor gives to the list at [type], [subType]. *)
Definition builtDirection (type : DLOBNodeType) (subType : SubType) : SortDirection :=
  match type, subType with
  | NLimit, SubBid | NFloatingLimit, SubBid | NTrigger, SubBelow => desc
  | _, _ => asc
  end.

(** Every list of the book has the class and the direction the constructor
    gave it, and is in the order of its sort key. *)
Definition inKeyOrder (d : DLOB.t) : Prop :=
  ∀ r l, listAt d r = Some l →
    NodeList.nodeType l = refType r
    ∧ NodeList.sortDirection l = builtDirection (refType r) (refSubType r)
    ∧ StronglySorted (keyOrder l) (NodeList.nodes l).
(** ** Running methods *)

(** Unfolds the plumbing of the two monads, down to the calls. *)
Ltac run_method :=
  unfold mbind, mret, DLOB.M_bind, DLOB.M_ret, Result_bind, Result_ret,
    DLOB.skip, DLOB.this, DLOB.lift, DLOB.fire,
    DLOB.openOrders_add, DLOB.openOrders_delete; cbn.

(** ** The order of a [NodeList] *)

Lemma keyOrder_trans (l : NodeList.t) (a b c : OrderNode) :
  keyOrder l a b → keyOrder l b c → keyOrder l a c.
Proof. unfold keyOrder. destruct (NodeList.sortDirection l); lia. Qed.

Lemma Forall_place (P : OrderNode → Prop) (l : NodeList.t) (n : OrderNode)
    (ns : list OrderNode) :
  P n → Forall P ns → Forall P (NodeList.place l n ns).
Proof.
  intros Hn. induction 1 as [|c ns Hc Hns IH]; cbn.
  - by constructor.
  - destruct (NodeList.goesBefore l (order n) (order c)); by repeat constructor.
Qed.

Lemma goesBefore_keyOrder (l : NodeList.t) (n c : OrderNode) :
  if NodeList.goesBefore l (order n) (order c) then keyOrder l n c else keyOrder l c n.
Proof.
  unfold NodeList.goesBefore, keyOrder.
  destruct (NodeList.sortDirection l);
    [destruct (Z.ltb_spec (NodeList.getSortValue (NodeList.nodeType l) (order n))
                          (NodeList.getSortValue (NodeList.nodeType l) (order c)))
    |rewrite Z.gtb_ltb;
     destruct (Z.ltb_spec (NodeList.getSortValue (NodeList.nodeType l) (order c))
                          (NodeList.getSortValue (NodeList.nodeType l) (order n)))];
    cbn; try lia;
    destruct (Z.eqb_spec (NodeList.getSortValue (NodeList.nodeType l) (order n))
                         (NodeList.getSortValue (NodeList.nodeType l) (order c)));
    cbn; try lia;
    destruct (ts (order n) <? ts (order c)); lia.
Qed.

(** The insertion of the model of [NodeList] keeps a list in the order of its
    sort key. *)
Lemma place_keyOrder (l : NodeList.t) (n : OrderNode) (ns : list OrderNode) :
  StronglySorted (keyOrder l) ns → StronglySorted (keyOrder l) (NodeList.place l n ns).
Proof.
  induction 1 as [|c ns Hsorted IH Hc]; cbn.
  - repeat constructor.
  - pose proof (goesBefore_keyOrder l n c) as Hnc.
    destruct (NodeList.goesBefore l (order n) (order c)).
    + constructor; [by constructor|]. constructor; [done|].
      eapply Forall_impl; [exact Hc|]. intros x Hx. by eapply keyOrder_trans.
    + constructor; [done|]. by apply Forall_place.
Qed.

Lemma NodeList_insert_keyOrder (l : NodeList.t) (o : Order) (user : PublicKey) :
  StronglySorted (keyOrder l) (NodeList.nodes l) →
  StronglySorted (keyOrder (NodeList.insert o user l))
                 (NodeList.nodes (NodeList.insert o user l)).
Proof. intros Hs. by apply (place_keyOrder l). Qed.

(** ** Routing *)

Lemma marketLists_known d m reading nodeLists :
  DLOB.orderLists d !! m = Some nodeLists →
  DLOB.marketLists d m reading = Ok nodeLists.
Proof. unfold DLOB.marketLists. by intros ->. Qed.

Lemma marketLists_unknown d m reading :
  DLOB.orderLists d !! m = None →
  DLOB.marketLists d m reading = Throw (unknownMarketError m reading).
Proof.
  unfold DLOB.marketLists, unknownMarketError. intros ->. by destruct (toNumber m).
Qed.

Lemma toNumber_converts (n m : Z) : toNumber n = Ok m → m = n ∧ Z.abs n < 2 ^ 53.
Proof.
  unfold toNumber. destruct (Z.ltb_spec (Z.abs n) (2 ^ 53)); [|done].
  by intros [= <-].
Qed.

Lemma toNumber_fits (n : Z) : Z.abs n < 2 ^ 53 → toNumber n = Ok n.
Proof. intros Hn. unfold toNumber. by destruct (Z.ltb_spec (Z.abs n) (2 ^ 53)); [|lia]. Qed.

(** In a book whose markets all have an index that converts, looking a
    market up is converting the index first and then calling [get], as the
    source does. *)
Lemma marketLists_converts_first (d : DLOB.t) (m : Z) (reading : string) :
  wellKeyed d →
  DLOB.marketLists d m reading
  = n ← toNumber m;
    match DLOB.orderLists d !! n with
    | Some nodeLists => Ok nodeLists
    | None => Throw (TypeError reading)
    end.
Proof.
  intros Hkeys. unfold DLOB.marketLists.
  destruct (DLOB.orderLists d !! m) as [nodeLists|] eqn:Hm.
  - rewrite (Hkeys m) by (by eexists). cbn. by rewrite Hm.
  - destruct (toNumber m) as [n|e] eqn:Hn; cbn; [|done].
    apply toNumber_converts in Hn as [-> _]. by rewrite Hm.
Qed.

(** The constructor returns the book [new] when every index converts, and
    throws otherwise; the books it returns hold only markets whose index
    converts, and the mutators add no market. *)
Lemma constructor_new (marketIndexes : list Z) :
  (∀ d, DLOB.constructor marketIndexes = Ok d → d = DLOB.new marketIndexes ∧ wellKeyed d)
  ∧ (Forall (λ i, Z.abs i < 2 ^ 53) marketIndexes →
     DLOB.constructor marketIndexes = Ok (DLOB.new marketIndexes)).
Proof.
  unfold DLOB.constructor, DLOB.new.
  assert (Hfold : ∀ acc : gmap Z MarketNodeLists.t,
            (∀ lists,
               foldlM (λ lists i, n ← toNumber i; Ok (<[n := DLOB.newMarket i]> lists))
                      marketIndexes acc = Ok lists →
               lists = fold_left (λ lists i, <[i := DLOB.newMarket i]> lists)
                                 marketIndexes acc
               ∧ ((∀ m, is_Some (acc !! m) → toNumber m = Ok m) →
                  ∀ m, is_Some (lists !! m) → toNumber m = Ok m))
            ∧ (Forall (λ i, Z.abs i < 2 ^ 53) marketIndexes →
               foldlM (λ lists i, n ← toNumber i; Ok (<[n := DLOB.newMarket i]> lists))
                      marketIndexes acc
               = Ok (fold_left (λ lists i, <[i := DLOB.newMarket i]> lists)
                               marketIndexes acc))).
  { induction marketIndexes as [|i ms IH]; intros acc; cbn [foldlM fold_left].
    - split; [by intros lists [= <-] | done].
    - split.
      + intros lists. destruct (toNumber i) as [n|] eqn:Hn; cbn; [|done].
        pose proof Hn as [-> _]%toNumber_converts.
        intros Hfold. destruct (IH (<[i := DLOB.newMarket i]> acc)) as [Hok _].
        destruct (Hok lists Hfold) as [-> Hkeys]. split; [done|].
        intros Hacc. apply Hkeys. intros m.
        destruct (decide (i = m)) as [<- | Hne]; [done|].
        rewrite lookup_insert_ne by done. apply Hacc.
      + intros [Hi Hms]%Forall_cons. rewrite (toNumber_fits i Hi).
        cbn [mbind Result_bind].
        destruct (IH (<[i := DLOB.newMarket i]> acc)) as [_ Hfit]. by apply Hfit. }
  destruct (Hfold ∅) as [Hok Hfits]. split.
  - intros d. destruct (foldlM _ marketIndexes ∅) as [lists|] eqn:E; cbn; [|done].
    intros [= <-]. destruct (Hok lists eq_refl) as [-> Hkeys]. split; [done|].
    intros m. cbn. apply Hkeys. intros m' [x Hx]. by rewrite lookup_empty in Hx.
  - intros Hall. by rewrite (Hfits Hall).
Qed.

Lemma orderListSubType_active o :
  activeLimitOrder o → DLOB.orderListSubType o = sideOf o.
Proof.
  unfold DLOB.orderListSubType, sideOf.
  intros [Hty | [Hty Htr]]; rewrite Hty; [|rewrite Htr];
    by destruct (direction o), (triggered o).
Qed.

Lemma orderListType_active o :
  activeLimitOrder o →
  DLOB.orderListType o = if oraclePriceOffset o >? 0 then NFloatingLimit else NLimit.
Proof.
  unfold DLOB.orderListType, ZERO.
  intros [Hty | [Hty Htr]]; rewrite Hty; [|rewrite Htr];
    by destruct (triggered o).
Qed.

(** C2, as stated, fails: a limit bid with the nonzero offset [-5] is routed
    to the fixed-price limit list, not to the floating-limit list. *)
Lemma C2_negative_offset_counterexample :
  let o := sampleOrder 1 TypeLimit StatusOpen DirLong 100 (-5) 1 false in
  activeLimitOrder o ∧ oraclePriceOffset o ≠ 0 ∧
  DLOB.getListForOrder emptyBook o
  = Ok {| refMarket := 0; refType := NLimit; refSubType := SubBid |}.
Proof. split; [by left | split; [done | reflexivity]]. Qed.

(** C2, amended: an active order of limit type is routed to the floating-limit
    list of its side exactly when [oraclePriceOffset] is positive, and to the
    fixed-price limit list of its side exactly when it is zero or negative. *)
Theorem C2_getListForOrder_limit_routing (d : DLOB.t) (o : Order)
    (nodeLists : MarketNodeLists.t) :
  DLOB.orderLists d !! marketIndex o = Some nodeLists →
  activeLimitOrder o →
  ∃ r, DLOB.getListForOrder d o = Ok r
       ∧ refMarket r = marketIndex o
       ∧ refSubType r = sideOf o
       ∧ (refType r = NFloatingLimit ↔ 0 < oraclePriceOffset o)
       ∧ (refType r = NLimit ↔ oraclePriceOffset o ≤ 0).
Proof.
  intros Hm Hact. unfold DLOB.getListForOrder.
  rewrite (marketLists_known _ _ _ _ Hm). eexists; split; [reflexivity|]. cbn.
  rewrite orderListSubType_active, orderListType_active by done.
  repeat split; try done; destruct (Z.gtb_spec (oraclePriceOffset o) 0); try done; lia.
Qed.

Lemma C2_getListForOrder_limit_routing_witness :
  ∃ r, DLOB.getListForOrder emptyBook
         (sampleOrder 1 TypeLimit StatusOpen DirShort 0 7 1 false) = Ok r
       ∧ refMarket r = 0
       ∧ refSubType r = SubAsk
       ∧ (refType r = NFloatingLimit ↔ 0 < 7)
       ∧ (refType r = NLimit ↔ 7 ≤ 0).
Proof.
  apply (C2_getListForOrder_limit_routing emptyBook
           (sampleOrder 1 TypeLimit StatusOpen DirShort 0 7 1 false)
           (DLOB.newMarket 0)).
  - reflexivity.
  - left. reflexivity.
Defined.

(** ** [insert] *)

(** No order object has an own property named [init]: the guard of [insert]
    looks at the order, where the test that follows it looks at
    [order.status]. *)
Lemma isVariant_order_init (o : Order) : isVariant o "init" = false.
Proof. reflexivity. Qed.

Lemma isVariant_status_open (o : Order) :
  isVariant (status o) "open" = bool_decide (status o = StatusOpen).
Proof. by destruct (status o). Qed.

Lemma select_routed (nodeLists : MarketNodeLists.t) (o : Order) :
  is_Some (select nodeLists (DLOB.orderListType o) (DLOB.orderListSubType o)).
Proof.
  unfold DLOB.orderListType, DLOB.orderListSubType.
  destruct (isOneOfVariant (orderType o) _ && negb (triggered o)).
  - by destruct (isVariant (triggerCondition o) "above").
  - destruct (isOneOfVariant (orderType o) _), (oraclePriceOffset o >? ZERO),
      (isVariant (direction o) "long"); by eexists.
Qed.

(** What [insert] does in a market of the book, whatever the status: the id
    joins [openOrders] exactly for an open order, and the order is inserted
    into the list it is routed to. *)
Lemma insert_known_market (d : DLOB.t) (o : Order) (user : PublicKey)
    (nodeLists : MarketNodeLists.t) :
  DLOB.orderLists d !! marketIndex o = Some nodeLists →
  ∃ l, select nodeLists (DLOB.orderListType o) (DLOB.orderListSubType o) = Some l ∧
    DLOB.insert o user None d =
      (Ok (),
       {| DLOB.openOrders :=
            if bool_decide (status o = StatusOpen)
            then {[getOrderId o user]} ∪ DLOB.openOrders d else DLOB.openOrders d;
          DLOB.orderLists :=
            <[marketIndex o :=
                assign nodeLists (DLOB.orderListType o) (DLOB.orderListSubType o)
                       (NodeList.insert o user l)]> (DLOB.orderLists d) |}).
Proof.
  intros Hm. destruct (select_routed nodeLists o) as [l Hl]. exists l. split; [done|].
  unfold DLOB.insert. rewrite isVariant_order_init, isVariant_status_open.
  case_bool_decide; run_method;
    unfold DLOB.getListForOrder, DLOB.marketLists; cbn; rewrite Hm; run_method;
    unfold DLOB.onList; cbn; rewrite Hm, Hl; reflexivity.
Qed.

(** C3, at the failing input: inserting a limit bid whose status is [init]
    into the empty book of market 0 returns normally and leaves the order in
    the list [limit.bid], which was empty. *)
Theorem C3_insert_init_order_reaches_list :
  let o := sampleOrder 1 TypeLimit StatusInit DirLong 100 0 1 false in
  let r := {| refMarket := 0; refType := NLimit; refSubType := SubBid |} in
  status o = StatusInit
  ∧ DLOB.getListForOrder emptyBook o = Ok r
  ∧ nodesAt emptyBook r = Some []
  ∧ outcome (DLOB.insert o "alice" None) emptyBook = Ok ()
  ∧ nodesAt (after (DLOB.insert o "alice" None) emptyBook) r
    = Some [{| nodeClass := NLimit; order := o; userAccount := "alice" |}].
Proof. repeat split; vm_compute; reflexivity. Qed.

(** ** [findCrossingOrders] *)

Lemma findCrossingOrders_users (a b : OrderNode) oracle slot (pa pb : Z) :
  getPrice (UserNode a) oracle slot = Ok pa →
  getPrice (UserNode b) oracle slot = Ok pb →
  pa ≤ pb →
  DLOB.findCrossingOrders (UserNode a) (UserNode b) oracle slot =
    let bidOrder := order b in
    let askOrder := order a in
    if postOnly bidOrder && postOnly askOrder then
      Ok {| crossingNodes := None;
            crossingSide := Some (if ts bidOrder <? ts askOrder then SideBid else SideAsk) |}
    else if postOnly bidOrder then
      Ok {| crossingNodes :=
              Some {| NodeToFill.node := UserNode a; NodeToFill.makerNode := Some (UserNode b) |};
            crossingSide := Some SideAsk |}
    else if postOnly askOrder then
      Ok {| crossingNodes :=
              Some {| NodeToFill.node := UserNode b; NodeToFill.makerNode := Some (UserNode a) |};
            crossingSide := Some SideBid |}
    else
      Ok {| crossingNodes :=
              Some {| NodeToFill.node :=
                        if ts bidOrder <? ts askOrder then UserNode a else UserNode b;
                      NodeToFill.makerNode :=
                        Some (if ts askOrder <? ts bidOrder then UserNode b else UserNode a) |};
            crossingSide := Some (if ts askOrder <? ts bidOrder then SideBid else SideAsk) |}.
Proof.
  intros Ha Hb Hle. unfold DLOB.findCrossingOrders. rewrite Ha, Hb. cbn.
  destruct (Z.ltb_spec pb pa); [lia|]. reflexivity.
Qed.

(** C4, as stated, fails: two post-only orders cross, the bid placed at slot
    1 and the ask at slot 2; the side returned is the bid's, so the order that
    is advanced is the older one. *)
Lemma C4_older_post_only_advanced_counterexample :
  let bidOrder := sampleOrder 1 TypeLimit StatusOpen DirLong 100 0 1 true in
  let askOrder := sampleOrder 2 TypeLimit StatusOpen DirShort 99 0 2 true in
  ts bidOrder < ts askOrder
  ∧ DLOB.findCrossingOrders (userNode NLimit askOrder "bob") (userNode NLimit bidOrder "alice")
      None 5
    = Ok {| crossingNodes := None; crossingSide := Some SideBid |}.
Proof. split; [done | reflexivity]. Qed.

(** C4, amended: on a crossing pair of two post-only user orders,
    [findCrossingOrders] emits no fill and returns the bid's side when
    [bid.ts < ask.ts] and the ask's side otherwise: the order advanced is the
    older of the two (the ask on equal [ts]), and the newer one stays at the
    head of its stream. *)
Theorem C4_findCrossingOrders_both_post_only (a b : OrderNode)
    (oracle : option OraclePriceData.t) (slot pa pb : Z) :
  getPrice (UserNode a) oracle slot = Ok pa →
  getPrice (UserNode b) oracle slot = Ok pb →
  pa ≤ pb →
  postOnly (order a) = true →
  postOnly (order b) = true →
  ∃ side,
    DLOB.findCrossingOrders (UserNode a) (UserNode b) oracle slot
    = Ok {| crossingNodes := None; crossingSide := Some side |}
    ∧ (side = SideBid ↔ ts (order b) < ts (order a))
    ∧ (side = SideAsk ↔ ts (order a) ≤ ts (order b)).
Proof.
  intros Ha Hb Hle Hpa Hpb.
  rewrite (findCrossingOrders_users _ _ _ _ _ _ Ha Hb Hle). cbn. rewrite Hpa, Hpb. cbn.
  eexists; split; [reflexivity|].
  destruct (Z.ltb_spec (ts (order b)) (ts (order a))); split; split; (done || lia).
Qed.

Lemma C4_findCrossingOrders_both_post_only_witness :
  ∃ side,
    DLOB.findCrossingOrders
      (userNode NLimit (sampleOrder 2 TypeLimit StatusOpen DirShort 99 0 2 true) "bob")
      (userNode NLimit (sampleOrder 1 TypeLimit StatusOpen DirLong 100 0 1 true) "alice")
      None 5
    = Ok {| crossingNodes := None; crossingSide := Some side |}
    ∧ (side = SideBid ↔ 1 < 2)
    ∧ (side = SideAsk ↔ 2 ≤ 1).
Proof.
  apply (C4_findCrossingOrders_both_post_only
           {| nodeClass := NLimit;
              order := sampleOrder 2 TypeLimit StatusOpen DirShort 99 0 2 true;
              userAccount := "bob" |}
           {| nodeClass := NLimit;
              order := sampleOrder 1 TypeLimit StatusOpen DirLong 100 0 1 true;
              userAccount := "alice" |}
           None 5 99 100); first [reflexivity | lia].
Defined.

(** Two takers whose [ts] differ: the node emitted as maker is the same node
    as the taker. *)
Lemma findCrossingOrders_takers_same_node (a b : OrderNode)
    (oracle : option OraclePriceData.t) (slot pa pb : Z) :
  getPrice (UserNode a) oracle slot = Ok pa →
  getPrice (UserNode b) oracle slot = Ok pb →
  pa ≤ pb →
  postOnly (order a) = false →
  postOnly (order b) = false →
  ts (order a) ≠ ts (order b) →
  ∃ n side,
    DLOB.findCrossingOrders (UserNode a) (UserNode b) oracle slot
    = Ok {| crossingNodes := Some {| NodeToFill.node := n; NodeToFill.makerNode := Some n |};
            crossingSide := Some side |}.
Proof.
  intros Ha Hb Hle Hpa Hpb Hts.
  rewrite (findCrossingOrders_users _ _ _ _ _ _ Ha Hb Hle). cbn. rewrite Hpa, Hpb. cbn.
  destruct (Z.ltb_spec (ts (order b)) (ts (order a))),
           (Z.ltb_spec (ts (order a)) (ts (order b))); try lia; by do 2 eexists.
Qed.

(** C5, at the failing input: a bid placed at slot 1 and an ask placed at
    slot 2 cross at 100, neither post-only; the fill emitted names the ask
    both as taker and as maker, where the older order, the bid, should be the
    maker. *)
Theorem C5_takers_fill_names_ask_twice :
  let bidNode := userNode NLimit (sampleOrder 1 TypeLimit StatusOpen DirLong 100 0 1 false) "alice" in
  let askNode := userNode NLimit (sampleOrder 2 TypeLimit StatusOpen DirShort 100 0 2 false) "bob" in
  DLOB.findCrossingOrders askNode bidNode None 5
  = Ok {| crossingNodes :=
            Some {| NodeToFill.node := askNode; NodeToFill.makerNode := Some askNode |};
          crossingSide := Some SideAsk |}.
Proof. reflexivity. Qed.

(** Two takers with the same [ts]: the bid is the taker and the ask the
    maker, and the side returned is the ask's, the maker's. *)
Example findCrossingOrders_takers_same_ts :
  let bidNode := userNode NLimit (sampleOrder 1 TypeLimit StatusOpen DirLong 100 0 3 false) "alice" in
  let askNode := userNode NLimit (sampleOrder 2 TypeLimit StatusOpen DirShort 100 0 3 false) "bob" in
  DLOB.findCrossingOrders askNode bidNode None 5
  = Ok {| crossingNodes :=
            Some {| NodeToFill.node := bidNode; NodeToFill.makerNode := Some askNode |};
          crossingSide := Some SideAsk |}.
Proof. reflexivity. Qed.

(** ** [findMarketNodesToFill] *)

Lemma forOf_pushIfAuctionComplete (slot : Z) (ns : list OrderNode)
    (acc : list NodeToFill.t) :
  forOf (DLOB.pushIfAuctionComplete slot) (map UserNode ns) acc
  = Ok (acc ++ map marketFill (filter (auctionComplete slot) ns)).
Proof.
  revert acc. induction ns as [|n ns IH]; intros acc.
  - cbn. by rewrite app_nil_r.
  - cbn [map forOf]. rewrite filter_cons.
    unfold DLOB.pushIfAuctionComplete at 1. run_method.
    destruct (isAuctionComplete (order n) slot) eqn:Hc; cbn [Result_bind].
    + rewrite decide_True by done. rewrite IH. cbn. by rewrite <- app_assoc.
    + rewrite decide_False by (unfold auctionComplete; congruence). apply IH.
Qed.

(** C10: in a market of the book, [findMarketNodesToFill] returns the nodes
    of the list [market.bid] whose auction is complete at [slot], in list
    order, followed by those of the list [market.ask], each as a fill without
    maker; nodes whose auction is not complete are passed over and the scan
    goes on to the end of both lists. *)
Theorem C10_findMarketNodesToFill_complete_auctions (d : DLOB.t) (m slot : Z)
    (nodeLists : MarketNodeLists.t) :
  DLOB.orderLists d !! m = Some nodeLists →
  DLOB.findMarketNodesToFill d m slot
  = Ok (map marketFill
          (filter (auctionComplete slot)
             (NodeList.nodes (MarketNodeLists.bid (MarketNodeLists.market nodeLists))))
        ++ map marketFill
          (filter (auctionComplete slot)
             (NodeList.nodes (MarketNodeLists.ask (MarketNodeLists.market nodeLists))))).
Proof.
  intros Hm. unfold DLOB.findMarketNodesToFill, DLOB.getMarketBids, DLOB.getMarketAsks.
  rewrite (marketLists_known _ _ _ _ Hm). run_method.
  unfold NodeList.getGenerator. rewrite forOf_pushIfAuctionComplete. cbn.
  by rewrite forOf_pushIfAuctionComplete.
Qed.

Lemma C10_findMarketNodesToFill_complete_auctions_witness :
  DLOB.findMarketNodesToFill marketBook 0 5
  = Ok (map marketFill
          (filter (auctionComplete 5)
             (NodeList.nodes
                (MarketNodeLists.bid (MarketNodeLists.market (listsOf marketBook 0)))))
        ++ map marketFill
          (filter (auctionComplete 5)
             (NodeList.nodes
                (MarketNodeLists.ask (MarketNodeLists.market (listsOf marketBook 0)))))).
Proof.
  apply (C10_findMarketNodesToFill_complete_auctions marketBook 0 5 (listsOf marketBook 0)).
  vm_compute. reflexivity.
Defined.

(** On the sample book: the first bid and the ask are emitted, the second
    bid, whose auction ends at slot 12, is not. *)
Example findMarketNodesToFill_marketBook :
  DLOB.findMarketNodesToFill marketBook 0 5
  = Ok [ {| NodeToFill.node := userNode NMarket (sampleMarket 1 DirLong 1 2 100 110) "alice";
            NodeToFill.makerNode := None |};
         {| NodeToFill.node := userNode NMarket (sampleMarket 3 DirShort 3 1 120 105) "carol";
            NodeToFill.makerNode := None |} ].
Proof. vm_compute. reflexivity. Qed.

(** ** [findNodesToTrigger] *)

Lemma forOf_pushIfTriggered (crosses : Z → bool) (slot : Z) (ns : list OrderNode)
    (acc : list NodeToTrigger.t) :
  forOf (DLOB.pushIfTriggered crosses slot) (map UserNode ns) acc
  = Ok (acc ++ map triggerOf (filter (auctionComplete slot) (scanned crosses ns))).
Proof.
  revert acc. induction ns as [|n ns IH]; intros acc.
  - cbn. by rewrite app_nil_r.
  - cbn [map forOf scanned].
    unfold DLOB.pushIfTriggered at 1. run_method.
    destruct (crosses (triggerPrice (order n))); [|cbn; by rewrite app_nil_r].
    rewrite filter_cons.
    destruct (isAuctionComplete (order n) slot) eqn:Hc; cbn [Result_bind].
    + rewrite decide_True by done. rewrite IH. cbn. by rewrite <- app_assoc.
    + rewrite decide_False by (unfold auctionComplete; congruence). apply IH.
Qed.

Lemma filter_none {A : Type} (P : A → Prop) `{∀ x, Decision (P x)} (l : list A) :
  Forall (λ x, ¬ P x) l → filter P l = [].
Proof.
  induction 1 as [|x l Hx _ IH]; [done|].
  rewrite filter_cons, decide_False by done. exact IH.
Qed.

Lemma scanned_sorted_asc (p : Z) (ns : list OrderNode) :
  triggerSorted asc ns →
  scanned (λ t, p >? t) ns = filter (λ n, triggerPrice (order n) < p) ns.
Proof.
  induction ns as [|n ns IH]; [done|]. intros [Hall Hs]. cbn [scanned]. rewrite filter_cons.
  destruct (Z.gtb_spec p (triggerPrice (order n))).
  - rewrite decide_True by lia. by rewrite IH.
  - rewrite decide_False by lia. symmetry. apply filter_none.
    eapply Forall_impl; [exact Hall|]. cbn. lia.
Qed.

Lemma scanned_sorted_desc (p : Z) (ns : list OrderNode) :
  triggerSorted desc ns →
  scanned (λ t, p <? t) ns = filter (λ n, p < triggerPrice (order n)) ns.
Proof.
  induction ns as [|n ns IH]; [done|]. intros [Hall Hs]. cbn [scanned]. rewrite filter_cons.
  destruct (Z.ltb_spec p (triggerPrice (order n))).
  - rewrite decide_True by lia. by rewrite IH.
  - rewrite decide_False by lia. symmetry. apply filter_none.
    eapply Forall_impl; [exact Hall|]. cbn. lia.
Qed.

(** C7, as stated, fails: [triggerBook] holds triggers above 90, 95 and
    100; once [update] has set the trigger price of the first one to 200, the
    list reads 200, 95, 100. With the oracle at 97 the scan halts on its
    first node and emits nothing, though the trigger above 95 is in the
    list, is crossed, and its auction is complete. *)
Lemma C7_findNodesToTrigger_update_counterexample :
  let above :=
    NodeList.nodes
      (MarketNodeLists.above (MarketNodeLists.trigger (listsOf updatedTriggerBook 0))) in
  DLOB.update (sampleTrigger 3 200 1 0) "carol" None triggerBook = (Ok (), updatedTriggerBook)
  ∧ map (λ n, triggerPrice (order n)) above = [200; 95; 100]
  ∧ DLOB.findNodesToTrigger updatedTriggerBook 0 5 97 = Ok []
  ∧ filter (λ n, auctionComplete 5 n ∧ triggerPrice (order n) < 97) above
    = [ {| nodeClass := NTrigger; order := sampleTrigger 1 95 1 0; userAccount := "alice" |} ].
Proof. repeat split; vm_compute; reflexivity. Qed.

(** C7, amended: in a market of the book, [findNodesToTrigger] emits, in
    list order, the nodes of [trigger.above] whose auction is complete among
    those visited, the visit halting at the first node with
    [oraclePrice <= triggerPrice] and going past the nodes whose auction is
    not complete; then the same for [trigger.below] with
    [oraclePrice < triggerPrice] as the condition to go on. When
    [trigger.above] is in non-decreasing and [trigger.below] in
    non-increasing order of [triggerPrice], these are exactly the nodes of
    the list that the oracle price crosses strictly and whose auction is
    complete. The lists are in that order as long as [insert], [remove] and
    [trigger] alone change the book (see [inKeyOrder_triggerSorted]);
    [update] leaves a node where it is, whatever its new trigger price. *)
Theorem C7_findNodesToTrigger_scan (d : DLOB.t) (m slot oraclePrice : Z)
    (nodeLists : MarketNodeLists.t) :
  DLOB.orderLists d !! m = Some nodeLists →
  let above := NodeList.nodes (MarketNodeLists.above (MarketNodeLists.trigger nodeLists)) in
  let below := NodeList.nodes (MarketNodeLists.below (MarketNodeLists.trigger nodeLists)) in
  DLOB.findNodesToTrigger d m slot oraclePrice
  = Ok (map triggerOf (filter (auctionComplete slot) (scanned (λ t, oraclePrice >? t) above))
        ++ map triggerOf (filter (auctionComplete slot) (scanned (λ t, oraclePrice <? t) below)))
  ∧ (triggerSorted asc above →
     filter (auctionComplete slot) (scanned (λ t, oraclePrice >? t) above)
     = filter (λ n, auctionComplete slot n ∧ triggerPrice (order n) < oraclePrice) above)
  ∧ (triggerSorted desc below →
     filter (auctionComplete slot) (scanned (λ t, oraclePrice <? t) below)
     = filter (λ n, auctionComplete slot n ∧ oraclePrice < triggerPrice (order n)) below)
  ∧ (triggerSorted asc above → triggerSorted desc below →
     DLOB.findNodesToTrigger d m slot oraclePrice
     = Ok (map triggerOf
             (filter (λ n, auctionComplete slot n ∧ triggerPrice (order n) < oraclePrice)
                     above)
           ++ map triggerOf
                (filter (λ n, auctionComplete slot n ∧ oraclePrice < triggerPrice (order n))
                        below))).
Proof.
  intros Hm above below.
  assert (Hscan : DLOB.findNodesToTrigger d m slot oraclePrice
            = Ok (map triggerOf
                    (filter (auctionComplete slot) (scanned (λ t, oraclePrice >? t) above))
                  ++ map triggerOf
                       (filter (auctionComplete slot)
                               (scanned (λ t, oraclePrice <? t) below)))).
  { unfold DLOB.findNodesToTrigger. rewrite (marketLists_known _ _ _ _ Hm). run_method.
    unfold NodeList.getGenerator. rewrite forOf_pushIfTriggered. cbn.
    by rewrite forOf_pushIfTriggered. }
  assert (Habove : triggerSorted asc above →
            filter (auctionComplete slot) (scanned (λ t, oraclePrice >? t) above)
            = filter (λ n, auctionComplete slot n ∧ triggerPrice (order n) < oraclePrice)
                     above).
  { intros Hs. rewrite (scanned_sorted_asc _ _ Hs). apply list_filter_filter. }
  assert (Hbelow : triggerSorted desc below →
            filter (auctionComplete slot) (scanned (λ t, oraclePrice <? t) below)
            = filter (λ n, auctionComplete slot n ∧ oraclePrice < triggerPrice (order n))
                     below).
  { intros Hs. rewrite (scanned_sorted_desc _ _ Hs). apply list_filter_filter. }
  split; [exact Hscan|]. split; [exact Habove|]. split; [exact Hbelow|].
  intros Ha Hb. by rewrite Hscan, (Habove Ha), (Hbelow Hb).
Qed.

Lemma C7_findNodesToTrigger_scan_witness :
  let above :=
    NodeList.nodes
      (MarketNodeLists.above (MarketNodeLists.trigger (listsOf bothTriggersBook 0))) in
  let below :=
    NodeList.nodes
      (MarketNodeLists.below (MarketNodeLists.trigger (listsOf bothTriggersBook 0))) in
  (triggerSorted asc above ∧ triggerSorted desc below)
  ∧ DLOB.findNodesToTrigger bothTriggersBook 0 5 97
    = Ok (map triggerOf (filter (auctionComplete 5) (scanned (λ t, 97 >? t) above))
          ++ map triggerOf (filter (auctionComplete 5) (scanned (λ t, 97 <? t) below)))
  ∧ filter (auctionComplete 5) (scanned (λ t, 97 >? t) above)
    = filter (λ n, auctionComplete 5 n ∧ triggerPrice (order n) < 97) above
  ∧ filter (auctionComplete 5) (scanned (λ t, 97 <? t) below)
    = filter (λ n, auctionComplete 5 n ∧ 97 < triggerPrice (order n)) below
  ∧ DLOB.findNodesToTrigger bothTriggersBook 0 5 97
    = Ok (map triggerOf (filter (λ n, auctionComplete 5 n ∧ triggerPrice (order n) < 97) above)
          ++ map triggerOf
               (filter (λ n, auctionComplete 5 n ∧ 97 < triggerPrice (order n)) below)).
Proof.
  intros above below.
  assert (Ha : triggerSorted asc above).
  { vm_compute. repeat (split || constructor); discriminate. }
  assert (Hb : triggerSorted desc below).
  { vm_compute. repeat (split || constructor); discriminate. }
  destruct (C7_findNodesToTrigger_scan bothTriggersBook 0 5 97 (listsOf bothTriggersBook 0))
    as (Hscan & Habove & Hbelow & Hexact).
  { vm_compute. reflexivity. }
  split; [by split|]. split; [exact Hscan|].
  split; [exact (Habove Ha)|]. split; [exact (Hbelow Hb)|]. exact (Hexact Ha Hb).
Defined.

(** The scenario of the specification: triggers above 90, 95 and 100, the
    oracle at 97; the triggers at 90 and 95 fire, in that order. *)
Example findNodesToTrigger_triggerBook :
  DLOB.findNodesToTrigger triggerBook 0 5 97
  = Ok [ {| NodeToTrigger.node := userNode NTrigger (sampleTrigger 3 90 1 0) "carol" |};
         {| NodeToTrigger.node := userNode NTrigger (sampleTrigger 1 95 1 0) "alice" |} ].
Proof. vm_compute. reflexivity. Qed.

(** With triggers below 99, 98 and 80 as well: the scan of [below] goes past
    the trigger below 99, whose auction is not complete at slot 5, emits the
    trigger below 98 and halts at the trigger below 80. *)
Example findNodesToTrigger_bothTriggersBook :
  map (λ n, (triggerPrice (order n), isAuctionComplete (order n) 5))
      (NodeList.nodes
         (MarketNodeLists.below (MarketNodeLists.trigger (listsOf bothTriggersBook 0))))
  = [(99, false); (98, true); (80, true)]
  ∧ DLOB.findNodesToTrigger bothTriggersBook 0 5 97
    = Ok [ {| NodeToTrigger.node := userNode NTrigger (sampleTrigger 3 90 1 0) "carol" |};
           {| NodeToTrigger.node := userNode NTrigger (sampleTrigger 1 95 1 0) "alice" |};
           {| NodeToTrigger.node := userNode NTrigger (sampleTriggerBelow 4 98 1 0) "dave" |} ].
Proof. split; vm_compute; reflexivity. Qed.

(** ** Markets the book was not built with *)

Lemma getListForOrder_unknown (d : DLOB.t) (o : Order) :
  DLOB.orderLists d !! marketIndex o = None →
  DLOB.getListForOrder d o
  = Throw (unknownMarketError (marketIndex o)
             (DLOBNodeType_name (DLOB.orderListType o))).
Proof.
  intros Hm. unfold DLOB.getListForOrder.
  by rewrite (marketLists_unknown _ _ _ Hm).
Qed.

Lemma MergeGenerator_next_unknown (g : MergeGenerator) (e : Error) :
  sources g = Throw e → MergeGenerator_next g = Throw e.
Proof. unfold MergeGenerator_next. by intros ->. Qed.

(** What [insert] and [remove] have done when they throw for a market that
    is not in the book: [openOrders] was updated before the list was looked
    up. *)
Lemma insert_unknown_market (d : DLOB.t) (o : Order) (user : PublicKey)
    (callback : option DLOB.OrderBookCallback) :
  DLOB.orderLists d !! marketIndex o = None →
  ∃ reading,
    DLOB.insert o user callback d
    = (Throw (unknownMarketError (marketIndex o) reading),
       {| DLOB.openOrders :=
            if bool_decide (status o = StatusOpen)
            then {[getOrderId o user]} ∪ DLOB.openOrders d else DLOB.openOrders d;
          DLOB.orderLists := DLOB.orderLists d |}).
Proof.
  intros Hm. eexists. unfold DLOB.insert.
  rewrite isVariant_order_init, isVariant_status_open.
  case_bool_decide; run_method; rewrite getListForOrder_unknown by done;
    cbn; destruct d; reflexivity.
Qed.

Lemma remove_unknown_market (d : DLOB.t) (o : Order) (user : PublicKey)
    (callback : option DLOB.OrderBookCallback) :
  DLOB.orderLists d !! marketIndex o = None →
  ∃ reading,
    DLOB.remove o user callback d
    = (Throw (unknownMarketError (marketIndex o) reading),
       {| DLOB.openOrders := DLOB.openOrders d ∖ {[getOrderId o user]};
          DLOB.orderLists := DLOB.orderLists d |}).
Proof.
  intros Hm. eexists. unfold DLOB.remove. run_method.
  rewrite getListForOrder_unknown by done. reflexivity.
Qed.

(** C8, as stated, fails: inserting an open limit bid of market 7 into the
    book of market 0 throws, and the id of the order has joined [openOrders];
    removing the order from the book so obtained throws as well, and the id
    has left [openOrders]. *)
Lemma C8_unknown_market_insert_counterexample :
  let d := after (DLOB.insert strayOrder "alice" None) emptyBook in
  marketIndex strayOrder = 7
  ∧ DLOB.orderLists emptyBook !! 7 = None
  ∧ outcome (DLOB.insert strayOrder "alice" None) emptyBook = Throw (TypeError "limit")
  ∧ elements (DLOB.openOrders emptyBook) = []
  ∧ elements (DLOB.openOrders d) = [("alice", 1)]
  ∧ DLOB.orderLists d !! 7 = None
  ∧ outcome (DLOB.remove strayOrder "alice" None) d = Throw (TypeError "limit")
  ∧ elements (DLOB.openOrders (after (DLOB.remove strayOrder "alice" None) d)) = [].
Proof. repeat split; vm_compute; reflexivity. Qed.

(** C8, amended: for a market that is not in [orderLists], every mutator
    ([insert] of an order that is not [init], [remove], [update], [trigger])
    and every reader throws: the [TypeError] of reading a property of
    [undefined], or, when the index has more than 53 bits, the [Error] of
    [toNumber] (there is no error of its own for an unknown market, and the
    call-back is not fired). The order lists are unchanged. [openOrders] is
    unchanged by [update], by [trigger] and by the readers, by [insert] of
    an order whose status is not [open] or whose id is in it already, and by
    [remove] of an order whose id is not in it. The generators of [getAsks]
    and [getBids] throw at their first [next()]. *)
Theorem C8_unknown_market_throws (d : DLOB.t) (o : Order) (user : PublicKey)
    (callback : option DLOB.OrderBookCallback)
    (vBid vAsk slot oraclePrice : Z) (oracle : option OraclePriceData.t) :
  DLOB.orderLists d !! marketIndex o = None →
  let m := marketIndex o in
  (status o ≠ StatusInit →
   ∃ e d',
     DLOB.insert o user callback d = (Throw e, d')
     ∧ isUnknownMarketError m e
     ∧ DLOB.orderLists d' = DLOB.orderLists d
     ∧ (status o ≠ StatusOpen ∨ getOrderId o user ∈ DLOB.openOrders d →
        DLOB.openOrders d' = DLOB.openOrders d))
  ∧ (∃ e d',
       DLOB.remove o user callback d = (Throw e, d')
       ∧ isUnknownMarketError m e
       ∧ DLOB.orderLists d' = DLOB.orderLists d
       ∧ (getOrderId o user ∉ DLOB.openOrders d →
          DLOB.openOrders d' = DLOB.openOrders d))
  ∧ (∃ e, DLOB.update o user callback d = (Throw e, d) ∧ isUnknownMarketError m e)
  ∧ (∃ e, DLOB.trigger o user callback d = (Throw e, d) ∧ isUnknownMarketError m e)
  ∧ (∃ e, DLOB.findNodesToFill d m vBid vAsk slot oracle = Throw e
          ∧ isUnknownMarketError m e)
  ∧ (∃ e, DLOB.findNodesToTrigger d m slot oraclePrice = Throw e
          ∧ isUnknownMarketError m e)
  ∧ (∃ e, DLOB.getBestAsk d m vAsk slot oracle = Throw e ∧ isUnknownMarketError m e)
  ∧ (∃ e, DLOB.getBestBid d m vBid slot oracle = Throw e ∧ isUnknownMarketError m e)
  ∧ (∃ e, MergeGenerator_next (DLOB.getAsks d m vAsk slot oracle) = Throw e
          ∧ isUnknownMarketError m e)
  ∧ (∃ e, MergeGenerator_next (DLOB.getBids d m vBid slot oracle) = Throw e
          ∧ isUnknownMarketError m e)
  ∧ (Z.abs m < 2 ^ 53 → ∀ e, isUnknownMarketError m e → ∃ reading, e = TypeError reading)
  ∧ (2 ^ 53 ≤ Z.abs m → ∀ e, isUnknownMarketError m e →
       e = AssertionError "Number can only safely store up to 53 bits").
Proof.
  intros Hm m.
  assert (Hasks : MergeGenerator_next (DLOB.getAsks d m vAsk slot oracle)
                  = Throw (unknownMarketError m "limit")).
  { apply MergeGenerator_next_unknown. cbn. by rewrite (marketLists_unknown _ _ _ Hm). }
  assert (Hbids : MergeGenerator_next (DLOB.getBids d m vBid slot oracle)
                  = Throw (unknownMarketError m "limit")).
  { apply MergeGenerator_next_unknown. cbn. by rewrite (marketLists_unknown _ _ _ Hm). }
  repeat apply conj.
  - intros _. destruct (insert_unknown_market d o user callback Hm) as [reading ->].
    eexists _, _. split; [done|]. split; [by exists reading|]. split; [done|].
    intros Hsame. cbn. case_bool_decide as Hopen; [|done].
    destruct Hsame as [Hne | Hin]; [done|]. apply set_eq. intros id.
    rewrite elem_of_union, elem_of_singleton. split; [|tauto].
    by intros [-> | Hid].
  - destruct (remove_unknown_market d o user callback Hm) as [reading ->].
    eexists _, _. split; [done|]. split; [by exists reading|]. split; [done|].
    intros Hid. cbn. apply set_eq. intros id.
    rewrite elem_of_difference, elem_of_singleton. split; [tauto|].
    intros Hin. split; [done|]. by intros ->.
  - eexists. split; [|by eexists]. unfold DLOB.update. run_method.
    rewrite getListForOrder_unknown by done. reflexivity.
  - eexists. split; [|by eexists]. unfold DLOB.trigger. run_method.
    rewrite (marketLists_unknown _ _ _ Hm). reflexivity.
  - eexists. split; [|by eexists].
    unfold DLOB.findNodesToFill, DLOB.findCrossingNodesToFill,
      DLOB.scanCrossingNodes. rewrite Hasks. reflexivity.
  - eexists. split; [|by eexists]. unfold DLOB.findNodesToTrigger.
    rewrite (marketLists_unknown _ _ _ Hm). reflexivity.
  - eexists. split; [|by eexists].
    unfold DLOB.getBestAsk, DLOB.bestPrice. rewrite Hasks. reflexivity.
  - eexists. split; [|by eexists].
    unfold DLOB.getBestBid, DLOB.bestPrice. rewrite Hbids. reflexivity.
  - eexists. split; [exact Hasks | by eexists].
  - eexists. split; [exact Hbids | by eexists].
  - intros Hfits e [reading ->]. exists reading.
    unfold unknownMarketError, toNumber. by destruct (Z.ltb_spec (Z.abs m) (2 ^ 53)); [|lia].
  - intros Hbig e [reading ->].
    unfold unknownMarketError, toNumber. by destruct (Z.ltb_spec (Z.abs m) (2 ^ 53)); [lia|].
Qed.

Lemma C8_unknown_market_throws_witness :
  (∃ e d',
     DLOB.insert strayFilledOrder "alice" None emptyBook = (Throw e, d')
     ∧ (∃ reading, e = TypeError reading)
     ∧ DLOB.orderLists d' = DLOB.orderLists emptyBook
     ∧ DLOB.openOrders d' = DLOB.openOrders emptyBook)
  ∧ (∃ e d',
       DLOB.remove strayFilledOrder "alice" None emptyBook = (Throw e, d')
       ∧ (∃ reading, e = TypeError reading)
       ∧ DLOB.orderLists d' = DLOB.orderLists emptyBook
       ∧ DLOB.openOrders d' = DLOB.openOrders emptyBook)
  ∧ (∃ e, DLOB.update strayFilledOrder "alice" None emptyBook = (Throw e, emptyBook)
          ∧ ∃ reading, e = TypeError reading)
  ∧ (∃ e, DLOB.trigger strayFilledOrder "alice" None emptyBook = (Throw e, emptyBook)
          ∧ ∃ reading, e = TypeError reading)
  ∧ (∃ e, DLOB.findNodesToFill emptyBook 7 90 110 5 None = Throw e
          ∧ ∃ reading, e = TypeError reading)
  ∧ (∃ e, DLOB.findNodesToTrigger emptyBook 7 5 100 = Throw e
          ∧ ∃ reading, e = TypeError reading)
  ∧ (∃ e, DLOB.getBestAsk emptyBook 7 110 5 None = Throw e
          ∧ ∃ reading, e = TypeError reading)
  ∧ (∃ e, DLOB.getBestBid emptyBook 7 90 5 None = Throw e
          ∧ ∃ reading, e = TypeError reading)
  ∧ (∃ e, MergeGenerator_next (DLOB.getAsks emptyBook 7 110 5 None) = Throw e
          ∧ ∃ reading, e = TypeError reading)
  ∧ (∃ e, MergeGenerator_next (DLOB.getBids emptyBook 7 90 5 None) = Throw e
          ∧ ∃ reading, e = TypeError reading).
Proof.
  destruct (C8_unknown_market_throws emptyBook strayFilledOrder "alice" None
              90 110 5 100 None)
    as (Hinsert & Hremove & Hupdate & Htrigger & Hfill & Htrig & Hask & Hbid
        & Hasks & Hbids & Hfits & _).
  { vm_compute. reflexivity. }
  assert (Htype : ∀ e, isUnknownMarketError (marketIndex strayFilledOrder) e →
                       ∃ reading, e = TypeError reading).
  { apply Hfits. vm_compute. reflexivity. }
  destruct Hinsert as (e1 & d1 & Hrun1 & He1 & Hlists1 & Hopen1); [discriminate|].
  destruct Hremove as (e2 & d2 & Hrun2 & He2 & Hlists2 & Hopen2).
  destruct Hupdate as (e3 & Hrun3 & He3). destruct Htrigger as (e4 & Hrun4 & He4).
  destruct Hfill as (e5 & Hrun5 & He5). destruct Htrig as (e6 & Hrun6 & He6).
  destruct Hask as (e7 & Hrun7 & He7). destruct Hbid as (e8 & Hrun8 & He8).
  destruct Hasks as (e9 & Hrun9 & He9). destruct Hbids as (e10 & Hrun10 & He10).
  repeat apply conj.
  - exists e1, d1. repeat split; [done | by apply Htype | done |].
    apply Hopen1. left. discriminate.
  - exists e2, d2. repeat split; [done | by apply Htype | done |].
    apply Hopen2. exact (not_elem_of_empty _).
  - exists e3. split; [done | by apply Htype].
  - exists e4. split; [done | by apply Htype].
  - exists e5. split; [done | by apply Htype].
  - exists e6. split; [done | by apply Htype].
  - exists e7. split; [done | by apply Htype].
  - exists e8. split; [done | by apply Htype].
  - exists e9. split; [done | by apply Htype].
  - exists e10. split; [done | by apply Htype].
Defined.

(** An index of 54 bits: the error is the one of [toNumber], and [insert]
    has added the id of the open order before it. *)
Example unknown_market_of_54_bits :
  outcome (DLOB.update hugeOrder "alice" None) emptyBook
  = Throw (AssertionError "Number can only safely store up to 53 bits")
  ∧ DLOB.insert hugeOrder "alice" None emptyBook
    = (Throw (AssertionError "Number can only safely store up to 53 bits"),
       {| DLOB.openOrders := {[("alice", 1)]};
          DLOB.orderLists := DLOB.orderLists emptyBook |})
  ∧ DLOB.findNodesToFill emptyBook (2 ^ 53) 90 110 5 None
    = Throw (AssertionError "Number can only safely store up to 53 bits").
Proof. repeat split; vm_compute; reflexivity. Qed.

(** ** The merge of [getAsks] and [getBids] *)

Lemma getPrice_supplied (n : DLOBNode) (o : OraclePriceData.t) (slot : Z) :
  getPrice n (Some o) slot = Ok (priceAt o slot n).
Proof.
  unfold priceAt. destruct n as [u|p]; cbn; [|done]. by destruct (nodeClass u).
Qed.

Lemma sideKeeps_rank (side : Side) (a b : Z) :
  sideKeeps side a b = (rank side a <? rank side b).
Proof.
  destruct side; cbn; [done|].
  rewrite Z.gtb_ltb. destruct (Z.ltb_spec b a), (Z.ltb_spec (- a) (- b)); (done || lia).
Qed.

Lemma rank_noWorse (side : Side) (a b : Z) :
  rank side a ≤ rank side b ↔ noWorse side a b.
Proof. destruct side; cbn; lia. Qed.

Lemma optLe_trans (a b c : option Z) : optLe a b → optLe b c → optLe a c.
Proof. destruct a, b, c; cbn; (done || lia). Qed.

Lemma optLe_optLt (a b c : option Z) : optLe a b → optLt b c → optLt a c.
Proof. destruct a, b, c; cbn; (done || lia). Qed.

Lemma optLt_optLe (a b : option Z) : optLt a b → optLe a b.
Proof. destruct a, b; cbn; (done || lia). Qed.

Lemma optLe_refl_head (a : option Z) : optLe a a.
Proof. destruct a; cbn; (done || lia). Qed.

Section Merge.

Context (side : Side) (o : OraclePriceData.t) (slot : Z).

Local Abbreviation hr := (λ e : nat * Peeked, headRank side o slot e.2).
Local Abbreviation merge_reducer := (reducer (sideKeeps side) (Some o) slot).

(** The reducer keeps the best entry so far only when it is strictly better
    than the current one. *)
Lemma reducer_supplied (b c : nat * Peeked) :
  (merge_reducer b c = Ok b ∧ optLt (hr b) (hr c))
  ∨ (merge_reducer b c = Ok c ∧ optLe (hr c) (hr b)).
Proof.
  unfold reducer, headRank.
  destruct (next c.2) as [cv|]; cbn; [|by left].
  destruct (next b.2) as [bv|]; cbn; [|by right].
  rewrite !getPrice_supplied. cbn. rewrite sideKeeps_rank.
  destruct (Z.ltb_spec (rank side (priceAt o slot bv)) (rank side (priceAt o slot cv)));
    [left | right]; split; (done || lia).
Qed.

(** The entry that [reduce] returns is at least as good as every entry before
    it and strictly better than every entry after it. *)
Lemma foldlM_reducer (l : list (nat * Peeked)) (b : nat * Peeked) :
  ∃ (k : nat) r,
    foldlM merge_reducer l b = Ok r
    ∧ (b :: l) !! k = Some r
    ∧ ∀ (j : nat) e, (b :: l) !! j = Some e →
        ((j < k)%nat → optLe (hr r) (hr e)) ∧ ((k < j)%nat → optLt (hr r) (hr e)).
Proof.
  revert b. induction l as [|c l IH]; intros b.
  - exists 0%nat, b. cbn. split; [done|]. split; [done|].
    intros j e Hj. destruct j as [|j]; [split; lia | done].
  - cbn [foldlM]. destruct (reducer_supplied b c) as [[-> Hbc] | [-> Hcb]]; cbn.
    + destruct (IH b) as (k & r & Hfold & Hk & Hall).
      destruct k as [|k].
      * cbn in Hk. injection Hk as <-.
        exists 0%nat, b. split; [done|]. split; [done|].
        intros j e Hj. split; [lia|]. intros Hlt.
        destruct j as [|[|j]]; [lia| |].
        -- cbn in Hj. by injection Hj as <-.
        -- apply (Hall (S j) e); [done | lia].
      * exists (S (S k)), r. split; [done|]. split; [done|].
        intros j e Hj. destruct j as [|[|j]].
        -- cbn in Hj. injection Hj as <-. split; [|lia].
           intros _. apply (Hall 0%nat b); [done | lia].
        -- cbn in Hj. injection Hj as <-. split; [|lia].
           intros _. apply optLt_optLe. eapply optLe_optLt; [|exact Hbc].
           apply (Hall 0%nat b); [done | lia].
        -- destruct (Hall (S j) e Hj) as [H1 H2].
           split; intros; [apply H1 | apply H2]; lia.
    + destruct (IH c) as (k & r & Hfold & Hk & Hall).
      exists (S k), r. split; [done|]. split; [done|].
      intros j e Hj. destruct j as [|j].
      * cbn in Hj. injection Hj as <-. split; [|lia]. intros _.
        eapply optLe_trans; [|exact Hcb].
        destruct k as [|k].
        -- cbn in Hk. injection Hk as <-. apply optLe_refl_head.
        -- apply (Hall 0%nat c); [done | lia].
      * destruct (Hall j e Hj) as [H1 H2].
        split; intros; [apply H1 | apply H2]; lia.
Qed.

Lemma indexed_lookup (gens : list Peeked) (j : nat) (e : nat * Peeked) :
  indexed gens !! j = Some e ↔ ∃ q, gens !! j = Some q ∧ e = (j, q).
Proof.
  unfold indexed. rewrite list_lookup_imap. destruct (gens !! j) as [q|]; cbn.
  - split; [intros [= <-]; by exists q | intros (q' & [= <-] & ->); done].
  - split; [done | intros (q' & Hq & _); done].
Qed.

(** One turn of the merge, with oracle data: either every entry is exhausted
    and nothing is yielded, or the node yielded is the one peeked by the
    entry [i] that is at least as good as the entries before it and strictly
    better than the entries after it; that entry alone is advanced. *)
Lemma mergeStep_supplied (gens : list Peeked) :
  gens ≠ [] →
  (mergeStep (sideKeeps side) (Some o) slot gens = Ok (None, gens)
   ∧ ∀ p, p ∈ gens → next p = None)
  ∨ ∃ (i : nat) p v,
      gens !! i = Some p ∧ next p = Some v
      ∧ mergeStep (sideKeeps side) (Some o) slot gens
        = Ok (Some v, <[i := peek (generator p)]> gens)
      ∧ ∀ (j : nat) q, gens !! j = Some q →
          ((j < i)%nat → optLe (headRank side o slot p) (headRank side o slot q))
          ∧ ((i < j)%nat → optLt (headRank side o slot p) (headRank side o slot q)).
Proof.
  intros Hne. unfold mergeStep, reduce.
  destruct (indexed gens) as [|b l] eqn:E.
  { destruct gens; [done | discriminate E]. }
  destruct (foldlM_reducer l b) as (k & r & -> & Hk & Hall).
  rewrite <- E in Hk, Hall. apply indexed_lookup in Hk as (p & Hp & ->). cbn.
  assert (Hall' : ∀ (j : nat) q, gens !! j = Some q →
            ((j < k)%nat → optLe (headRank side o slot p) (headRank side o slot q))
            ∧ ((k < j)%nat → optLt (headRank side o slot p) (headRank side o slot q))).
  { intros j q Hq. apply (Hall j (j, q)). apply indexed_lookup. by exists q. }
  destruct (next p) as [v|] eqn:Hv.
  - right. exists k, p, v. by rewrite Hv.
  - left. split; [done|]. intros q [j Hq]%list_elem_of_lookup.
    destruct (Hall' j q Hq) as [H1 H2]. unfold headRank in H1, H2. rewrite Hv in H1, H2.
    destruct (lt_eq_lt_dec j k) as [[Hlt | ->] | Hgt].
    + specialize (H1 Hlt). destruct (next q); [done | done].
    + congruence.
    + specialize (H2 Hgt). destruct (next q); [done | done].
Qed.

End Merge.

Lemma sideGenerator_known (side : Side) (d : DLOB.t) (m vPrice slot : Z)
    (o : OraclePriceData.t) (nodeLists : MarketNodeLists.t) :
  DLOB.orderLists d !! m = Some nodeLists →
  sideGenerator side d m vPrice slot (Some o)
  = generatorAt side o slot (sideSources side nodeLists vPrice).
Proof.
  intros Hm. destruct side; unfold sideGenerator, DLOB.getAsks, DLOB.getBids, generatorAt;
    by rewrite (marketLists_known _ _ _ _ Hm).
Qed.

Lemma sideSources_length (side : Side) (nodeLists : MarketNodeLists.t) (vPrice : Z) :
  length (sideSources side nodeLists vPrice) = 4%nat.
Proof. by destruct side. Qed.

Lemma MergeGenerator_next_generatorAt (side : Side) (o : OraclePriceData.t) (slot : Z)
    (gens : list Peeked) :
  MergeGenerator_next (generatorAt side o slot gens)
  = '(value, gens') ← mergeStep (sideKeeps side) (Some o) slot gens;
    Ok (value, generatorAt side o slot gens').
Proof. reflexivity. Qed.

(** With oracle data, [next()] on a generator of four entries returns, and
    leaves a generator of four entries. *)
Lemma MergeGenerator_next_supplied (side : Side) (o : OraclePriceData.t) (slot : Z)
    (gens : list Peeked) :
  gens ≠ [] →
  ∃ value gens',
    MergeGenerator_next (generatorAt side o slot gens)
    = Ok (value, generatorAt side o slot gens')
    ∧ length gens' = length gens.
Proof.
  intros Hne. rewrite MergeGenerator_next_generatorAt.
  destruct (mergeStep_supplied side o slot gens Hne)
    as [[-> _] | (i & p & v & _ & _ & -> & _)]; cbn.
  - by exists None, gens.
  - eexists _, _. split; [reflexivity|]. apply length_insert.
Qed.

Lemma laterState_generatorAt (side : Side) (o : OraclePriceData.t) (slot : Z)
    (gens0 : list Peeked) (g : MergeGenerator) :
  gens0 ≠ [] →
  laterState (generatorAt side o slot gens0) g →
  ∃ gens, g = generatorAt side o slot gens ∧ length gens = length gens0.
Proof.
  intros Hne. induction 1 as [|g' g'' value _ (gens & -> & Hlen) Hnext].
  - by exists gens0.
  - assert (Hne' : gens ≠ []) by (destruct gens, gens0; done).
    destruct (MergeGenerator_next_supplied side o slot gens Hne')
      as (value' & gens' & Heq & Hlen').
    rewrite Heq in Hnext. injection Hnext as _ <-.
    exists gens'. split; [done | congruence].
Qed.

(** C1, as stated, fails: a limit ask at 100 and the vAMM ask at 100 are the
    peeked nodes of the first and of the last source of [getAsks]; the node
    yielded first is the vAMM's, the user's order comes after it. *)
Lemma C1_vamm_before_user_counterexample :
  let askOrder := sampleOrder 1 TypeLimit StatusOpen DirShort 100 0 1 false in
  let d := inserted [(askOrder, "alice")] emptyBook in
  sources (DLOB.getAsks d 0 100 5 None)
  = Ok [ {| next := Some (userNode NLimit askOrder "alice"); generator := [] |};
         {| next := None; generator := [] |};
         {| next := None; generator := [] |};
         {| next := Some (VammNode 100); generator := [] |} ]
  ∧ getPrice (userNode NLimit askOrder "alice") None 5 = Ok 100
  ∧ getPrice (VammNode 100) None 5 = Ok 100
  ∧ yielded (DLOB.getAsks d 0 100 5 None)
    = Ok [VammNode 100; userNode NLimit askOrder "alice"].
Proof. repeat split; vm_compute; reflexivity. Qed.

Lemma elems_peek (l : list DLOBNode) : elems (peek l) = l.
Proof. by destruct l. Qed.

(** When the generator starts, each entry holds the whole of its source. *)
Lemma entriesOf_sideSources (side : Side) (nodeLists : MarketNodeLists.t) (vPrice : Z) :
  entriesOf (sideStreams side nodeLists vPrice) (sideSources side nodeLists vPrice).
Proof.
  unfold entriesOf, sideSources, sideStreams.
  apply Forall2_fmap_r, Forall_Forall2_diag, Forall_forall.
  intros l _. unfold compose. by rewrite elems_peek.
Qed.

(** Advancing the entry at [i] leaves every entry at the position of its
    source. *)
Lemma entriesOf_step (streams : list (list DLOBNode)) (gens : list Peeked)
    (i : nat) (p : Peeked) (v : DLOBNode) :
  entriesOf streams gens → gens !! i = Some p → next p = Some v →
  entriesOf streams (<[i := peek (generator p)]> gens).
Proof.
  unfold entriesOf. intros Hall Hp Hv.
  destruct (Forall2_lookup_r _ _ _ _ _ Hall Hp) as (stream & Hstream & Hsuffix).
  rewrite <- (list_insert_id streams i stream Hstream).
  apply Forall2_insert; [done|]. rewrite elems_peek.
  apply suffix_cons_l with v. unfold elems in Hsuffix. by rewrite Hv in Hsuffix.
Qed.

(** In every later state of the merge the entry at a position is what is
    left of the source at that position. *)
Lemma laterState_entries (side : Side) (o : OraclePriceData.t) (slot : Z)
    (streams : list (list DLOBNode)) (gens0 : list Peeked) (g : MergeGenerator) :
  gens0 ≠ [] → entriesOf streams gens0 →
  laterState (generatorAt side o slot gens0) g →
  ∃ gens, g = generatorAt side o slot gens ∧ entriesOf streams gens.
Proof.
  intros Hne Hstart. induction 1 as [|g' g'' value _ (gens & -> & Hgens) Hnext].
  - by exists gens0.
  - assert (Hne' : gens ≠ []).
    { apply Forall2_length in Hstart, Hgens. destruct gens, gens0; (done || congruence). }
    rewrite MergeGenerator_next_generatorAt in Hnext.
    destruct (mergeStep_supplied side o slot gens Hne')
      as [[Hstep _] | (i & p & v & Hp & Hv & Hstep & _)];
      rewrite Hstep in Hnext; cbn in Hnext; injection Hnext as _ <-.
    + by exists gens.
    + eexists. split; [done|]. by eapply entriesOf_step.
Qed.

Lemma sideStreams_vamm (side : Side) (nodeLists : MarketNodeLists.t) (vPrice : Z) :
  length (sideStreams side nodeLists vPrice) = 4%nat
  ∧ sideStreams side nodeLists vPrice !! 3%nat = Some [VammNode vPrice].
Proof. by destruct side. Qed.

Lemma suffix_singleton (v x : DLOBNode) (l : list DLOBNode) :
  v :: l `suffix_of` [x] → v = x.
Proof.
  intros [k Hk]. destruct k as [|y [|z k]]; cbn in Hk.
  - by injection Hk as <-.
  - discriminate Hk.
  - discriminate Hk.
Qed.

(** C1, amended: at every step of [getAsks] and of [getBids], with oracle
    data, the entries of the merge stand in the order of their sources,
    limit, floatingLimit, market, vAMM: the entry at a position holds what is
    left of the source at that position, in the first state and in every
    later one, and a step advances the entry of the node it yields and no
    other. The node yielded is the one peeked by the last source, in that
    order, among the sources whose peeked node has the best price: its price
    is at least as good as that of every peeked node, and a source that peeks
    a node of the same price is not a later one. At equal price the vAMM
    node is therefore yielded before a user's order: when the vAMM node is
    still to come and has the price of the node yielded, the node yielded is
    the vAMM node. *)
Theorem C1_equal_price_yields_later_source (side : Side) (d : DLOB.t)
    (m vPrice slot : Z) (o : OraclePriceData.t) (nodeLists : MarketNodeLists.t)
    (g : MergeGenerator) :
  DLOB.orderLists d !! m = Some nodeLists →
  laterState (sideGenerator side d m vPrice slot (Some o)) g →
  ∃ gens,
    sources g = Ok gens ∧ length gens = 4%nat
    ∧ entriesOf (sideStreams side nodeLists vPrice) gens
    ∧ ((MergeGenerator_next g = Ok (None, g) ∧ ∀ p, p ∈ gens → next p = None)
       ∨ ∃ (i : nat) p v g',
           gens !! i = Some p ∧ next p = Some v
           ∧ MergeGenerator_next g = Ok (Some v, g')
           ∧ sources g' = Ok (<[i := peek (generator p)]> gens)
           ∧ (∀ (j : nat) q w, gens !! j = Some q → next q = Some w →
                noWorse side (priceAt o slot v) (priceAt o slot w)
                ∧ (priceAt o slot w = priceAt o slot v → (j ≤ i)%nat))
           ∧ (∀ q w, gens !! 3%nat = Some q → next q = Some w →
                priceAt o slot w = priceAt o slot v →
                i = 3%nat ∧ v = VammNode vPrice)).
Proof.
  intros Hm Hlater. rewrite (sideGenerator_known _ _ _ _ _ _ _ Hm) in Hlater.
  apply (laterState_entries side o slot (sideStreams side nodeLists vPrice))
    in Hlater as (gens & -> & Hgens);
    [|by destruct side | apply entriesOf_sideSources].
  destruct (sideStreams_vamm side nodeLists vPrice) as [Hlen Hvamm].
  assert (Hlen' : length gens = 4%nat).
  { apply Forall2_length in Hgens. congruence. }
  exists gens. split; [done|]. split; [done|]. split; [done|].
  assert (Hne : gens ≠ []) by (by destruct gens).
  rewrite MergeGenerator_next_generatorAt.
  destruct (mergeStep_supplied side o slot gens Hne)
    as [[-> Hdone] | (i & p & v & Hp & Hv & -> & Hbest)]; cbn.
  - by left.
  - right. exists i, p, v. eexists. do 4 (split; [done|]).
    assert (Hties : ∀ (j : nat) q w, gens !! j = Some q → next q = Some w →
              noWorse side (priceAt o slot v) (priceAt o slot w)
              ∧ (priceAt o slot w = priceAt o slot v → (j ≤ i)%nat)).
    { intros j q w Hq Hw. destruct (Hbest j q Hq) as [Hbefore Hafter].
      unfold headRank in Hbefore, Hafter. rewrite Hv, Hw in Hbefore, Hafter.
      cbn in Hbefore, Hafter.
      destruct (lt_eq_lt_dec j i) as [[Hlt | ->] | Hgt].
      - specialize (Hbefore Hlt). split; [by apply rank_noWorse | lia].
      - assert (w = v) as -> by congruence.
        split; [apply rank_noWorse; lia | lia].
      - specialize (Hafter Hgt). split; [apply rank_noWorse; lia|].
        intros Heq. rewrite Heq in Hafter. lia. }
    split; [exact Hties|].
    intros q w Hq Hw Heq. destruct (Hties 3%nat q w Hq Hw) as [_ Hlast].
    specialize (Hlast Heq). pose proof (lookup_lt_Some _ _ _ Hp) as Hi.
    assert (i = 3%nat) as -> by lia. split; [done|].
    destruct (Forall2_lookup_r _ _ _ _ _ Hgens Hp) as (stream & Hstream & Hsuffix).
    rewrite Hvamm in Hstream. injection Hstream as <-.
    unfold elems in Hsuffix. rewrite Hv in Hsuffix. by apply suffix_singleton in Hsuffix.
Qed.

Lemma C1_equal_price_yields_later_source_witness :
  let g := afterNext (sideGenerator SideAsk stepBook 0 100 5 (oracleAt 0)) in
  let o := {| OraclePriceData.price := 0 |} in
  ∃ gens,
    sources g = Ok gens ∧ length gens = 4%nat
    ∧ entriesOf (sideStreams SideAsk (listsOf stepBook 0) 100) gens
    ∧ ((MergeGenerator_next g = Ok (None, g) ∧ ∀ p, p ∈ gens → next p = None)
       ∨ ∃ (i : nat) p v g',
           gens !! i = Some p ∧ next p = Some v
           ∧ MergeGenerator_next g = Ok (Some v, g')
           ∧ sources g' = Ok (<[i := peek (generator p)]> gens)
           ∧ (∀ (j : nat) q w, gens !! j = Some q → next q = Some w →
                noWorse SideAsk (priceAt o 5 v) (priceAt o 5 w)
                ∧ (priceAt o 5 w = priceAt o 5 v → (j ≤ i)%nat))
           ∧ (∀ q w, gens !! 3%nat = Some q → next q = Some w →
                priceAt o 5 w = priceAt o 5 v →
                i = 3%nat ∧ v = VammNode 100)).
Proof.
  apply (C1_equal_price_yields_later_source SideAsk stepBook 0 100 5
           {| OraclePriceData.price := 0 |} (listsOf stepBook 0)).
  - vm_compute. reflexivity.
  - eapply later_next; [apply later_now | vm_compute; reflexivity].
Defined.

(** Past the first step: once the limit ask at 90 is yielded, the limit ask
    at 100 and the vAMM ask at 100 are peeked at the first and at the last
    position, and the vAMM ask is yielded before the limit ask. *)
Example merge_past_first_step :
  let alice := userNode NLimit (sampleOrder 1 TypeLimit StatusOpen DirShort 90 0 1 false)
                        "alice" in
  let bob := userNode NLimit (sampleOrder 2 TypeLimit StatusOpen DirShort 100 0 2 false)
                      "bob" in
  sources (afterNext (sideGenerator SideAsk stepBook 0 100 5 (oracleAt 0)))
  = Ok [ {| next := Some bob; generator := [] |};
         {| next := None; generator := [] |};
         {| next := None; generator := [] |};
         {| next := Some (VammNode 100); generator := [] |} ]
  ∧ yielded (sideGenerator SideAsk stepBook 0 100 5 (oracleAt 0))
    = Ok [alice; VammNode 100; bob].
Proof. split; vm_compute; reflexivity. Qed.

(** *** The order of the merged sequence *)

Lemma remaining_cons (p : Peeked) (gens : list Peeked) :
  remaining (p :: gens)
  = (length (generator p) + match next p with Some _ => 1 | None => 0 end
     + remaining gens)%nat.
Proof. reflexivity. Qed.

Lemma remaining_step (gens : list Peeked) (i : nat) (p : Peeked) (v : DLOBNode) :
  gens !! i = Some p → next p = Some v →
  remaining gens = S (remaining (<[i := peek (generator p)]> gens)).
Proof.
  revert i. induction gens as [|q gens IH]; intros i Hp Hv; [done|].
  destruct i as [|i]; cbn in Hp.
  - injection Hp as ->.
    change (<[0%nat := peek (generator p)]> (p :: gens)) with (peek (generator p) :: gens).
    rewrite !remaining_cons, Hv. destruct (generator p); cbn; lia.
  - change (<[S i := peek (generator p)]> (q :: gens))
      with (q :: <[i := peek (generator p)]> gens).
    rewrite !remaining_cons, (IH i Hp Hv). lia.
Qed.

Section MergeOrder.

Context (side : Side) (o : OraclePriceData.t) (slot : Z).

Local Abbreviation R := (noWorseNode side o slot).

Lemma noWorseNode_trans (x y z : DLOBNode) : R x y → R y z → R x z.
Proof. unfold noWorseNode, noWorse. destruct side; lia. Qed.

(** The node yielded is at least as good as every node still to come. *)
Lemma mergeStep_best (gens : list Peeked) (i : nat) (p : Peeked) (v : DLOBNode) :
  Forall (λ q, StronglySorted R (elems q)) gens →
  gens !! i = Some p → next p = Some v →
  (∀ (j : nat) q, gens !! j = Some q →
     ((j < i)%nat → optLe (headRank side o slot p) (headRank side o slot q))
     ∧ ((i < j)%nat → optLt (headRank side o slot p) (headRank side o slot q))) →
  ∀ q x, q ∈ gens → x ∈ elems q → R v x.
Proof.
  intros Hsorted Hp Hv Hbest q x [j Hq]%list_elem_of_lookup Hx.
  assert (Hq' : StronglySorted R (elems q)).
  { rewrite Forall_forall in Hsorted. apply Hsorted. apply list_elem_of_lookup. eauto. }
  unfold elems in Hx, Hq'. destruct (next q) as [w|] eqn:Hw; [|by apply elem_of_nil in Hx].
  assert (Hvw : R v w).
  { destruct (Hbest j q Hq) as [Hbefore Hafter].
    unfold headRank in Hbefore, Hafter. rewrite Hv, Hw in Hbefore, Hafter.
    cbn in Hbefore, Hafter. unfold noWorseNode. apply rank_noWorse.
    destruct (lt_eq_lt_dec j i) as [[Hlt | ->] | Hgt].
    - by apply Hbefore.
    - assert (w = v) as -> by congruence. lia.
    - specialize (Hafter Hgt). lia. }
  apply elem_of_cons in Hx as [-> | Hx]; [done|].
  apply StronglySorted_inv in Hq' as [_ Hall]. rewrite Forall_forall in Hall.
  eapply noWorseNode_trans; [exact Hvw | by apply Hall].
Qed.

(** Draining a generator whose sources are each in price order returns, and
    what it returns is in price order. *)
Lemma drain_ordered (fuel : nat) (gens : list Peeked) :
  gens ≠ [] →
  Forall (λ q, StronglySorted R (elems q)) gens →
  (remaining gens < fuel)%nat →
  ∃ out,
    drain fuel (generatorAt side o slot gens) = Ok out
    ∧ StronglySorted R out
    ∧ ∀ x, x ∈ out → ∃ q, q ∈ gens ∧ x ∈ elems q.
Proof.
  revert gens. induction fuel as [|fuel IH]; intros gens Hne Hsorted Hfuel; [lia|].
  cbn [drain]. rewrite MergeGenerator_next_generatorAt.
  destruct (mergeStep_supplied side o slot gens Hne)
    as [[-> Hdone] | (i & p & v & Hp & Hv & -> & Hbest)]; cbn.
  - exists []. split; [done|]. split; [constructor|]. by intros x Hx%elem_of_nil.
  - assert (Hin : ∀ q x, q ∈ <[i := peek (generator p)]> gens → x ∈ elems q →
                    ∃ q', q' ∈ gens ∧ x ∈ elems q').
    { intros q x [j Hq]%list_elem_of_lookup Hx.
      destruct (decide (i = j)) as [<- | Hij].
      - rewrite list_lookup_insert_eq in Hq by (by eapply lookup_lt_Some).
        injection Hq as <-. rewrite elems_peek in Hx.
        exists p. split; [apply list_elem_of_lookup; eauto|].
        unfold elems. rewrite Hv. by apply elem_of_cons; right.
      - rewrite list_lookup_insert_ne in Hq by done.
        exists q. split; [apply list_elem_of_lookup; eauto | done]. }
    destruct (IH (<[i := peek (generator p)]> gens)) as (rest & -> & Hrest & Hsub).
    + intros Hnil. apply (f_equal length) in Hnil. rewrite length_insert in Hnil.
      by destruct gens.
    + apply Forall_insert; [done|]. rewrite elems_peek.
      assert (Hp' : StronglySorted R (elems p)).
      { rewrite Forall_forall in Hsorted. apply Hsorted. apply list_elem_of_lookup. eauto. }
      unfold elems in Hp'. rewrite Hv in Hp'. by apply StronglySorted_inv in Hp' as [? _].
    + rewrite (remaining_step gens i p v Hp Hv) in Hfuel. lia.
    + cbn. exists (v :: rest). split; [done|]. split.
      * constructor; [done|]. apply Forall_forall. intros x Hx.
        destruct (Hsub x Hx) as (q & Hq & Hxq).
        destruct (Hin q x Hq Hxq) as (q' & Hq' & Hxq').
        by eapply (mergeStep_best gens i p v).
      * intros x [-> | Hx]%elem_of_cons.
        -- exists p. split; [apply list_elem_of_lookup; eauto|].
           unfold elems. rewrite Hv. by apply elem_of_cons; left.
        -- destruct (Hsub x Hx) as (q & Hq & Hxq). by eapply Hin.
Qed.

End MergeOrder.

#[local] Instance noWorse_trans (side : Side) : Transitive (noWorse side).
Proof. intros x y z. unfold noWorse. destruct side; lia. Qed.

Lemma StronglySorted_of_fmap {A B : Type} (f : A → B) (R : relation B) (l : list A) :
  StronglySorted R (f <$> l) → StronglySorted (λ x y, R (f x) (f y)) l.
Proof.
  induction l as [|x l IH]; [constructor|]. cbn.
  intros [Hl Hx]%StronglySorted_inv. constructor; [by apply IH|].
  by rewrite Forall_fmap in Hx.
Qed.

Lemma yielded_generatorAt (side : Side) (o : OraclePriceData.t) (slot : Z)
    (gens : list Peeked) :
  yielded (generatorAt side o slot gens)
  = drain (S (remaining gens)) (generatorAt side o slot gens).
Proof. reflexivity. Qed.

(** The merge of a side, when each list of the side is in price order. *)
Lemma yielded_price_order (side : Side) (d : DLOB.t) (m vPrice slot : Z)
    (o : OraclePriceData.t) (nodeLists : MarketNodeLists.t) :
  DLOB.orderLists d !! m = Some nodeLists →
  Forall (λ l, Sorted (noWorse side) (priceAt o slot <$> NodeList.getGenerator l))
         (sideLists side nodeLists) →
  ∃ out,
    yielded (sideGenerator side d m vPrice slot (Some o)) = Ok out
    ∧ StronglySorted (noWorse side) (priceAt o slot <$> out).
Proof.
  intros Hm Hlists. rewrite (sideGenerator_known _ _ _ _ _ _ _ Hm), yielded_generatorAt.
  destruct (drain_ordered side o slot (S (remaining (sideSources side nodeLists vPrice)))
              (sideSources side nodeLists vPrice)) as (out & Hout & Hsorted & _).
  - by destruct side.
  - unfold sideSources. rewrite Forall_fmap. apply Forall_app. split.
    + rewrite Forall_fmap. eapply Forall_impl; [exact Hlists|].
      intros l Hl. cbn. rewrite elems_peek.
      apply (StronglySorted_of_fmap (priceAt o slot) (noWorse side)).
      cbn in Hl. apply Sorted_StronglySorted; [apply noWorse_trans | exact Hl].
    + repeat constructor.
  - lia.
  - exists out. split; [done|].
    by apply (StronglySorted_fmap (priceAt o slot) (noWorseNode side o slot)).
Qed.

(** C6, as stated, fails: the market asks are kept by [ts]; with an older ask
    whose auction ended at 100 and a newer one whose auction ended at 50,
    [getAsks] yields the prices 100, 50, 200. *)
Lemma C6_market_asks_counterexample :
  let older := userNode NMarket (sampleMarket 1 DirShort 1 2 120 100) "alice" in
  let newer := userNode NMarket (sampleMarket 2 DirShort 2 2 60 50) "bob" in
  yielded (DLOB.getAsks auctionBook 0 200 5 (oracleAt 0))
  = Ok [older; newer; VammNode 200]
  ∧ getPrice older (oracleAt 0) 5 = Ok 100
  ∧ getPrice newer (oracleAt 0) 5 = Ok 50
  ∧ getPrice (VammNode 200) (oracleAt 0) 5 = Ok 200.
Proof. repeat split; vm_compute; reflexivity. Qed.

(** C6, amended: in a market of the book and with oracle data, if each of the
    limit, floating-limit and market lists of the side is traversed in
    non-decreasing (asks) or non-increasing (bids) price at the given oracle
    and slot, then [getAsks] yields all its nodes and their prices are
    non-decreasing, and [getBids] yields all its nodes and their prices are
    non-increasing. The market lists are kept by [ts], not by price, so
    without the hypothesis the order can fail. *)
Theorem C6_merge_price_order (d : DLOB.t) (m vAsk vBid slot : Z)
    (o : OraclePriceData.t) (nodeLists : MarketNodeLists.t) :
  DLOB.orderLists d !! m = Some nodeLists →
  (Forall (λ l, Sorted Z.le (priceAt o slot <$> NodeList.getGenerator l))
          (sideLists SideAsk nodeLists) →
   ∃ out,
     yielded (DLOB.getAsks d m vAsk slot (Some o)) = Ok out
     ∧ StronglySorted Z.le (priceAt o slot <$> out))
  ∧ (Forall (λ l, Sorted (flip Z.le) (priceAt o slot <$> NodeList.getGenerator l))
            (sideLists SideBid nodeLists) →
     ∃ out,
       yielded (DLOB.getBids d m vBid slot (Some o)) = Ok out
       ∧ StronglySorted (flip Z.le) (priceAt o slot <$> out)).
Proof.
  intros Hm. split; intros Hlists.
  - exact (yielded_price_order SideAsk d m vAsk slot o nodeLists Hm Hlists).
  - exact (yielded_price_order SideBid d m vBid slot o nodeLists Hm Hlists).
Qed.

Lemma C6_merge_price_order_witness :
  (∃ out,
     yielded (DLOB.getAsks mixedBook 0 110 5 (oracleAt 100)) = Ok out
     ∧ StronglySorted Z.le (priceAt {| OraclePriceData.price := 100 |} 5 <$> out))
  ∧ (∃ out,
       yielded (DLOB.getBids mixedBook 0 90 5 (oracleAt 100)) = Ok out
       ∧ StronglySorted (flip Z.le) (priceAt {| OraclePriceData.price := 100 |} 5 <$> out)).
Proof.
  destruct (C6_merge_price_order mixedBook 0 110 90 5
              {| OraclePriceData.price := 100 |} (listsOf mixedBook 0)) as [Hasks Hbids].
  - vm_compute. reflexivity.
  - split; [apply Hasks | apply Hbids]; vm_compute; repeat constructor; discriminate.
Defined.


(** ** [findCrossingNodesToFill] *)

Lemma findCrossingOrders_supplied (askNode bidNode : DLOBNode)
    (o : OraclePriceData.t) (slot : Z) :
  ∃ crossing, DLOB.findCrossingOrders askNode bidNode (Some o) slot = Ok crossing.
Proof.
  unfold DLOB.findCrossingOrders. rewrite !getPrice_supplied. cbn.
  destruct (_ <? _); [by eexists|].
  destruct askNode as [a|]; cbn; [|by eexists].
  destruct bidNode as [b|]; cbn; [|by eexists].
  destruct (postOnly (order b)), (postOnly (order a)); cbn; by eexists.
Qed.

(** The loop never holds more than ten fills, and when it holds ten it has
    just pushed the tenth. *)
Lemma scanLoop_cap (fuel : nat) (oracle : option OraclePriceData.t) (slot : Z)
    (acc : list NodeToFill.t) (na : option DLOBNode) (ga : MergeGenerator)
    (nb : option DLOBNode) (gb : MergeGenerator) (scan : DLOB.Scan) :
  (length acc < 10)%nat →
  DLOB.scanLoop fuel oracle slot acc na ga nb gb = Ok scan →
  (length (DLOB.nodesToFill scan) ≤ 10)%nat
  ∧ (length (DLOB.nodesToFill scan) = 10%nat → stoppedOnLastFill oracle slot scan).
Proof.
  revert acc na ga nb gb.
  induction fuel as [|fuel IH]; intros acc na ga nb gb Hlen Hscan; [done|].
  cbn [DLOB.scanLoop] in Hscan.
  destruct na as [a|], nb as [b|];
    try (injection Hscan as <-; cbn; split; [lia | intros; lia]).
  destruct (DLOB.findCrossingOrders a b oracle slot) as [c|e] eqn:Hc;
    cbn in Hscan; [|done].
  destruct (crossingNodes c) as [nodes|] eqn:Hn; cbn in Hscan.
  - case_bool_decide as Hten; cbn in Hscan.
    + injection Hscan as <-. cbn. split; [lia|]. intros _.
      exists a, b, c, nodes. cbn. by rewrite last_snoc.
    + assert (Hlen' : (length (acc ++ [nodes]) < 10)%nat).
      { rewrite length_app in *. cbn in *. lia. }
      destruct (crossingSide c) as [[|]|].
      * destruct (MergeGenerator_next ga) as [[na' ga']|]; cbn in Hscan; [|done].
        by eapply IH.
      * destruct (MergeGenerator_next gb) as [[nb' gb']|]; cbn in Hscan; [|done].
        by eapply IH.
      * injection Hscan as <-. cbn. split; [lia | intros; lia].
  - destruct (crossingSide c) as [[|]|].
    + destruct (MergeGenerator_next ga) as [[na' ga']|]; cbn in Hscan; [|done].
      by eapply IH.
    + destruct (MergeGenerator_next gb) as [[nb' gb']|]; cbn in Hscan; [|done].
      by eapply IH.
    + injection Hscan as <-. cbn. split; [lia | intros; lia].
Qed.

Lemma MergeGenerator_next_measure (side : Side) (o : OraclePriceData.t) (slot : Z)
    (gens : list Peeked) :
  gens ≠ [] →
  ∃ value gens',
    MergeGenerator_next (generatorAt side o slot gens)
    = Ok (value, generatorAt side o slot gens')
    ∧ gens' ≠ []
    ∧ (weight value + remaining gens' ≤ remaining gens)%nat.
Proof.
  intros Hne. rewrite MergeGenerator_next_generatorAt.
  destruct (mergeStep_supplied side o slot gens Hne)
    as [[-> _] | (i & p & v & Hp & Hv & -> & _)]; cbn.
  - exists None, gens. cbn. split; [done|]. split; [done | lia].
  - eexists (Some v), _. split; [reflexivity|]. split.
    + intros Hnil. apply (f_equal length) in Hnil. rewrite length_insert in Hnil.
      by destruct gens.
    + rewrite (remaining_step gens i p v Hp Hv). cbn. lia.
Qed.

(** With oracle data, the loop comes to its end before the nodes of the two
    generators are used up. *)
Lemma scanLoop_total (fuel : nat) (o : OraclePriceData.t) (slot : Z)
    (acc : list NodeToFill.t) (na : option DLOBNode) (gensA : list Peeked)
    (nb : option DLOBNode) (gensB : list Peeked) :
  gensA ≠ [] → gensB ≠ [] →
  (weight na + remaining gensA + weight nb + remaining gensB < fuel)%nat →
  ∃ scan,
    DLOB.scanLoop fuel (Some o) slot acc
      na (generatorAt SideAsk o slot gensA) nb (generatorAt SideBid o slot gensB)
    = Ok scan.
Proof.
  revert acc na gensA nb gensB.
  induction fuel as [|fuel IH]; intros acc na gensA nb gensB HA HB Hfuel; [lia|].
  cbn [DLOB.scanLoop].
  destruct na as [a|], nb as [b|]; try by eexists.
  destruct (findCrossingOrders_supplied a b o slot) as [c ->].
  cbn [mbind Result_bind].
  destruct (bool_decide _ && bool_decide _); [by eexists|].
  set (acc' := match crossingNodes c with Some nodes => acc ++ [nodes] | None => acc end).
  destruct (crossingSide c) as [[|]|]; [| |by eexists].
  - destruct (MergeGenerator_next_measure SideAsk o slot gensA HA)
      as (na' & gensA' & -> & HA' & Hm). cbn [mbind Result_bind].
    apply IH; [done | done|]. cbn [weight] in Hfuel |- *. lia.
  - destruct (MergeGenerator_next_measure SideBid o slot gensB HB)
      as (nb' & gensB' & -> & HB' & Hm). cbn [mbind Result_bind].
    apply IH; [done | done|]. cbn [weight] in Hfuel |- *. lia.
Qed.

Lemma scanCrossingNodes_known (d : DLOB.t) (m vBid vAsk slot : Z)
    (o : OraclePriceData.t) (nodeLists : MarketNodeLists.t) :
  DLOB.orderLists d !! m = Some nodeLists →
  ∃ scan, DLOB.scanCrossingNodes d m vBid vAsk slot (Some o) = Ok scan.
Proof.
  intros Hm. unfold DLOB.scanCrossingNodes.
  pose proof (sideGenerator_known SideAsk d m vAsk slot o nodeLists Hm) as HA.
  pose proof (sideGenerator_known SideBid d m vBid slot o nodeLists Hm) as HB.
  cbn [sideGenerator] in HA, HB. rewrite HA, HB.
  set (srcA := sideSources SideAsk nodeLists vAsk).
  set (srcB := sideSources SideBid nodeLists vBid).
  destruct (MergeGenerator_next_measure SideAsk o slot srcA)
    as (na & gensA & -> & HneA & HmA); [done|].
  destruct (MergeGenerator_next_measure SideBid o slot srcB)
    as (nb & gensB & -> & HneB & HmB); [done|].
  cbn [mbind Result_bind].
  apply scanLoop_total; [done | done|].
  unfold DLOB.sourcesLeft, generatorAt. cbn [sources]. lia.
Qed.

(** C9: [findCrossingNodesToFill] returns at most 10 fills; when it returns
    10, the scan ended on the very pair whose crossing is the tenth fill,
    neither stream having been advanced after it; and in a market of the
    book, with oracle data, it does return. *)
Theorem C9_findCrossingNodesToFill_cap (d : DLOB.t) (m vBid vAsk slot : Z)
    (oracle : option OraclePriceData.t) :
  (∀ nodes,
     DLOB.findCrossingNodesToFill d m vBid vAsk slot oracle = Ok nodes →
     (length nodes ≤ 10)%nat)
  ∧ (∀ scan,
       DLOB.scanCrossingNodes d m vBid vAsk slot oracle = Ok scan →
       DLOB.findCrossingNodesToFill d m vBid vAsk slot oracle
       = Ok (DLOB.nodesToFill scan)
       ∧ (length (DLOB.nodesToFill scan) = 10%nat → stoppedOnLastFill oracle slot scan))
  ∧ (∀ nodeLists o,
       DLOB.orderLists d !! m = Some nodeLists → oracle = Some o →
       ∃ nodes, DLOB.findCrossingNodesToFill d m vBid vAsk slot oracle = Ok nodes).
Proof.
  assert (Hcap : ∀ scan,
            DLOB.scanCrossingNodes d m vBid vAsk slot oracle = Ok scan →
            (length (DLOB.nodesToFill scan) ≤ 10)%nat
            ∧ (length (DLOB.nodesToFill scan) = 10%nat →
               stoppedOnLastFill oracle slot scan)).
  { intros scan. unfold DLOB.scanCrossingNodes.
    destruct (MergeGenerator_next (DLOB.getAsks _ _ _ _ _)) as [[na ga]|];
      cbn [mbind Result_bind]; [|done].
    destruct (MergeGenerator_next (DLOB.getBids _ _ _ _ _)) as [[nb gb]|];
      cbn [mbind Result_bind]; [|done].
    apply scanLoop_cap. cbn. lia. }
  split; [|split].
  - intros nodes. unfold DLOB.findCrossingNodesToFill.
    destruct (DLOB.scanCrossingNodes d m vBid vAsk slot oracle) as [scan|] eqn:Hscan;
      cbn; [|done].
    intros [= <-]. by apply Hcap.
  - intros scan Hscan. unfold DLOB.findCrossingNodesToFill. rewrite Hscan.
    split; [done|]. by apply Hcap.
  - intros nodeLists o Hm ->. unfold DLOB.findCrossingNodesToFill.
    destruct (scanCrossingNodes_known d m vBid vAsk slot o nodeLists Hm) as [scan ->].
    by eexists.
Qed.

Lemma C9_findCrossingNodesToFill_cap_witness :
  ∃ nodes,
    DLOB.findCrossingNodesToFill crowdedBook 0 90 110 5 (oracleAt 100) = Ok nodes
    ∧ (length nodes ≤ 10)%nat.
Proof.
  destruct (C9_findCrossingNodesToFill_cap crowdedBook 0 90 110 5 (oracleAt 100))
    as (Hcap & _ & Hreturns).
  destruct (Hreturns (listsOf crowdedBook 0) {| OraclePriceData.price := 100 |})
    as [nodes Hnodes]; [vm_compute; reflexivity | reflexivity |].
  exists nodes. split; [exact Hnodes | exact (Hcap nodes Hnodes)].
Defined.

(** Twelve asks cross the bid of the sample book; the scan returns ten
    fills. *)
Example findCrossingNodesToFill_crowdedBook :
  ∃ nodes,
    DLOB.findCrossingNodesToFill crowdedBook 0 90 110 5 (oracleAt 100) = Ok nodes
    ∧ length nodes = 10%nat.
Proof. eexists. split; vm_compute; reflexivity. Qed.

(** *** The bounded loops do not run out *)

Lemma getPrice_not_diverged (n : DLOBNode) oracle slot :
  getPrice n oracle slot ≠ Throw Diverged.
Proof.
  destruct n as [u|p]; cbn; [|done].
  destruct (nodeClass u); try done. by destruct oracle.
Qed.

Lemma reducer_any (keeps : Z → Z → bool) oracle slot (b c : nat * Peeked) :
  reducer keeps oracle slot b c = Ok b
  ∨ reducer keeps oracle slot b c = Ok c
  ∨ ∃ e, reducer keeps oracle slot b c = Throw e ∧ e ≠ Diverged.
Proof.
  unfold reducer.
  destruct (next c.2) as [cv|]; [|by left].
  destruct (next b.2) as [bv|]; [|by right; left].
  pose proof (getPrice_not_diverged bv oracle slot) as Hb.
  pose proof (getPrice_not_diverged cv oracle slot) as Hc.
  destruct (getPrice bv oracle slot) as [bp|e]; cbn.
  - destruct (getPrice cv oracle slot) as [cp|e]; cbn.
    + destruct (keeps bp cp); [by left | by right; left].
    + right; right. exists e. split; [done | congruence].
  - right; right. exists e. split; [done | congruence].
Qed.

Lemma foldlM_reducer_any (keeps : Z → Z → bool) oracle slot
    (l : list (nat * Peeked)) (b : nat * Peeked) :
  (∃ r, foldlM (reducer keeps oracle slot) l b = Ok r ∧ r ∈ b :: l)
  ∨ ∃ e, foldlM (reducer keeps oracle slot) l b = Throw e ∧ e ≠ Diverged.
Proof.
  revert b. induction l as [|c l IH]; intros b; cbn [foldlM].
  - left. exists b. split; [done | by apply elem_of_cons; left].
  - destruct (reducer_any keeps oracle slot b c) as [-> | [-> | (e & -> & He)]]; cbn.
    + destruct (IH b) as [(r & -> & Hr) | (e & -> & He)]; [left | right; by exists e].
      exists r. split; [done|]. apply elem_of_cons in Hr as [-> | Hr];
        [by apply elem_of_cons; left | by do 2 (apply elem_of_cons; right)].
    + destruct (IH c) as [(r & -> & Hr) | (e & -> & He)]; [left | right; by exists e].
      exists r. split; [done|]. by apply elem_of_cons; right.
    + right. by exists e.
Qed.

(** Whatever the oracle data, a turn of the merge throws an error of the
    program, or yields nothing, or yields a peeked node and uses it up. *)
Lemma mergeStep_any (keeps : Z → Z → bool) oracle slot (gens : list Peeked) :
  (∃ e, mergeStep keeps oracle slot gens = Throw e ∧ e ≠ Diverged)
  ∨ mergeStep keeps oracle slot gens = Ok (None, gens)
  ∨ ∃ v gens',
      mergeStep keeps oracle slot gens = Ok (Some v, gens')
      ∧ remaining gens = S (remaining gens').
Proof.
  unfold mergeStep, reduce. destruct (indexed gens) as [|b l] eqn:E.
  { left. by eexists. }
  destruct (foldlM_reducer_any keeps oracle slot l b) as [(r & -> & Hr) | (e & -> & He)];
    [|left; by exists e].
  rewrite <- E in Hr. apply list_elem_of_lookup in Hr as [j Hj].
  apply indexed_lookup in Hj as (p & Hp & ->). cbn.
  destruct (next p) as [v|] eqn:Hv; [|by right; left].
  right; right. eexists _, _. split; [done|]. by eapply remaining_step.
Qed.

Lemma MergeGenerator_next_any (g : MergeGenerator) :
  (∃ e, MergeGenerator_next g = Throw e ∧ (e = Diverged → sources g = Throw Diverged))
  ∨ ∃ v g',
      MergeGenerator_next g = Ok (v, g')
      ∧ (weight v + DLOB.sourcesLeft g' ≤ DLOB.sourcesLeft g)%nat
      ∧ sources g' ≠ Throw Diverged.
Proof.
  unfold MergeGenerator_next, DLOB.sourcesLeft.
  destruct (sources g) as [gens|e]; cbn;
    [|left; exists e; split; [done | by intros ->]].
  destruct (mergeStep_any (keeps g) (mergeOracle g) (mergeSlot g) gens)
    as [(e & -> & He) | [-> | (v & gens' & -> & Hrem)]]; cbn.
  - left. by exists e.
  - right. eexists None, _. split; [done|]. cbn. split; [lia | done].
  - right. eexists (Some v), _. split; [done|]. cbn. split; [lia | done].
Qed.

Lemma findCrossingOrders_not_diverged (askNode bidNode : DLOBNode) oracle slot :
  DLOB.findCrossingOrders askNode bidNode oracle slot ≠ Throw Diverged.
Proof.
  unfold DLOB.findCrossingOrders.
  pose proof (getPrice_not_diverged bidNode oracle slot) as Hb.
  pose proof (getPrice_not_diverged askNode oracle slot) as Ha.
  destruct (getPrice bidNode oracle slot) as [bp|e]; cbn; [|congruence].
  destruct (getPrice askNode oracle slot) as [ap|e]; cbn; [|congruence].
  destruct (bp <? ap); [done|].
  destruct askNode as [a|]; cbn; [|done].
  destruct bidNode as [b|]; cbn; [|done].
  by destruct (postOnly (order b)), (postOnly (order a)).
Qed.

Lemma scanLoop_not_diverged (fuel : nat) oracle slot (acc : list NodeToFill.t)
    (na : option DLOBNode) (ga : MergeGenerator)
    (nb : option DLOBNode) (gb : MergeGenerator) :
  sources ga ≠ Throw Diverged → sources gb ≠ Throw Diverged →
  (weight na + DLOB.sourcesLeft ga + weight nb + DLOB.sourcesLeft gb < fuel)%nat →
  DLOB.scanLoop fuel oracle slot acc na ga nb gb ≠ Throw Diverged.
Proof.
  revert acc na ga nb gb.
  induction fuel as [|fuel IH]; intros acc na ga nb gb HA HB Hfuel; [lia|].
  cbn [DLOB.scanLoop].
  destruct na as [a|], nb as [b|]; try done.
  pose proof (findCrossingOrders_not_diverged a b oracle slot) as Hc.
  destruct (DLOB.findCrossingOrders a b oracle slot) as [c|e]; cbn [mbind Result_bind];
    [|congruence].
  destruct (bool_decide _ && bool_decide _); [done|].
  destruct (crossingSide c) as [[|]|]; [| |done].
  - destruct (MergeGenerator_next_any ga) as [(e & -> & He) | (v & g' & -> & Hm & Hg')];
      cbn [mbind Result_bind].
    + intros [= ->]. by apply HA, He.
    + apply IH; [done | done|]. cbn [weight] in Hfuel |- *. lia.
  - destruct (MergeGenerator_next_any gb) as [(e & -> & He) | (v & g' & -> & Hm & Hg')];
      cbn [mbind Result_bind].
    + intros [= ->]. by apply HB, He.
    + apply IH; [done | done|]. cbn [weight] in Hfuel |- *. lia.
Qed.

Lemma sideGenerator_sources_not_diverged (side : Side) (d : DLOB.t)
    (m vPrice slot : Z) oracle :
  sources (sideGenerator side d m vPrice slot oracle) ≠ Throw Diverged.
Proof.
  destruct side; cbn; unfold DLOB.marketLists, toNumber;
    (destruct (DLOB.orderLists d !! m); [done|]); by destruct (Z.abs m <? 2 ^ 53).
Qed.

(** [findCrossingNodesToFill] returns, or throws an error of the program: the
    bound put on its loop in this development is never reached. *)
Lemma findCrossingNodesToFill_not_diverged (d : DLOB.t) (m vBid vAsk slot : Z) oracle :
  DLOB.findCrossingNodesToFill d m vBid vAsk slot oracle ≠ Throw Diverged.
Proof.
  unfold DLOB.findCrossingNodesToFill.
  assert (Hscan : DLOB.scanCrossingNodes d m vBid vAsk slot oracle ≠ Throw Diverged).
  { unfold DLOB.scanCrossingNodes.
    pose proof (sideGenerator_sources_not_diverged SideAsk d m vAsk slot oracle) as HA.
    pose proof (sideGenerator_sources_not_diverged SideBid d m vBid slot oracle) as HB.
    cbn [sideGenerator] in HA, HB.
    destruct (MergeGenerator_next_any (DLOB.getAsks d m vAsk slot oracle))
      as [(e & -> & He) | (na & ga & -> & Hma & Hga)]; cbn [mbind Result_bind].
    { intros [= ->]. by apply HA, He. }
    destruct (MergeGenerator_next_any (DLOB.getBids d m vBid slot oracle))
      as [(e & -> & He) | (nb & gb & -> & Hmb & Hgb)]; cbn [mbind Result_bind].
    { intros [= ->]. by apply HB, He. }
    apply scanLoop_not_diverged; [done | done | lia]. }
  destruct (DLOB.scanCrossingNodes d m vBid vAsk slot oracle) as [scan|e]; cbn;
    [done | congruence].
Qed.

Lemma drain_not_diverged (fuel : nat) (g : MergeGenerator) :
  sources g ≠ Throw Diverged →
  (DLOB.sourcesLeft g < fuel)%nat →
  drain fuel g ≠ Throw Diverged.
Proof.
  revert g. induction fuel as [|fuel IH]; intros g Hg Hfuel; [lia|].
  cbn [drain].
  destruct (MergeGenerator_next_any g) as [(e & -> & He) | (v & g' & -> & Hm & Hg')];
    cbn [mbind Result_bind].
  - intros [= ->]. by apply Hg, He.
  - destruct v as [v|]; [|done]. cbn [weight] in Hm.
    specialize (IH g' Hg' ltac:(lia)).
    destruct (drain fuel g') as [rest|e]; cbn; [done | congruence].
Qed.

(** Draining [getAsks] or [getBids] returns all their nodes, or throws an
    error of the program. *)
Lemma yielded_not_diverged (side : Side) (d : DLOB.t) (m vPrice slot : Z) oracle :
  yielded (sideGenerator side d m vPrice slot oracle) ≠ Throw Diverged.
Proof.
  pose proof (sideGenerator_sources_not_diverged side d m vPrice slot oracle) as Hs.
  unfold yielded.
  destruct (sources (sideGenerator side d m vPrice slot oracle)) as [gens|e] eqn:E;
    [|congruence].
  apply drain_not_diverged; [by rewrite E|].
  unfold DLOB.sourcesLeft. rewrite E. lia.
Qed.

(** * Further properties of the book *)

(** ** The constructor *)

Lemma new_lookup_fold (ms : list Z) (acc : gmap Z MarketNodeLists.t) (m : Z) :
  fold_left (λ lists i, <[i := DLOB.newMarket i]> lists) ms acc !! m
  = if decide (m ∈ ms) then Some (DLOB.newMarket m) else acc !! m.
Proof.
  revert acc. induction ms as [|i ms IH]; intros acc; cbn [fold_left].
  - rewrite decide_False; [done | by apply not_elem_of_nil].
  - rewrite IH. destruct (decide (m ∈ ms)) as [Hin | Hout].
    + rewrite decide_True; [done | by apply elem_of_cons; right].
    + destruct (decide (m = i)) as [-> | Hne].
      * rewrite lookup_insert_eq, decide_True; [done | by apply elem_of_cons; left].
      * rewrite lookup_insert_ne by done.
        rewrite decide_False; [done|]. by intros [? | ?]%elem_of_cons.
Qed.

(** X1: a new book has no open order; it has lists exactly for the markets
    it was built with, whatever their order and repetitions in the argument;
    each of the eight lists of such a market is empty, belongs to the market
    and to its class, and is ascending, except the limit and floating-limit
    bids and the triggers below, which are descending. *)
Theorem X1_new_book (marketIndexes : list Z) (m : Z) :
  DLOB.openOrders (DLOB.new marketIndexes) = ∅
  ∧ DLOB.orderLists (DLOB.new marketIndexes) !! m
    = (if decide (m ∈ marketIndexes) then Some (DLOB.newMarket m) else None)
  ∧ ∀ type subType l,
      select (DLOB.newMarket m) type subType = Some l →
      NodeList.nodes l = []
      ∧ NodeList.listMarket l = m
      ∧ NodeList.nodeType l = type
      ∧ NodeList.sortDirection l
        = match type, subType with
          | NLimit, SubBid | NFloatingLimit, SubBid | NTrigger, SubBelow => desc
          | _, _ => asc
          end.
Proof.
  split; [done|]. split.
  - unfold DLOB.new. cbn. by rewrite new_lookup_fold, lookup_empty.
  - intros type subType l. destruct type, subType; cbn; intros [= <-]; done.
Qed.

(** ** Routing *)

Lemma orderListType_pending (o : Order) :
  DLOB.orderListType o = NTrigger ↔ pendingTrigger o.
Proof.
  unfold DLOB.orderListType, pendingTrigger, ZERO.
  destruct (orderType o), (triggered o), (oraclePriceOffset o >? 0); cbn;
    intuition congruence.
Qed.

Lemma orderListSubType_pending (o : Order) :
  DLOB.orderListSubType o
  = if decide (pendingTrigger o) then conditionOf o else sideOf o.
Proof.
  unfold DLOB.orderListSubType, conditionOf, sideOf.
  destruct (decide (pendingTrigger o)) as [Hp | Hp]; unfold pendingTrigger in Hp;
    destruct (orderType o) eqn:Hty, (triggered o) eqn:Htr,
             (triggerCondition o), (direction o); cbn;
    try done; exfalso; intuition congruence.
Qed.

Lemma orderListType_market (o : Order) :
  ¬ pendingTrigger o →
  (DLOB.orderListType o = NMarket
   ↔ orderType o = TypeMarket ∨ orderType o = TypeTriggerMarket).
Proof.
  unfold DLOB.orderListType, pendingTrigger, ZERO.
  destruct (orderType o), (triggered o), (oraclePriceOffset o >? 0); cbn;
    intuition congruence.
Qed.

Lemma getListForOrder_known (d : DLOB.t) (o : Order) (nodeLists : MarketNodeLists.t) :
  DLOB.orderLists d !! marketIndex o = Some nodeLists →
  DLOB.getListForOrder d o = Ok (routedRef o).
Proof.
  intros Hm. unfold DLOB.getListForOrder. by rewrite (marketLists_known _ _ _ _ Hm).
Qed.

(** X2: in a market of the book, [getListForOrder] always returns an
    existing list of the order's own market. A trigger order that is not yet
    triggered goes to the trigger list of its [triggerCondition], whatever its
    direction; every other order goes to a list of its side (bid for long, ask
    for short) that is not a trigger list, and that is the market list
    exactly for the types [market] and [triggerMarket], whatever the oracle
    offset. *)
Theorem X2_getListForOrder_routing (d : DLOB.t) (o : Order)
    (nodeLists : MarketNodeLists.t) :
  DLOB.orderLists d !! marketIndex o = Some nodeLists →
  ∃ r l,
    DLOB.getListForOrder d o = Ok r
    ∧ refMarket r = marketIndex o
    ∧ listAt d r = Some l
    ∧ (pendingTrigger o → refType r = NTrigger ∧ refSubType r = conditionOf o)
    ∧ (¬ pendingTrigger o →
       refType r ≠ NTrigger ∧ refSubType r = sideOf o
       ∧ (refType r = NMarket
          ↔ orderType o = TypeMarket ∨ orderType o = TypeTriggerMarket)).
Proof.
  intros Hm. destruct (select_routed nodeLists o) as [l Hl].
  exists (routedRef o), l. split; [by eapply getListForOrder_known|].
  split; [done|]. split.
  { unfold listAt. cbn. by rewrite Hm. }
  cbn. rewrite orderListSubType_pending. split; intros Hp.
  - rewrite decide_True by done. split; [by apply orderListType_pending | done].
  - rewrite decide_False by done. split; [by rewrite orderListType_pending|].
    split; [done | by apply orderListType_market].
Qed.

Lemma X2_getListForOrder_routing_witness :
  ∃ r l,
    DLOB.getListForOrder triggerBook (sampleTrigger 9 97 1 0) = Ok r
    ∧ refMarket r = 0
    ∧ listAt triggerBook r = Some l
    ∧ (pendingTrigger (sampleTrigger 9 97 1 0) →
       refType r = NTrigger ∧ refSubType r = SubAbove)
    ∧ (¬ pendingTrigger (sampleTrigger 9 97 1 0) →
       refType r ≠ NTrigger ∧ refSubType r = SubBid
       ∧ (refType r = NMarket
          ↔ TypeTriggerLimit = TypeMarket ∨ TypeTriggerLimit = TypeTriggerMarket)).
Proof.
  apply (X2_getListForOrder_routing triggerBook (sampleTrigger 9 97 1 0)
           (listsOf triggerBook 0)).
  vm_compute. reflexivity.
Defined.

(** ** The mutators in a market of the book *)

Lemma select_assign (nodeLists : MarketNodeLists.t) (type type' : DLOBNodeType)
    (subType subType' : SubType) (l0 l : NodeList.t) :
  select nodeLists type subType = Some l0 →
  select (assign nodeLists type subType l) type' subType'
  = if decide (type = type' ∧ subType = subType') then Some l
    else select nodeLists type' subType'.
Proof.
  destruct nodeLists as [[] [] [] []].
  destruct type, subType; cbn; try done; intros _;
    destruct type', subType'; cbn;
    destruct (decide _) as [[H1 H2] | Hn];
    first [done | by exfalso; apply Hn].
Qed.

Lemma listAt_withList (d : DLOB.t) (r r' : ListRef) (l0 l : NodeList.t) :
  listAt d r = Some l0 →
  listAt (withList d r l) r' = if decide (r = r') then Some l else listAt d r'.
Proof.
  unfold listAt, withList. destruct r as [m t s], r' as [m' t' s']. cbn.
  destruct (DLOB.orderLists d !! m) as [nodeLists|] eqn:Hm; cbn; [|done].
  intros Hl0. destruct (decide (m = m')) as [<- | Hne].
  - rewrite lookup_insert_eq. cbn. rewrite (select_assign _ _ _ _ _ _ _ Hl0), Hm. cbn.
    destruct (decide (t = t' ∧ s = s')) as [[-> ->] | Hn].
    + by rewrite decide_True.
    + rewrite decide_False; [done|]. intros [= -> ->]. by apply Hn.
  - rewrite lookup_insert_ne by done. rewrite decide_False by congruence. done.
Qed.

Lemma withList_openOrders (d : DLOB.t) (r : ListRef) (l : NodeList.t) :
  DLOB.openOrders (withList d r l) = DLOB.openOrders d.
Proof. unfold withList. by destruct (DLOB.orderLists d !! refMarket r). Qed.

Lemma withList_other_market (d : DLOB.t) (r : ListRef) (l : NodeList.t) (m : Z) :
  m ≠ refMarket r →
  DLOB.orderLists (withList d r l) !! m = DLOB.orderLists d !! m.
Proof.
  intros Hne. unfold withList.
  destruct (DLOB.orderLists d !! refMarket r); cbn; [|done].
  by rewrite lookup_insert_ne.
Qed.

Lemma withList_known (d : DLOB.t) (r : ListRef) (l : NodeList.t) (m : Z) :
  is_Some (DLOB.orderLists d !! m) →
  is_Some (DLOB.orderLists (withList d r l) !! m).
Proof.
  intros Hm. unfold withList.
  destruct (DLOB.orderLists d !! refMarket r) eqn:Hr; cbn; [|done].
  destruct (decide (refMarket r = m)) as [<- | Hne].
  - rewrite lookup_insert_eq. by eexists.
  - by rewrite lookup_insert_ne.
Qed.

Lemma onList_effect (d : DLOB.t) (r : ListRef) (method : string)
    (op : NodeList.t → NodeList.t) (l : NodeList.t) :
  listAt d r = Some l →
  DLOB.onList r method op d = (Ok (), withList d r (op l)).
Proof.
  unfold listAt, DLOB.onList, withList.
  destruct (DLOB.orderLists d !! refMarket r) as [nodeLists|]; cbn; [|done].
  by intros ->.
Qed.

Lemma listAt_routed (d : DLOB.t) (o : Order) (nodeLists : MarketNodeLists.t) :
  DLOB.orderLists d !! marketIndex o = Some nodeLists →
  is_Some (listAt d (routedRef o)).
Proof.
  intros Hm. unfold listAt. cbn. rewrite Hm. cbn. apply select_routed.
Qed.

Lemma with_openOrders_lists (oo : gset OrderId) (d : DLOB.t) (r : ListRef) :
  listAt {| DLOB.openOrders := oo; DLOB.orderLists := DLOB.orderLists d |} r
  = listAt d r.
Proof. reflexivity. Qed.

Lemma insert_run (d : DLOB.t) (o : Order) (user : PublicKey) (l : NodeList.t) :
  listAt d (routedRef o) = Some l →
  DLOB.insert o user None d
  = (Ok (),
     withList
       {| DLOB.openOrders :=
            if bool_decide (status o = StatusOpen)
            then {[getOrderId o user]} ∪ DLOB.openOrders d else DLOB.openOrders d;
          DLOB.orderLists := DLOB.orderLists d |}
       (routedRef o) (NodeList.insert o user l)).
Proof.
  intros Hl.
  assert (Hm : is_Some (DLOB.orderLists d !! marketIndex o)).
  { unfold listAt in Hl. cbn in Hl. by destruct (DLOB.orderLists d !! marketIndex o). }
  destruct Hm as [nodeLists Hm].
  unfold DLOB.insert. rewrite isVariant_order_init, isVariant_status_open.
  case_bool_decide; run_method;
    unfold DLOB.getListForOrder, DLOB.marketLists; cbn; rewrite Hm; run_method;
    (erewrite onList_effect by (rewrite ?with_openOrders_lists; exact Hl));
    run_method; clear; destruct d; reflexivity.
Qed.

(** X3: in a market of the book, [insert] returns normally; the list the
    order is routed to is the list it was, with the order inserted, and no
    other list of the book is touched; the id of the order joins
    [openOrders] when its status is [open], and [openOrders] is unchanged
    otherwise. *)
Theorem X3_insert_effect (d : DLOB.t) (o : Order) (user : PublicKey)
    (nodeLists : MarketNodeLists.t) :
  DLOB.orderLists d !! marketIndex o = Some nodeLists →
  ∃ l d',
    listAt d (routedRef o) = Some l
    ∧ DLOB.insert o user None d = (Ok (), d')
    ∧ listAt d' (routedRef o) = Some (NodeList.insert o user l)
    ∧ (∀ r, r ≠ routedRef o → listAt d' r = listAt d r)
    ∧ DLOB.openOrders d'
      = (if bool_decide (status o = StatusOpen)
         then {[getOrderId o user]} ∪ DLOB.openOrders d else DLOB.openOrders d).
Proof.
  intros Hm. destruct (listAt_routed d o nodeLists Hm) as [l Hl].
  exists l. eexists. split; [done|]. split; [by apply insert_run|].
  split; [|split].
  - erewrite listAt_withList by (rewrite with_openOrders_lists; exact Hl).
    by rewrite decide_True.
  - intros r Hr. erewrite listAt_withList by (rewrite with_openOrders_lists; exact Hl).
    by rewrite decide_False.
  - by rewrite withList_openOrders.
Qed.

Lemma X3_insert_effect_witness :
  ∃ l d',
    listAt mixedBook (routedRef (sampleOrder 20 TypeLimit StatusOpen DirLong 97 0 4 false))
    = Some l
    ∧ DLOB.insert (sampleOrder 20 TypeLimit StatusOpen DirLong 97 0 4 false) "ivan" None
        mixedBook
      = (Ok (), d')
    ∧ listAt d' (routedRef (sampleOrder 20 TypeLimit StatusOpen DirLong 97 0 4 false))
      = Some (NodeList.insert (sampleOrder 20 TypeLimit StatusOpen DirLong 97 0 4 false)
                "ivan" l)
    ∧ (∀ r, r ≠ routedRef (sampleOrder 20 TypeLimit StatusOpen DirLong 97 0 4 false) →
            listAt d' r = listAt mixedBook r)
    ∧ DLOB.openOrders d'
      = (if bool_decide (status (sampleOrder 20 TypeLimit StatusOpen DirLong 97 0 4 false)
                         = StatusOpen)
         then {[getOrderId (sampleOrder 20 TypeLimit StatusOpen DirLong 97 0 4 false) "ivan"]}
              ∪ DLOB.openOrders mixedBook
         else DLOB.openOrders mixedBook).
Proof.
  apply (X3_insert_effect mixedBook
           (sampleOrder 20 TypeLimit StatusOpen DirLong 97 0 4 false) "ivan"
           (listsOf mixedBook 0)).
  vm_compute. reflexivity.
Defined.

Lemma listAt_known (d : DLOB.t) (r : ListRef) (l : NodeList.t) :
  listAt d r = Some l → is_Some (DLOB.orderLists d !! refMarket r).
Proof. unfold listAt. by destruct (DLOB.orderLists d !! refMarket r). Qed.

Lemma remove_run (d : DLOB.t) (o : Order) (user : PublicKey) (l : NodeList.t) :
  listAt d (routedRef o) = Some l →
  DLOB.remove o user None d
  = (Ok (),
     withList
       {| DLOB.openOrders := DLOB.openOrders d ∖ {[getOrderId o user]};
          DLOB.orderLists := DLOB.orderLists d |}
       (routedRef o) (NodeList.remove o user l)).
Proof.
  intros Hl. destruct (listAt_known _ _ _ Hl) as [nodeLists Hm]. cbn in Hm.
  unfold DLOB.remove. run_method.
  unfold DLOB.getListForOrder, DLOB.marketLists; cbn; rewrite Hm; run_method.
  erewrite onList_effect by (rewrite ?with_openOrders_lists; exact Hl).
  reflexivity.
Qed.

Lemma update_run (d : DLOB.t) (o : Order) (user : PublicKey) (l : NodeList.t) :
  listAt d (routedRef o) = Some l →
  DLOB.update o user None d
  = (Ok (), withList d (routedRef o) (NodeList.update o user l)).
Proof.
  intros Hl. destruct (listAt_known _ _ _ Hl) as [nodeLists Hm]. cbn in Hm.
  unfold DLOB.update. run_method.
  unfold DLOB.getListForOrder, DLOB.marketLists; cbn; rewrite Hm; run_method.
  erewrite onList_effect by exact Hl. reflexivity.
Qed.

Lemma trigger_run (d : DLOB.t) (o : Order) (user : PublicKey) (l1 l2 : NodeList.t) :
  listAt d (triggerRef o) = Some l1 →
  listAt (withList d (triggerRef o) (NodeList.remove o user l1)) (routedRef o) = Some l2 →
  DLOB.trigger o user None d
  = (Ok (),
     withList (withList d (triggerRef o) (NodeList.remove o user l1))
              (routedRef o) (NodeList.insert o user l2)).
Proof.
  intros Hl1 Hl2. destruct (listAt_known _ _ _ Hl1) as [nodeLists Hm]. cbn in Hm.
  destruct (listAt_known _ _ _ Hl2) as [nodeLists' Hm']. cbn in Hm'.
  unfold DLOB.trigger. run_method.
  unfold DLOB.marketLists at 1. rewrite Hm. run_method.
  replace (if isVariant (triggerCondition o) "above" then SubAbove else SubBelow)
    with (conditionOf o) by (unfold conditionOf; by destruct (triggerCondition o)).
  change {| refMarket := marketIndex o; refType := NTrigger; refSubType := conditionOf o |}
    with (triggerRef o).
  erewrite onList_effect by exact Hl1. run_method.
  unfold DLOB.getListForOrder, DLOB.marketLists; cbn; rewrite Hm'; run_method.
  erewrite onList_effect by exact Hl2. reflexivity.
Qed.

(** X4: in a market of the book, [remove] returns normally; the id of the
    order is not in [openOrders] afterwards and no other id has left or
    joined it; the list the order is routed to is the list it was, with the
    order removed, and no other list of the book is touched. *)
Theorem X4_remove_effect (d : DLOB.t) (o : Order) (user : PublicKey)
    (nodeLists : MarketNodeLists.t) :
  DLOB.orderLists d !! marketIndex o = Some nodeLists →
  ∃ l d',
    listAt d (routedRef o) = Some l
    ∧ DLOB.remove o user None d = (Ok (), d')
    ∧ listAt d' (routedRef o) = Some (NodeList.remove o user l)
    ∧ (∀ r, r ≠ routedRef o → listAt d' r = listAt d r)
    ∧ (getOrderId o user ∉ DLOB.openOrders d')
    ∧ (∀ id, id ≠ getOrderId o user →
         (id ∈ DLOB.openOrders d' ↔ id ∈ DLOB.openOrders d)).
Proof.
  intros Hm. destruct (listAt_routed d o nodeLists Hm) as [l Hl].
  exists l. eexists. split; [done|]. split; [by apply remove_run|].
  split; [|split; [|split]].
  - erewrite listAt_withList by (rewrite with_openOrders_lists; exact Hl).
    by rewrite decide_True.
  - intros r Hr. erewrite listAt_withList by (rewrite with_openOrders_lists; exact Hl).
    by rewrite decide_False.
  - rewrite withList_openOrders. cbn.
    rewrite elem_of_difference, elem_of_singleton. tauto.
  - intros id Hid. rewrite withList_openOrders. cbn.
    rewrite elem_of_difference, elem_of_singleton. tauto.
Qed.

Lemma X4_remove_effect_witness :
  ∃ l d',
    listAt mixedBook (routedRef (sampleOrder 6 TypeLimit StatusOpen DirLong 99 0 2 false))
    = Some l
    ∧ DLOB.remove (sampleOrder 6 TypeLimit StatusOpen DirLong 99 0 2 false) "frank" None
        mixedBook
      = (Ok (), d')
    ∧ listAt d' (routedRef (sampleOrder 6 TypeLimit StatusOpen DirLong 99 0 2 false))
      = Some (NodeList.remove (sampleOrder 6 TypeLimit StatusOpen DirLong 99 0 2 false)
                "frank" l)
    ∧ (∀ r, r ≠ routedRef (sampleOrder 6 TypeLimit StatusOpen DirLong 99 0 2 false) →
            listAt d' r = listAt mixedBook r)
    ∧ (getOrderId (sampleOrder 6 TypeLimit StatusOpen DirLong 99 0 2 false) "frank"
       ∉ DLOB.openOrders d')
    ∧ (∀ id, id ≠ getOrderId (sampleOrder 6 TypeLimit StatusOpen DirLong 99 0 2 false) "frank" →
            (id ∈ DLOB.openOrders d' ↔ id ∈ DLOB.openOrders mixedBook)).
Proof.
  apply (X4_remove_effect mixedBook
           (sampleOrder 6 TypeLimit StatusOpen DirLong 99 0 2 false) "frank"
           (listsOf mixedBook 0)).
  vm_compute. reflexivity.
Defined.

(** X5: in a market of the book, [update] returns normally and changes
    nothing but the list that the order, as it is given, is routed to; that
    list is handed the order to update. [openOrders] and every other list are
    as they were. *)
Theorem X5_update_effect (d : DLOB.t) (o : Order) (user : PublicKey)
    (nodeLists : MarketNodeLists.t) :
  DLOB.orderLists d !! marketIndex o = Some nodeLists →
  ∃ l d',
    listAt d (routedRef o) = Some l
    ∧ DLOB.update o user None d = (Ok (), d')
    ∧ listAt d' (routedRef o) = Some (NodeList.update o user l)
    ∧ (∀ r, r ≠ routedRef o → listAt d' r = listAt d r)
    ∧ DLOB.openOrders d' = DLOB.openOrders d.
Proof.
  intros Hm. destruct (listAt_routed d o nodeLists Hm) as [l Hl].
  exists l. eexists. split; [done|]. split; [by apply update_run|].
  split; [|split].
  - erewrite listAt_withList by exact Hl. by rewrite decide_True.
  - intros r Hr. erewrite listAt_withList by exact Hl. by rewrite decide_False.
  - by rewrite withList_openOrders.
Qed.

Lemma X5_update_effect_witness :
  ∃ l d',
    listAt mixedBook (routedRef (sampleOrder 6 TypeLimit StatusOpen DirLong 98 0 2 false))
    = Some l
    ∧ DLOB.update (sampleOrder 6 TypeLimit StatusOpen DirLong 98 0 2 false) "frank" None
        mixedBook
      = (Ok (), d')
    ∧ listAt d' (routedRef (sampleOrder 6 TypeLimit StatusOpen DirLong 98 0 2 false))
      = Some (NodeList.update (sampleOrder 6 TypeLimit StatusOpen DirLong 98 0 2 false)
                "frank" l)
    ∧ (∀ r, r ≠ routedRef (sampleOrder 6 TypeLimit StatusOpen DirLong 98 0 2 false) →
            listAt d' r = listAt mixedBook r)
    ∧ DLOB.openOrders d' = DLOB.openOrders mixedBook.
Proof.
  apply (X5_update_effect mixedBook
           (sampleOrder 6 TypeLimit StatusOpen DirLong 98 0 2 false) "frank"
           (listsOf mixedBook 0)).
  vm_compute. reflexivity.
Defined.

Lemma listAt_trigger (d : DLOB.t) (o : Order) (nodeLists : MarketNodeLists.t) :
  DLOB.orderLists d !! marketIndex o = Some nodeLists →
  is_Some (listAt d (triggerRef o)).
Proof.
  intros Hm. unfold listAt, triggerRef, conditionOf. cbn. rewrite Hm. cbn.
  by destruct (triggerCondition o).
Qed.

Lemma routedRef_triggerRef (o : Order) :
  routedRef o = triggerRef o ↔ pendingTrigger o.
Proof.
  unfold routedRef, triggerRef. split.
  - intros [= Hty _]. by apply orderListType_pending.
  - intros Hp. f_equal; [by apply orderListType_pending|].
    rewrite orderListSubType_pending. by rewrite decide_True.
Qed.

(** X6: in a market of the book, [trigger] returns normally and leaves
    [openOrders] and every list other than the two it names as they were.
    For an order that no longer waits for its trigger, the order is removed
    from the trigger list of its [triggerCondition] and inserted into the
    market, limit or floating-limit list of its side. For an order that still
    waits (the caller did not set [triggered]), the list it is inserted into
    is the trigger list it was just removed from. *)
Theorem X6_trigger_effect (d : DLOB.t) (o : Order) (user : PublicKey)
    (nodeLists : MarketNodeLists.t) :
  DLOB.orderLists d !! marketIndex o = Some nodeLists →
  ∃ l1 l2 d',
    listAt d (triggerRef o) = Some l1
    ∧ listAt d (routedRef o) = Some l2
    ∧ DLOB.trigger o user None d = (Ok (), d')
    ∧ DLOB.openOrders d' = DLOB.openOrders d
    ∧ (∀ r, r ≠ triggerRef o → r ≠ routedRef o → listAt d' r = listAt d r)
    ∧ (¬ pendingTrigger o →
       refType (routedRef o) ≠ NTrigger
       ∧ listAt d' (triggerRef o) = Some (NodeList.remove o user l1)
       ∧ listAt d' (routedRef o) = Some (NodeList.insert o user l2))
    ∧ (pendingTrigger o →
       routedRef o = triggerRef o
       ∧ listAt d' (triggerRef o)
         = Some (NodeList.insert o user (NodeList.remove o user l1))).
Proof.
  intros Hm.
  destruct (listAt_trigger d o nodeLists Hm) as [l1 Hl1].
  destruct (listAt_routed d o nodeLists Hm) as [l2 Hl2].
  set (d1 := withList d (triggerRef o) (NodeList.remove o user l1)).
  assert (Hd1 : ∀ r, listAt d1 r
                     = if decide (triggerRef o = r)
                       then Some (NodeList.remove o user l1) else listAt d r).
  { intros r. by eapply listAt_withList. }
  exists l1, l2.
  destruct (decide (pendingTrigger o)) as [Hp | Hp].
  - assert (Heq : routedRef o = triggerRef o) by (by apply routedRef_triggerRef).
    assert (Hl : listAt d1 (routedRef o) = Some (NodeList.remove o user l1)).
    { rewrite Hd1, decide_True; done. }
    eexists. split; [done|]. split; [done|].
    split; [exact (trigger_run d o user l1 _ Hl1 Hl)|]. fold d1.
    split; [unfold d1; by rewrite !withList_openOrders|].
    split; [|split; [intros Hn; by destruct Hn|]].
    + intros r Hr1 Hr2. erewrite listAt_withList by exact Hl.
      rewrite decide_False by done. rewrite Hd1. by rewrite decide_False.
    + intros _. split; [done|]. erewrite listAt_withList by exact Hl.
      by rewrite decide_True.
  - assert (Hne : triggerRef o ≠ routedRef o).
    { intros Heq. by apply Hp, routedRef_triggerRef. }
    assert (Hl : listAt d1 (routedRef o) = Some l2).
    { rewrite Hd1, decide_False; done. }
    eexists. split; [done|]. split; [done|].
    split; [exact (trigger_run d o user l1 _ Hl1 Hl)|]. fold d1.
    split; [unfold d1; by rewrite !withList_openOrders|].
    split; [|split; [|intros Hn; by destruct Hp]].
    + intros r Hr1 Hr2. erewrite listAt_withList by exact Hl.
      rewrite decide_False by done. rewrite Hd1. by rewrite decide_False.
    + intros _. split; [cbn; by rewrite orderListType_pending|]. split.
      * erewrite listAt_withList by exact Hl. rewrite decide_False by done.
        rewrite Hd1. by rewrite decide_True.
      * erewrite listAt_withList by exact Hl. by rewrite decide_True.
Qed.

Lemma X6_trigger_effect_witness :
  ∃ l1 l2 d',
    listAt triggerBook (triggerRef firedTrigger) = Some l1
    ∧ listAt triggerBook (routedRef firedTrigger) = Some l2
    ∧ DLOB.trigger firedTrigger "alice" None triggerBook = (Ok (), d')
    ∧ DLOB.openOrders d' = DLOB.openOrders triggerBook
    ∧ (∀ r, r ≠ triggerRef firedTrigger → r ≠ routedRef firedTrigger →
            listAt d' r = listAt triggerBook r)
    ∧ (¬ pendingTrigger firedTrigger →
       refType (routedRef firedTrigger) ≠ NTrigger
       ∧ listAt d' (triggerRef firedTrigger) = Some (NodeList.remove firedTrigger "alice" l1)
       ∧ listAt d' (routedRef firedTrigger) = Some (NodeList.insert firedTrigger "alice" l2))
    ∧ (pendingTrigger firedTrigger →
       routedRef firedTrigger = triggerRef firedTrigger
       ∧ listAt d' (triggerRef firedTrigger)
         = Some (NodeList.insert firedTrigger "alice"
                   (NodeList.remove firedTrigger "alice" l1))).
Proof.
  apply (X6_trigger_effect triggerBook firedTrigger "alice" (listsOf triggerBook 0)).
  vm_compute. reflexivity.
Defined.

(** On the sample book: the trigger above 95 leaves the list [trigger.above]
    and arrives as a limit bid. *)
Example trigger_triggerBook :
  let d' := after (DLOB.trigger firedTrigger "alice" None) triggerBook in
  (map (λ n, orderId (order n)) <$> nodesAt triggerBook (triggerRef firedTrigger))
  = Some [3; 1; 2]
  ∧ (map (λ n, orderId (order n)) <$> nodesAt d' (triggerRef firedTrigger)) = Some [3; 2]
  ∧ routedRef firedTrigger = {| refMarket := 0; refType := NLimit; refSubType := SubBid |}
  ∧ (map (λ n, orderId (order n)) <$> nodesAt d' (routedRef firedTrigger)) = Some [1].
Proof. repeat split; vm_compute; reflexivity. Qed.

(** ** Call-backs *)

(** X7: the call-back of a mutator runs last, on the book that the mutator
    has finished with, and it does not run when the mutator throws: with a
    call-back, each of [insert], [remove], [update] and [trigger] does what it
    does without one and then, if that returned, runs the call-back. *)
Theorem X7_callback_runs_last (d : DLOB.t) (o : Order) (user : PublicKey)
    (callback : DLOB.OrderBookCallback) :
  DLOB.insert o user (Some callback) d = thenCallback callback (DLOB.insert o user None d)
  ∧ DLOB.remove o user (Some callback) d = thenCallback callback (DLOB.remove o user None d)
  ∧ DLOB.update o user (Some callback) d = thenCallback callback (DLOB.update o user None d)
  ∧ DLOB.trigger o user (Some callback) d = thenCallback callback (DLOB.trigger o user None d).
Proof.
  repeat split.
  - unfold DLOB.insert. rewrite isVariant_order_init.
    destruct (isVariant (status o) "open"); run_method;
      destruct (DLOB.getListForOrder _ o) as [r|e]; cbn; try done;
      destruct (DLOB.onList r "insert" _ _) as [[[]|e] d']; done.
  - unfold DLOB.remove. run_method.
    destruct (DLOB.getListForOrder _ o) as [r|e]; cbn; try done.
    destruct (DLOB.onList r "remove" _ _) as [[[]|e] d']; done.
  - unfold DLOB.update. run_method.
    destruct (DLOB.getListForOrder _ o) as [r|e]; cbn; try done.
    destruct (DLOB.onList r "update" _ _) as [[[]|e] d']; done.
  - unfold DLOB.trigger. run_method.
    destruct (DLOB.marketLists d (marketIndex o) "trigger") as [nodeLists|e]; cbn;
      try done.
    destruct (DLOB.onList _ "remove" _ _) as [[[]|e] d1]; try done.
    destruct (DLOB.getListForOrder d1 o) as [r|e]; cbn; try done.
    destruct (DLOB.onList r "insert" _ _) as [[[]|e] d']; done.
Qed.

(** ** Markets do not interfere *)

Lemma update_unknown_market (d : DLOB.t) (o : Order) (user : PublicKey) :
  DLOB.orderLists d !! marketIndex o = None →
  after (DLOB.update o user None) d = d.
Proof.
  intros Hm. unfold after, DLOB.update. run_method.
  by rewrite getListForOrder_unknown.
Qed.

Lemma trigger_unknown_market (d : DLOB.t) (o : Order) (user : PublicKey) :
  DLOB.orderLists d !! marketIndex o = None →
  after (DLOB.trigger o user None) d = d.
Proof.
  intros Hm. unfold after, DLOB.trigger. run_method.
  by rewrite (marketLists_unknown _ _ _ Hm).
Qed.

(** A mutator changes no list of a market other than the order's. *)
Lemma mutators_other_market (d : DLOB.t) (o : Order) (user : PublicKey) (m : Z)
    (mutator : DLOB.M unit) :
  m ≠ marketIndex o →
  mutator ∈ mutators o user →
  DLOB.orderLists (after mutator d) !! m = DLOB.orderLists d !! m.
Proof.
  intros Hne Hin. unfold mutators in Hin.
  destruct (DLOB.orderLists d !! marketIndex o) as [nodeLists|] eqn:Hm.
  - destruct (listAt_routed d o nodeLists Hm) as [l Hl].
    destruct (listAt_trigger d o nodeLists Hm) as [l1 Hl1].
    repeat (apply elem_of_cons in Hin as [-> | Hin]); [| | | |by apply elem_of_nil in Hin];
      unfold after.
    + rewrite (insert_run d o user l Hl). cbn. by rewrite withList_other_market.
    + rewrite (remove_run d o user l Hl). cbn. by rewrite withList_other_market.
    + rewrite (update_run d o user l Hl). cbn. by rewrite withList_other_market.
    + assert (Hl2 : is_Some (listAt (withList d (triggerRef o) (NodeList.remove o user l1))
                               (routedRef o))).
      { erewrite listAt_withList by exact Hl1. case_decide; by eexists. }
      destruct Hl2 as [l2 Hl2].
      rewrite (trigger_run d o user l1 l2 Hl1 Hl2). cbn.
      by rewrite !withList_other_market.
  - repeat (apply elem_of_cons in Hin as [-> | Hin]); [| | | |by apply elem_of_nil in Hin].
    + destruct (insert_unknown_market d o user None Hm) as [reading Hrun].
      unfold after. by rewrite Hrun.
    + destruct (remove_unknown_market d o user None Hm) as [reading Hrun].
      unfold after. by rewrite Hrun.
    + by rewrite update_unknown_market.
    + by rewrite trigger_unknown_market.
Qed.

Lemma marketLists_same (d d' : DLOB.t) (m : Z) (reading : string) :
  DLOB.orderLists d' !! m = DLOB.orderLists d !! m →
  DLOB.marketLists d' m reading = DLOB.marketLists d m reading.
Proof. unfold DLOB.marketLists. by intros ->. Qed.

(** The readers of a market look at nothing but the lists of that market. *)
Lemma readers_same (d d' : DLOB.t) (m vBid vAsk slot oraclePrice : Z)
    (oracle : option OraclePriceData.t) :
  DLOB.orderLists d' !! m = DLOB.orderLists d !! m →
  DLOB.getAsks d' m vAsk slot oracle = DLOB.getAsks d m vAsk slot oracle
  ∧ DLOB.getBids d' m vBid slot oracle = DLOB.getBids d m vBid slot oracle
  ∧ DLOB.findNodesToFill d' m vBid vAsk slot oracle
    = DLOB.findNodesToFill d m vBid vAsk slot oracle
  ∧ DLOB.findNodesToTrigger d' m slot oraclePrice
    = DLOB.findNodesToTrigger d m slot oraclePrice
  ∧ DLOB.getBestAsk d' m vAsk slot oracle = DLOB.getBestAsk d m vAsk slot oracle
  ∧ DLOB.getBestBid d' m vBid slot oracle = DLOB.getBestBid d m vBid slot oracle.
Proof.
  intros Hm.
  assert (Hasks : DLOB.getAsks d' m vAsk slot oracle = DLOB.getAsks d m vAsk slot oracle).
  { unfold DLOB.getAsks. by rewrite (marketLists_same d d' m _ Hm). }
  assert (Hbids : DLOB.getBids d' m vBid slot oracle = DLOB.getBids d m vBid slot oracle).
  { unfold DLOB.getBids. by rewrite (marketLists_same d d' m _ Hm). }
  repeat split; try done.
  - unfold DLOB.findNodesToFill, DLOB.findCrossingNodesToFill, DLOB.scanCrossingNodes,
      DLOB.findMarketNodesToFill, DLOB.getMarketBids, DLOB.getMarketAsks.
    by rewrite Hasks, Hbids, !(marketLists_same d d' m _ Hm).
  - unfold DLOB.findNodesToTrigger. by rewrite !(marketLists_same d d' m _ Hm).
  - unfold DLOB.getBestAsk. by rewrite Hasks.
  - unfold DLOB.getBestBid. by rewrite Hbids.
Qed.

(** X8: a mutator called with an order of one market, whether it returns or
    throws, changes no list of any other market, and so changes nothing of
    what the readers return for another market. *)
Theorem X8_markets_do_not_interfere (d : DLOB.t) (o : Order) (user : PublicKey)
    (mutator : DLOB.M unit) (m vBid vAsk slot oraclePrice : Z)
    (oracle : option OraclePriceData.t) :
  m ≠ marketIndex o →
  mutator ∈ mutators o user →
  let d' := after mutator d in
  DLOB.orderLists d' !! m = DLOB.orderLists d !! m
  ∧ DLOB.findNodesToFill d' m vBid vAsk slot oracle
    = DLOB.findNodesToFill d m vBid vAsk slot oracle
  ∧ DLOB.findNodesToTrigger d' m slot oraclePrice
    = DLOB.findNodesToTrigger d m slot oraclePrice
  ∧ DLOB.getBestAsk d' m vAsk slot oracle = DLOB.getBestAsk d m vAsk slot oracle
  ∧ DLOB.getBestBid d' m vBid slot oracle = DLOB.getBestBid d m vBid slot oracle.
Proof.
  intros Hne Hin d'.
  pose proof (mutators_other_market d o user m mutator Hne Hin) as Hm.
  destruct (readers_same d d' m vBid vAsk slot oraclePrice oracle Hm)
    as (_ & _ & Hfill & Htrigger & Hask & Hbid).
  done.
Qed.

Lemma X8_markets_do_not_interfere_witness :
  let d' := after (DLOB.insert strayOrder "alice" None) twoMarketBook in
  DLOB.orderLists d' !! 0 = DLOB.orderLists twoMarketBook !! 0
  ∧ DLOB.findNodesToFill d' 0 90 110 5 (oracleAt 100)
    = DLOB.findNodesToFill twoMarketBook 0 90 110 5 (oracleAt 100)
  ∧ DLOB.findNodesToTrigger d' 0 5 100 = DLOB.findNodesToTrigger twoMarketBook 0 5 100
  ∧ DLOB.getBestAsk d' 0 110 5 (oracleAt 100)
    = DLOB.getBestAsk twoMarketBook 0 110 5 (oracleAt 100)
  ∧ DLOB.getBestBid d' 0 90 5 (oracleAt 100)
    = DLOB.getBestBid twoMarketBook 0 90 5 (oracleAt 100).
Proof.
  apply (X8_markets_do_not_interfere twoMarketBook strayOrder "alice"
           (DLOB.insert strayOrder "alice" None) 0 90 110 5 100 (oracleAt 100)).
  - vm_compute. discriminate.
  - unfold mutators. constructor.
Defined.

(** ** [openOrders] *)

(** X9: in a market of the book, inserting an open order a second time
    leaves [openOrders] as the first insertion made it, and removing an order
    after it was inserted leaves [openOrders] without its id, which is
    [openOrders] as it was before the two calls when the id was not in it. *)
Theorem X9_openOrders_insert_remove (d : DLOB.t) (o : Order) (user : PublicKey)
    (nodeLists : MarketNodeLists.t) :
  DLOB.orderLists d !! marketIndex o = Some nodeLists →
  let once := after (DLOB.insert o user None) d in
  let twice := after (DLOB.insert o user None) once in
  let removed := after (DLOB.remove o user None) once in
  DLOB.openOrders twice = DLOB.openOrders once
  ∧ DLOB.openOrders removed = DLOB.openOrders d ∖ {[getOrderId o user]}
  ∧ (getOrderId o user ∉ DLOB.openOrders d →
     DLOB.openOrders removed = DLOB.openOrders d).
Proof.
  intros Hm once twice removed.
  destruct (listAt_routed d o nodeLists Hm) as [l Hl].
  assert (Honce : DLOB.openOrders once
                  = if bool_decide (status o = StatusOpen)
                    then {[getOrderId o user]} ∪ DLOB.openOrders d
                    else DLOB.openOrders d).
  { unfold once, after. rewrite (insert_run d o user l Hl). cbn.
    by rewrite withList_openOrders. }
  assert (Hl' : is_Some (listAt once (routedRef o))).
  { unfold once, after. rewrite (insert_run d o user l Hl). cbn.
    erewrite listAt_withList by (rewrite with_openOrders_lists; exact Hl).
    rewrite decide_True by done. by eexists. }
  destruct Hl' as [l' Hl'].
  assert (Hremoved : DLOB.openOrders removed
                     = DLOB.openOrders d ∖ {[getOrderId o user]}).
  { unfold removed, after. rewrite (remove_run once o user l' Hl'). cbn.
    rewrite withList_openOrders. cbn. rewrite Honce.
    apply set_eq. intros id.
    case_bool_decide; rewrite !elem_of_difference, ?elem_of_union, !elem_of_singleton;
      tauto. }
  split; [|split; [done|]].
  - unfold twice, after. rewrite (insert_run once o user l' Hl'). cbn.
    rewrite withList_openOrders. cbn. rewrite Honce.
    case_bool_decide; [|done].
    apply set_eq. intros id. rewrite !elem_of_union, !elem_of_singleton. tauto.
  - intros Hfresh. rewrite Hremoved. apply set_eq. intros id.
    rewrite elem_of_difference, elem_of_singleton. split; [tauto|].
    intros Hid. split; [done|]. by intros ->.
Qed.

Lemma X9_openOrders_insert_remove_witness :
  let once := after (DLOB.insert freshBid "ivan" None) mixedBook in
  let twice := after (DLOB.insert freshBid "ivan" None) once in
  let removed := after (DLOB.remove freshBid "ivan" None) once in
  DLOB.openOrders twice = DLOB.openOrders once
  ∧ DLOB.openOrders removed = DLOB.openOrders mixedBook ∖ {[getOrderId freshBid "ivan"]}
  ∧ (getOrderId freshBid "ivan" ∉ DLOB.openOrders mixedBook →
     DLOB.openOrders removed = DLOB.openOrders mixedBook).
Proof.
  apply (X9_openOrders_insert_remove mixedBook freshBid "ivan" (listsOf mixedBook 0)).
  vm_compute. reflexivity.
Defined.

(** ** The branches of [findCrossingOrders] *)

(** X10: a pair that crosses and has the vAMM on a side is never filled
    against each other. When the ask is the vAMM's, the side returned is the
    bid's (also when both nodes are the vAMM's); when only the bid is the
    vAMM's, it is the ask's: the node advanced is the one facing the vAMM. *)
Theorem X10_findCrossingOrders_vamm (askNode bidNode : DLOBNode)
    (oracle : option OraclePriceData.t) (slot pa pb : Z) :
  getPrice askNode oracle slot = Ok pa →
  getPrice bidNode oracle slot = Ok pb →
  pa ≤ pb →
  isVammNode askNode || isVammNode bidNode = true →
  DLOB.findCrossingOrders askNode bidNode oracle slot
  = Ok {| crossingNodes := None;
          crossingSide := Some (if isVammNode askNode then SideBid else SideAsk) |}.
Proof.
  intros Ha Hb Hle Hvamm. unfold DLOB.findCrossingOrders. rewrite Ha, Hb. cbn.
  destruct (Z.ltb_spec pb pa); [lia|].
  destruct (isVammNode askNode); [done|]. cbn in Hvamm. by rewrite Hvamm.
Qed.

Lemma X10_findCrossingOrders_vamm_witness :
  DLOB.findCrossingOrders (VammNode 100)
    (userNode NLimit (sampleOrder 1 TypeLimit StatusOpen DirLong 105 0 1 false) "alice")
    None 5
  = Ok {| crossingNodes := None;
          crossingSide := Some (if isVammNode (VammNode 100) then SideBid else SideAsk) |}.
Proof.
  apply (X10_findCrossingOrders_vamm (VammNode 100)
           (userNode NLimit (sampleOrder 1 TypeLimit StatusOpen DirLong 105 0 1 false) "alice")
           None 5 100 105); first [reflexivity | lia].
Defined.

(** X11: when two users' orders cross and exactly one of them is post-only,
    the post-only order is the maker and the other one the taker, whichever
    is older, and the side returned is the taker's. *)
Theorem X11_findCrossingOrders_one_post_only (a b : OrderNode)
    (oracle : option OraclePriceData.t) (slot pa pb : Z) :
  getPrice (UserNode a) oracle slot = Ok pa →
  getPrice (UserNode b) oracle slot = Ok pb →
  pa ≤ pb →
  postOnly (order a) ≠ postOnly (order b) →
  DLOB.findCrossingOrders (UserNode a) (UserNode b) oracle slot
  = Ok (if postOnly (order b)
        then {| crossingNodes :=
                  Some {| NodeToFill.node := UserNode a;
                          NodeToFill.makerNode := Some (UserNode b) |};
                crossingSide := Some SideAsk |}
        else {| crossingNodes :=
                  Some {| NodeToFill.node := UserNode b;
                          NodeToFill.makerNode := Some (UserNode a) |};
                crossingSide := Some SideBid |}).
Proof.
  intros Ha Hb Hle Hpo.
  rewrite (findCrossingOrders_users _ _ _ _ _ _ Ha Hb Hle). cbn.
  by destruct (postOnly (order a)), (postOnly (order b)).
Qed.

Lemma X11_findCrossingOrders_one_post_only_witness :
  DLOB.findCrossingOrders
    (userNode NLimit (sampleOrder 2 TypeLimit StatusOpen DirShort 99 0 1 false) "bob")
    (userNode NLimit (sampleOrder 1 TypeLimit StatusOpen DirLong 100 0 5 true) "alice")
    None 5
  = Ok (if postOnly (sampleOrder 1 TypeLimit StatusOpen DirLong 100 0 5 true)
        then {| crossingNodes :=
                  Some {| NodeToFill.node :=
                            userNode NLimit
                              (sampleOrder 2 TypeLimit StatusOpen DirShort 99 0 1 false) "bob";
                          NodeToFill.makerNode :=
                            Some (userNode NLimit
                                    (sampleOrder 1 TypeLimit StatusOpen DirLong 100 0 5 true)
                                    "alice") |};
                crossingSide := Some SideAsk |}
        else {| crossingNodes :=
                  Some {| NodeToFill.node :=
                            userNode NLimit
                              (sampleOrder 1 TypeLimit StatusOpen DirLong 100 0 5 true) "alice";
                          NodeToFill.makerNode :=
                            Some (userNode NLimit
                                    (sampleOrder 2 TypeLimit StatusOpen DirShort 99 0 1 false)
                                    "bob") |};
                crossingSide := Some SideBid |}).
Proof.
  apply (X11_findCrossingOrders_one_post_only
           {| nodeClass := NLimit;
              order := sampleOrder 2 TypeLimit StatusOpen DirShort 99 0 1 false;
              userAccount := "bob" |}
           {| nodeClass := NLimit;
              order := sampleOrder 1 TypeLimit StatusOpen DirLong 100 0 5 true;
              userAccount := "alice" |}
           None 5 99 100); first [reflexivity | lia | discriminate].
Defined.

(** ** What the merge yields *)

(** Whatever the oracle data, a turn of the merge that returns either yields
    nothing and leaves the entries as they are, or yields the node peeked by
    one entry and advances that entry alone. *)
Lemma mergeStep_shape (keeps : Z → Z → bool) oracle slot (gens gens' : list Peeked)
    (value : option DLOBNode) :
  mergeStep keeps oracle slot gens = Ok (value, gens') →
  (value = None ∧ gens' = gens)
  ∨ ∃ (i : nat) p v,
      value = Some v ∧ gens !! i = Some p ∧ next p = Some v
      ∧ gens' = <[i := peek (generator p)]> gens.
Proof.
  unfold mergeStep, reduce. destruct (indexed gens) as [|b l] eqn:E; [done|].
  destruct (foldlM_reducer_any keeps oracle slot l b) as [(r & -> & Hr) | (e & -> & He)];
    [|done].
  rewrite <- E in Hr. apply list_elem_of_lookup in Hr as [j Hj].
  apply indexed_lookup in Hj as (p & Hp & ->). cbn.
  destruct (next p) as [v|] eqn:Hv; intros [= <- <-]; [right | by left].
  by exists j, p, v.
Qed.

Lemma pending_cons (p : Peeked) (gens : list Peeked) :
  pending (p :: gens) = elems p ++ pending gens.
Proof. reflexivity. Qed.

Lemma pending_step (gens : list Peeked) (i : nat) (p : Peeked) (v : DLOBNode) :
  gens !! i = Some p → next p = Some v →
  pending gens ≡ₚ v :: pending (<[i := peek (generator p)]> gens).
Proof.
  revert i. induction gens as [|q gens IH]; intros i Hp Hv; [done|].
  destruct i as [|i]; cbn in Hp.
  - injection Hp as ->.
    change (<[0%nat := peek (generator p)]> (p :: gens)) with (peek (generator p) :: gens).
    rewrite !pending_cons, elems_peek. unfold elems. by rewrite Hv.
  - change (<[S i := peek (generator p)]> (q :: gens))
      with (q :: <[i := peek (generator p)]> gens).
    rewrite !pending_cons, (IH i Hp Hv). by rewrite Permutation_middle.
Qed.

(** [next()] takes the node it yields out of the nodes to come, and nothing
    else. *)
Lemma MergeGenerator_next_pending (g g' : MergeGenerator) (value : option DLOBNode) :
  MergeGenerator_next g = Ok (value, g') →
  pendingOf g ≡ₚ option_list value ++ pendingOf g'.
Proof.
  unfold MergeGenerator_next, pendingOf.
  destruct (sources g) as [gens|e]; cbn; [|done].
  destruct (mergeStep (keeps g) (mergeOracle g) (mergeSlot g) gens)
    as [[value' gens']|e] eqn:Hstep; cbn; [|done].
  intros [= <- <-]. cbn.
  apply mergeStep_shape in Hstep as [[-> ->] | (i & p & v & -> & Hp & Hv & ->)]; [done|].
  cbn. by apply pending_step.
Qed.

Lemma pending_sideSources (side : Side) (nodeLists : MarketNodeLists.t) (vPrice : Z) :
  pending (sideSources side nodeLists vPrice)
  = sideNodes side nodeLists ++ [VammNode vPrice].
Proof.
  unfold pending, sideSources, sideNodes, getVammNodeGenerator.
  destruct side; cbn; rewrite !elems_peek, ?app_nil_r, <- ?app_assoc; reflexivity.
Qed.

Lemma reducer_done (keeps : Z → Z → bool) oracle slot (b c r : nat * Peeked) :
  reducer keeps oracle slot b c = Ok r →
  (next c.2 = None ∧ r = b) ∨ (is_Some (next c.2) ∧ is_Some (next r.2)).
Proof.
  unfold reducer. destruct (next c.2) as [cv|] eqn:Hc; [|intros [= <-]; by left].
  destruct (next b.2) as [bv|] eqn:Hb.
  - destruct (getPrice bv oracle slot) as [bp|]; cbn; [|done].
    destruct (getPrice cv oracle slot) as [cp|]; cbn; [|done].
    destruct (keeps bp cp); intros [= <-]; right; rewrite ?Hb, ?Hc; by split.
  - intros [= <-]. right. rewrite Hc. by split.
Qed.

(** Whatever the oracle data, the entry that [reduce] returns is exhausted
    only when every entry is. *)
Lemma foldlM_reducer_done (keeps : Z → Z → bool) oracle slot
    (l : list (nat * Peeked)) (b r : nat * Peeked) :
  foldlM (reducer keeps oracle slot) l b = Ok r →
  next r.2 = None →
  Forall (λ e, next e.2 = None) (b :: l).
Proof.
  revert b. induction l as [|c l IH]; intros b; cbn [foldlM].
  - intros [= <-] Hr. by repeat constructor.
  - destruct (reducer keeps oracle slot b c) as [b'|e] eqn:Hbc; cbn; [|done].
    intros Hfold Hr. specialize (IH b' Hfold Hr).
    apply Forall_cons in IH as [Hb' Hl].
    apply reducer_done in Hbc as [[Hc ->] | [_ [x Hx]]].
    + by repeat constructor.
    + congruence.
Qed.

Lemma mergeStep_done (keeps : Z → Z → bool) oracle slot (gens gens' : list Peeked) :
  mergeStep keeps oracle slot gens = Ok (None, gens') →
  pending gens = [].
Proof.
  unfold mergeStep, reduce. destruct (indexed gens) as [|b l] eqn:E; [done|].
  destruct (foldlM (reducer keeps oracle slot) l b) as [[i p]|e] eqn:Hfold; cbn; [|done].
  destruct (next p) as [v|] eqn:Hv; [done|]. intros _.
  pose proof (foldlM_reducer_done keeps oracle slot l b (i, p) Hfold Hv) as Hall.
  rewrite <- E in Hall. clear -Hall.
  assert (Hgens : Forall (λ q, next q = None) gens).
  { apply Forall_lookup. intros j q Hq. rewrite Forall_lookup in Hall.
    apply (Hall j (j, q)). apply indexed_lookup. by exists q. }
  clear Hall. induction Hgens as [|q gens Hq _ IH]; [done|].
  rewrite pending_cons, IH. unfold elems. by rewrite Hq.
Qed.

(** Draining a generator gives back the nodes it had to yield, each once. *)
Lemma drain_pending (fuel : nat) (g : MergeGenerator) (out : list DLOBNode) :
  drain fuel g = Ok out → out ≡ₚ pendingOf g.
Proof.
  revert g out. induction fuel as [|fuel IH]; intros g out; [done|].
  cbn [drain].
  destruct (MergeGenerator_next g) as [[value g']|e] eqn:Hnext; cbn [mbind Result_bind];
    [|done].
  pose proof (MergeGenerator_next_pending g g' value Hnext) as Hperm.
  destruct value as [v|].
  - destruct (drain fuel g') as [rest|e] eqn:Hrest; cbn; [|done].
    intros [= <-]. rewrite Hperm. cbn. by rewrite (IH g' rest Hrest).
  - intros [= <-]. unfold MergeGenerator_next, pendingOf in *.
    destruct (sources g) as [gens|]; cbn in *; [|done].
    destruct (mergeStep (keeps g) (mergeOracle g) (mergeSlot g) gens)
      as [[value' gens']|] eqn:Hstep; cbn in Hnext; [|done].
    injection Hnext as -> <-. by rewrite (mergeStep_done _ _ _ _ _ Hstep).
Qed.

Lemma drain_supplied (side : Side) (o : OraclePriceData.t) (slot : Z) (fuel : nat)
    (gens : list Peeked) :
  gens ≠ [] → (remaining gens < fuel)%nat →
  ∃ out, drain fuel (generatorAt side o slot gens) = Ok out.
Proof.
  revert gens. induction fuel as [|fuel IH]; intros gens Hne Hfuel; [lia|].
  cbn [drain].
  destruct (MergeGenerator_next_measure side o slot gens Hne)
    as (value & gens' & -> & Hne' & Hm). cbn [mbind Result_bind].
  destruct value as [v|]; [|by eexists].
  destruct (IH gens' Hne') as [rest ->]; [cbn in Hm; lia|]. by eexists.
Qed.

(** X15: in a market of the book, what [getAsks] (resp. [getBids]) yields
    when it is drained is the nodes of the limit, floating-limit and market
    lists of the side together with the one node of the vAMM, each exactly
    once: the merge loses and repeats nothing, and yields no trigger order.
    With oracle data it can always be drained. *)
Theorem X15_merge_yields_every_node_once (side : Side) (d : DLOB.t)
    (m vPrice slot : Z) (oracle : option OraclePriceData.t)
    (nodeLists : MarketNodeLists.t) :
  DLOB.orderLists d !! m = Some nodeLists →
  (∀ out,
     yielded (sideGenerator side d m vPrice slot oracle) = Ok out →
     out ≡ₚ sideNodes side nodeLists ++ [VammNode vPrice])
  ∧ (is_Some oracle →
     ∃ out, yielded (sideGenerator side d m vPrice slot oracle) = Ok out).
Proof.
  intros Hm.
  assert (Hsrc : sources (sideGenerator side d m vPrice slot oracle)
                 = Ok (sideSources side nodeLists vPrice)).
  { destruct side; cbn; by rewrite (marketLists_known _ _ _ _ Hm). }
  split.
  - intros out. unfold yielded. rewrite Hsrc. intros Hout%drain_pending.
    rewrite Hout. unfold pendingOf. rewrite Hsrc. by rewrite pending_sideSources.
  - intros [o ->]. rewrite (sideGenerator_known _ _ _ _ _ _ _ Hm), yielded_generatorAt.
    apply drain_supplied; [by destruct side | lia].
Qed.

Lemma X15_merge_yields_every_node_once_witness :
  (∀ out,
     yielded (sideGenerator SideAsk mixedBook 0 110 5 (oracleAt 100)) = Ok out →
     out ≡ₚ sideNodes SideAsk (listsOf mixedBook 0) ++ [VammNode 110])
  ∧ (is_Some (oracleAt 100) →
     ∃ out, yielded (sideGenerator SideAsk mixedBook 0 110 5 (oracleAt 100)) = Ok out).
Proof.
  apply (X15_merge_yields_every_node_once SideAsk mixedBook 0 110 5 (oracleAt 100)
           (listsOf mixedBook 0)).
  vm_compute. reflexivity.
Defined.

(** ** What [findCrossingNodesToFill] emits *)

Lemma pendingOf_sideGenerator (side : Side) (d : DLOB.t) (m vPrice slot : Z)
    (oracle : option OraclePriceData.t) (nodeLists : MarketNodeLists.t) :
  DLOB.orderLists d !! m = Some nodeLists →
  pendingOf (sideGenerator side d m vPrice slot oracle)
  = sideNodes side nodeLists ++ [VammNode vPrice].
Proof.
  intros Hm. unfold pendingOf.
  assert (Hsrc : sources (sideGenerator side d m vPrice slot oracle)
                 = Ok (sideSources side nodeLists vPrice)).
  { destruct side; cbn; by rewrite (marketLists_known _ _ _ _ Hm). }
  rewrite Hsrc. apply pending_sideSources.
Qed.

Lemma findCrossingOrders_fill (a b : DLOBNode) oracle slot (c : Crossing)
    (f : NodeToFill.t) :
  DLOB.findCrossingOrders a b oracle slot = Ok c →
  crossingNodes c = Some f →
  ∃ taker maker,
    NodeToFill.node f = UserNode taker
    ∧ NodeToFill.makerNode f = Some (UserNode maker)
    ∧ postOnly (order taker) = false
    ∧ (UserNode taker = a ∨ UserNode taker = b)
    ∧ (UserNode maker = a ∨ UserNode maker = b).
Proof.
  unfold DLOB.findCrossingOrders.
  destruct (getPrice b oracle slot) as [pb|]; cbn; [|done].
  destruct (getPrice a oracle slot) as [pa|]; cbn; [|done].
  destruct (pb <? pa); [by intros [= <-]|].
  destruct a as [a|]; cbn; [|by intros [= <-]].
  destruct b as [b|]; cbn; [|by intros [= <-]].
  destruct (postOnly (order b)) eqn:Hb, (postOnly (order a)) eqn:Ha; cbn;
    intros [= <-]; cbn; intros [= <-]; cbn.
  - exists a, b. tauto.
  - exists b, a. tauto.
  - destruct (ts (order b) <? ts (order a)), (ts (order a) <? ts (order b));
      first [exists a, a; tauto | exists a, b; tauto | exists b, a; tauto | exists b, b; tauto].
Qed.

Lemma scanLoop_fills (Q : DLOBNode → Prop) (P : NodeToFill.t → Prop) oracle slot :
  (∀ a b c f, Q a → Q b →
     DLOB.findCrossingOrders a b oracle slot = Ok c → crossingNodes c = Some f → P f) →
  ∀ (fuel : nat) acc na ga nb gb scan,
    Forall P acc →
    (∀ a, na = Some a → Q a) → (∀ b, nb = Some b → Q b) →
    Forall Q (pendingOf ga) → Forall Q (pendingOf gb) →
    DLOB.scanLoop fuel oracle slot acc na ga nb gb = Ok scan →
    Forall P (DLOB.nodesToFill scan).
Proof.
  intros Hfill. induction fuel as [|fuel IH];
    intros acc na ga nb gb scan Hacc Hna Hnb Hga Hgb Hscan; [done|].
  cbn [DLOB.scanLoop] in Hscan.
  destruct na as [a|], nb as [b|]; try (by injection Hscan as <-).
  destruct (DLOB.findCrossingOrders a b oracle slot) as [c|e] eqn:Hc;
    cbn [mbind Result_bind] in Hscan; [|done].
  set (acc' := match crossingNodes c with
               | Some nodes => acc ++ [nodes]
               | None => acc
               end) in Hscan.
  assert (Hacc' : Forall P acc').
  { unfold acc'. destruct (crossingNodes c) as [f|] eqn:Hf; [|done].
    apply Forall_app. split; [done|]. repeat constructor.
    eapply (Hfill a b c f); eauto. }
  destruct (bool_decide _ && bool_decide _); [by injection Hscan as <-|].
  destruct (crossingSide c) as [[|]|]; [| |by injection Hscan as <-].
  - destruct (MergeGenerator_next ga) as [[na' ga']|] eqn:Hnext;
      cbn [mbind Result_bind] in Hscan; [|done].
    apply MergeGenerator_next_pending in Hnext. rewrite Hnext in Hga.
    apply Forall_app in Hga as [Hna' Hga'].
    eapply (IH acc' na' ga' (Some b) gb); eauto.
    intros x ->. by apply Forall_cons in Hna' as [? _].
  - destruct (MergeGenerator_next gb) as [[nb' gb']|] eqn:Hnext;
      cbn [mbind Result_bind] in Hscan; [|done].
    apply MergeGenerator_next_pending in Hnext. rewrite Hnext in Hgb.
    apply Forall_app in Hgb as [Hnb' Hgb'].
    eapply (IH acc' (Some a) ga nb' gb'); eauto.
    intros x ->. by apply Forall_cons in Hnb' as [? _].
Qed.

Lemma findCrossingNodesToFill_bookFill (d : DLOB.t) (m vBid vAsk slot : Z)
    (oracle : option OraclePriceData.t) (nodeLists : MarketNodeLists.t)
    (nodes : list NodeToFill.t) :
  DLOB.orderLists d !! m = Some nodeLists →
  DLOB.findCrossingNodesToFill d m vBid vAsk slot oracle = Ok nodes →
  Forall (bookFill nodeLists) nodes.
Proof.
  intros Hm. unfold DLOB.findCrossingNodesToFill.
  destruct (DLOB.scanCrossingNodes d m vBid vAsk slot oracle) as [scan|] eqn:Hscan;
    cbn; [|done].
  intros [= <-]. unfold DLOB.scanCrossingNodes in Hscan.
  set (Q := λ x : DLOBNode, isVammNode x = true ∨ x ∈ bookNodes nodeLists).
  assert (HQa : Forall Q (pendingOf (sideGenerator SideAsk d m vAsk slot oracle))).
  { rewrite (pendingOf_sideGenerator SideAsk d m vAsk slot oracle nodeLists Hm).
    apply Forall_app. split.
    - apply Forall_forall. intros x Hx. right. unfold bookNodes.
      apply elem_of_app. by left.
    - by repeat constructor. }
  assert (HQb : Forall Q (pendingOf (sideGenerator SideBid d m vBid slot oracle))).
  { rewrite (pendingOf_sideGenerator SideBid d m vBid slot oracle nodeLists Hm).
    apply Forall_app. split.
    - apply Forall_forall. intros x Hx. right. unfold bookNodes.
      apply elem_of_app. by right.
    - by repeat constructor. }
  cbn [sideGenerator] in HQa, HQb.
  destruct (MergeGenerator_next (DLOB.getAsks d m vAsk slot oracle))
    as [[na ga]|] eqn:Hna; cbn [mbind Result_bind] in Hscan; [|done].
  destruct (MergeGenerator_next (DLOB.getBids d m vBid slot oracle))
    as [[nb gb]|] eqn:Hnb; cbn [mbind Result_bind] in Hscan; [|done].
  apply MergeGenerator_next_pending in Hna, Hnb. rewrite Hna in HQa. rewrite Hnb in HQb.
  apply Forall_app in HQa as [HQna HQga]. apply Forall_app in HQb as [HQnb HQgb].
  eapply (scanLoop_fills Q (bookFill nodeLists) oracle slot); [|constructor| | | | |exact Hscan];
    try done.
  - intros a b c f Ha Hb Hc Hf.
    destruct (findCrossingOrders_fill a b oracle slot c f Hc Hf)
      as (taker & maker & Hnode & Hmaker & Hpo & Htaker & Hmk).
    exists taker, maker. do 3 (split; [done|]).
    split; [destruct Htaker as [<- | <-] | destruct Hmk as [<- | <-]];
      first [by destruct Ha as [? | ?] | by destruct Hb as [? | ?]].
  - intros x ->. by apply Forall_cons in HQna as [? _].
  - intros x ->. by apply Forall_cons in HQnb as [? _].
Qed.

(** X12: every fill that [findCrossingNodesToFill] returns for a market has a
    maker; its taker and its maker are users' orders that rest in the limit,
    floating-limit or market lists of that market (never the vAMM, never a
    pending trigger, never an order of another market); and its taker is not
    post-only. This holds with or without oracle data. *)
Theorem X12_crossing_fills_are_book_orders (d : DLOB.t) (m vBid vAsk slot : Z)
    (oracle : option OraclePriceData.t) (nodeLists : MarketNodeLists.t)
    (nodes : list NodeToFill.t) :
  DLOB.orderLists d !! m = Some nodeLists →
  DLOB.findCrossingNodesToFill d m vBid vAsk slot oracle = Ok nodes →
  Forall (bookFill nodeLists) nodes.
Proof. apply findCrossingNodesToFill_bookFill. Qed.

Lemma X12_crossing_fills_are_book_orders_witness :
  Forall (bookFill (listsOf crowdedBook 0))
         (returned [] (DLOB.findCrossingNodesToFill crowdedBook 0 90 110 5 (oracleAt 100))).
Proof.
  apply (X12_crossing_fills_are_book_orders crowdedBook 0 90 110 5 (oracleAt 100)
           (listsOf crowdedBook 0)).
  - vm_compute. reflexivity.
  - vm_compute. reflexivity.
Defined.

(** ** The best quotes *)

Lemma peek_next (g : list DLOBNode) : next (peek g) = head g.
Proof. by destruct g. Qed.

(** With oracle data, the first [next()] of the generator of a side yields a
    node whose price is at least as good as the vAMM's and as that of the
    first node of each list of the side. *)
Lemma first_next_best (side : Side) (o : OraclePriceData.t) (slot vPrice : Z)
    (nodeLists : MarketNodeLists.t) :
  ∃ v g',
    MergeGenerator_next (generatorAt side o slot (sideSources side nodeLists vPrice))
    = Ok (Some v, g')
    ∧ v ∈ sideNodes side nodeLists ++ [VammNode vPrice]
    ∧ noWorse side (priceAt o slot v) vPrice
    ∧ ∀ l x, l ∈ sideLists side nodeLists → firstNode l = Some x →
        noWorse side (priceAt o slot v) (priceAt o slot x).
Proof.
  set (gens := sideSources side nodeLists vPrice).
  assert (Hne : gens ≠ []) by (by destruct side).
  assert (Hvamm : peek (getVammNodeGenerator vPrice) ∈ gens).
  { unfold gens, sideSources. rewrite list_elem_of_fmap. eexists. split; [done|].
    apply elem_of_app. right. by apply elem_of_cons; left. }
  rewrite MergeGenerator_next_generatorAt.
  destruct (mergeStep_supplied side o slot gens Hne)
    as [[_ Hdone] | (i & p & v & Hp & Hv & -> & Hbest)].
  { by specialize (Hdone _ Hvamm). }
  assert (Hall : ∀ q w, q ∈ gens → next q = Some w →
                   noWorse side (priceAt o slot v) (priceAt o slot w)).
  { intros q w [j Hq]%list_elem_of_lookup Hw. apply rank_noWorse.
    destruct (Hbest j q Hq) as [Hbefore Hafter].
    unfold headRank in Hbefore, Hafter. rewrite Hv, Hw in Hbefore, Hafter.
    cbn in Hbefore, Hafter.
    destruct (lt_eq_lt_dec j i) as [[Hlt | ->] | Hgt].
    - by apply Hbefore.
    - assert (w = v) as -> by congruence. lia.
    - specialize (Hafter Hgt). lia. }
  cbn. eexists v, _. split; [done|]. split; [|split].
  - rewrite <- pending_sideSources. fold gens. unfold pending.
    apply list_elem_of_bind. exists p. split; [|apply list_elem_of_lookup; eauto].
    unfold elems. rewrite Hv. by apply elem_of_cons; left.
  - apply (Hall _ (VammNode vPrice) Hvamm). done.
  - intros l x Hl Hx. apply (Hall (peek (NodeList.getGenerator l))).
    + unfold gens, sideSources. rewrite list_elem_of_fmap. eexists. split; [done|].
      apply elem_of_app. left. rewrite list_elem_of_fmap. by exists l.
    + by rewrite peek_next.
Qed.

(** X14: in a market of the book and with oracle data, [getBestAsk] and
    [getBestBid] return. The best ask is the price of a node of the ask lists
    or of the vAMM, and it is at most [vAsk] and at most the price of the
    first node of each ask list; the best bid is the price of a node of the
    bid lists or of the vAMM, and it is at least [vBid] and at least the price
    of the first node of each bid list. *)
Theorem X14_best_quotes (d : DLOB.t) (m vBid vAsk slot : Z) (o : OraclePriceData.t)
    (nodeLists : MarketNodeLists.t) :
  DLOB.orderLists d !! m = Some nodeLists →
  (∃ v,
     DLOB.getBestAsk d m vAsk slot (Some o) = Ok (priceAt o slot v)
     ∧ v ∈ sideNodes SideAsk nodeLists ++ [VammNode vAsk]
     ∧ priceAt o slot v ≤ vAsk
     ∧ ∀ l x, l ∈ sideLists SideAsk nodeLists → firstNode l = Some x →
         priceAt o slot v ≤ priceAt o slot x)
  ∧ (∃ v,
       DLOB.getBestBid d m vBid slot (Some o) = Ok (priceAt o slot v)
       ∧ v ∈ sideNodes SideBid nodeLists ++ [VammNode vBid]
       ∧ vBid ≤ priceAt o slot v
       ∧ ∀ l x, l ∈ sideLists SideBid nodeLists → firstNode l = Some x →
           priceAt o slot x ≤ priceAt o slot v).
Proof.
  intros Hm. split.
  - destruct (first_next_best SideAsk o slot vAsk nodeLists)
      as (v & g' & Hnext & Hin & Hvamm & Hheads).
    exists v. split; [|done].
    unfold DLOB.getBestAsk, DLOB.bestPrice.
    pose proof (sideGenerator_known SideAsk d m vAsk slot o nodeLists Hm) as Hg.
    cbn [sideGenerator] in Hg. rewrite Hg, Hnext. cbn. apply getPrice_supplied.
  - destruct (first_next_best SideBid o slot vBid nodeLists)
      as (v & g' & Hnext & Hin & Hvamm & Hheads).
    exists v. split; [|done].
    unfold DLOB.getBestBid, DLOB.bestPrice.
    pose proof (sideGenerator_known SideBid d m vBid slot o nodeLists Hm) as Hg.
    cbn [sideGenerator] in Hg. rewrite Hg, Hnext. cbn. apply getPrice_supplied.
Qed.

Lemma X14_best_quotes_witness :
  (∃ v,
     DLOB.getBestAsk mixedBook 0 110 5 (oracleAt 100)
     = Ok (priceAt {| OraclePriceData.price := 100 |} 5 v)
     ∧ v ∈ sideNodes SideAsk (listsOf mixedBook 0) ++ [VammNode 110]
     ∧ priceAt {| OraclePriceData.price := 100 |} 5 v ≤ 110
     ∧ ∀ l x, l ∈ sideLists SideAsk (listsOf mixedBook 0) → firstNode l = Some x →
         priceAt {| OraclePriceData.price := 100 |} 5 v
         ≤ priceAt {| OraclePriceData.price := 100 |} 5 x)
  ∧ (∃ v,
       DLOB.getBestBid mixedBook 0 90 5 (oracleAt 100)
       = Ok (priceAt {| OraclePriceData.price := 100 |} 5 v)
       ∧ v ∈ sideNodes SideBid (listsOf mixedBook 0) ++ [VammNode 90]
       ∧ 90 ≤ priceAt {| OraclePriceData.price := 100 |} 5 v
       ∧ ∀ l x, l ∈ sideLists SideBid (listsOf mixedBook 0) → firstNode l = Some x →
           priceAt {| OraclePriceData.price := 100 |} 5 x
           ≤ priceAt {| OraclePriceData.price := 100 |} 5 v).
Proof.
  apply (X14_best_quotes mixedBook 0 90 110 5 {| OraclePriceData.price := 100 |}
           (listsOf mixedBook 0)).
  vm_compute. reflexivity.
Defined.

(** The best quotes of the sample book, with the oracle at 100. *)
Example best_quotes_mixedBook :
  DLOB.getBestAsk mixedBook 0 110 5 (oracleAt 100) = Ok 101
  ∧ DLOB.getBestBid mixedBook 0 90 5 (oracleAt 100) = Ok 102.
Proof. split; vm_compute; reflexivity. Qed.

(** ** [findNodesToFill] *)

Lemma findMarketNodesToFill_known (d : DLOB.t) (m slot : Z)
    (nodeLists : MarketNodeLists.t) :
  DLOB.orderLists d !! m = Some nodeLists →
  DLOB.findMarketNodesToFill d m slot = Ok (marketFills slot nodeLists).
Proof.
  intros Hm. unfold DLOB.findMarketNodesToFill, DLOB.getMarketBids, DLOB.getMarketAsks.
  rewrite (marketLists_known _ _ _ _ Hm). run_method.
  unfold NodeList.getGenerator. rewrite forOf_pushIfAuctionComplete. cbn.
  by rewrite forOf_pushIfAuctionComplete.
Qed.

Lemma findCrossingNodesToFill_length (d : DLOB.t) (m vBid vAsk slot : Z)
    (oracle : option OraclePriceData.t) (nodes : list NodeToFill.t) :
  DLOB.findCrossingNodesToFill d m vBid vAsk slot oracle = Ok nodes →
  (length nodes ≤ 10)%nat.
Proof.
  unfold DLOB.findCrossingNodesToFill, DLOB.scanCrossingNodes.
  destruct (MergeGenerator_next (DLOB.getAsks _ _ _ _ _)) as [[na ga]|];
    cbn [mbind Result_bind]; [|done].
  destruct (MergeGenerator_next (DLOB.getBids _ _ _ _ _)) as [[nb gb]|];
    cbn [mbind Result_bind]; [|done].
  destruct (DLOB.scanLoop _ _ _ _ _ _ _ _) as [scan|] eqn:Hscan; cbn; [|done].
  intros [= <-]. apply scanLoop_cap in Hscan as [Hlen _]; [done | cbn; lia].
Qed.

(** X16: what [findNodesToFill] returns for a market of the book is the
    fills of [findCrossingNodesToFill], at most ten and each with a maker,
    followed by the fills of the market orders whose auction is complete,
    none of which has a maker: a fill is to be matched against the vAMM
    exactly when it has no maker, and the result has at most ten entries more
    than the market lists have nodes. *)
Theorem X16_findNodesToFill_parts (d : DLOB.t) (m vBid vAsk slot : Z)
    (oracle : option OraclePriceData.t) (nodeLists : MarketNodeLists.t)
    (nodes : list NodeToFill.t) :
  DLOB.orderLists d !! m = Some nodeLists →
  DLOB.findNodesToFill d m vBid vAsk slot oracle = Ok nodes →
  ∃ crossing,
    DLOB.findCrossingNodesToFill d m vBid vAsk slot oracle = Ok crossing
    ∧ nodes = crossing ++ marketFills slot nodeLists
    ∧ (length crossing ≤ 10)%nat
    ∧ Forall hasMaker crossing
    ∧ Forall hasNoMaker (marketFills slot nodeLists)
    ∧ (length nodes
       ≤ 10 + length (NodeList.nodes (MarketNodeLists.bid (MarketNodeLists.market nodeLists)))
            + length (NodeList.nodes (MarketNodeLists.ask (MarketNodeLists.market nodeLists))))%nat.
Proof.
  intros Hm. unfold DLOB.findNodesToFill.
  destruct (DLOB.findCrossingNodesToFill d m vBid vAsk slot oracle) as [crossing|] eqn:Hc;
    cbn [mbind Result_bind]; [|done].
  rewrite (findMarketNodesToFill_known d m slot nodeLists Hm). cbn. intros [= <-].
  exists crossing. split; [done|]. split; [done|].
  pose proof (findCrossingNodesToFill_length _ _ _ _ _ _ _ Hc) as Hlen.
  split; [done|]. split; [|split].
  - eapply Forall_impl; [exact (findCrossingNodesToFill_bookFill _ _ _ _ _ _ _ _ Hm Hc)|].
    intros f (taker & maker & _ & Hmaker & _). unfold hasMaker. rewrite Hmaker. by eexists.
  - unfold marketFills. apply Forall_app. split; by apply Forall_fmap, Forall_true.
  - rewrite length_app. unfold marketFills. rewrite length_app, !length_map.
    pose proof (length_filter (auctionComplete slot)
      (NodeList.nodes (MarketNodeLists.bid (MarketNodeLists.market nodeLists)))).
    pose proof (length_filter (auctionComplete slot)
      (NodeList.nodes (MarketNodeLists.ask (MarketNodeLists.market nodeLists)))).
    lia.
Qed.

Lemma X16_findNodesToFill_parts_witness :
  ∃ crossing,
    DLOB.findCrossingNodesToFill mixedBook 0 90 110 5 (oracleAt 100) = Ok crossing
    ∧ returned [] (DLOB.findNodesToFill mixedBook 0 90 110 5 (oracleAt 100))
      = crossing ++ marketFills 5 (listsOf mixedBook 0)
    ∧ (length crossing ≤ 10)%nat
    ∧ Forall hasMaker crossing
    ∧ Forall hasNoMaker (marketFills 5 (listsOf mixedBook 0))
    ∧ (length (returned [] (DLOB.findNodesToFill mixedBook 0 90 110 5 (oracleAt 100)))
       ≤ 10 + length (NodeList.nodes
                        (MarketNodeLists.bid (MarketNodeLists.market (listsOf mixedBook 0))))
            + length (NodeList.nodes
                        (MarketNodeLists.ask (MarketNodeLists.market (listsOf mixedBook 0)))))%nat.
Proof.
  apply (X16_findNodesToFill_parts mixedBook 0 90 110 5 (oracleAt 100)
           (listsOf mixedBook 0)).
  - vm_compute. reflexivity.
  - vm_compute. reflexivity.
Defined.

(** X17: when the best bid is below the best ask, nothing crosses:
    [findCrossingNodesToFill] returns no fill (and [findNodesToFill] only the
    fills of the market orders), with or without oracle data. *)
Theorem X17_uncrossed_book_no_crossing (d : DLOB.t) (m vBid vAsk slot pa pb : Z)
    (oracle : option OraclePriceData.t) :
  DLOB.getBestAsk d m vAsk slot oracle = Ok pa →
  DLOB.getBestBid d m vBid slot oracle = Ok pb →
  pb < pa →
  DLOB.findCrossingNodesToFill d m vBid vAsk slot oracle = Ok []
  ∧ DLOB.findNodesToFill d m vBid vAsk slot oracle = DLOB.findMarketNodesToFill d m slot.
Proof.
  intros Hask Hbid Hlt.
  assert (Hcross : DLOB.findCrossingNodesToFill d m vBid vAsk slot oracle = Ok []).
  { unfold DLOB.getBestAsk, DLOB.getBestBid, DLOB.bestPrice in Hask, Hbid.
    unfold DLOB.findCrossingNodesToFill, DLOB.scanCrossingNodes.
    destruct (MergeGenerator_next (DLOB.getAsks _ _ _ _ _)) as [[[a|] ga]|];
      cbn [mbind Result_bind] in *; try done.
    destruct (MergeGenerator_next (DLOB.getBids _ _ _ _ _)) as [[[b|] gb]|];
      cbn [mbind Result_bind] in *; try done.
    cbn [DLOB.scanLoop]. unfold DLOB.findCrossingOrders. rewrite Hask, Hbid. cbn.
    destruct (Z.ltb_spec pb pa); [done | lia]. }
  split; [done|]. unfold DLOB.findNodesToFill. rewrite Hcross. cbn.
  by destruct (DLOB.findMarketNodesToFill d m slot).
Qed.

Lemma X17_uncrossed_book_no_crossing_witness :
  DLOB.findCrossingNodesToFill tieBook 0 90 100 5 None = Ok []
  ∧ DLOB.findNodesToFill tieBook 0 90 100 5 None = DLOB.findMarketNodesToFill tieBook 0 5.
Proof.
  apply (X17_uncrossed_book_no_crossing tieBook 0 90 100 5 100 90 None);
    first [vm_compute; reflexivity | lia].
Defined.

(** ** A market without orders *)

Lemma noOrders_sideSources (side : Side) (nodeLists : MarketNodeLists.t) (vPrice : Z) :
  noOrders nodeLists →
  sideSources side nodeLists vPrice
  = [ {| next := None; generator := [] |}; {| next := None; generator := [] |};
      {| next := None; generator := [] |};
      {| next := Some (VammNode vPrice); generator := [] |} ].
Proof.
  intros Hno. unfold sideSources, sideLists, NodeList.getGenerator.
  destruct side; cbn [map app].
  - rewrite (Hno NLimit SubAsk _ eq_refl), (Hno NFloatingLimit SubAsk _ eq_refl),
      (Hno NMarket SubAsk _ eq_refl). reflexivity.
  - rewrite (Hno NLimit SubBid _ eq_refl), (Hno NFloatingLimit SubBid _ eq_refl),
      (Hno NMarket SubBid _ eq_refl). reflexivity.
Qed.

Lemma sideGenerator_any_oracle (side : Side) (d : DLOB.t) (m vPrice slot : Z)
    (oracle : option OraclePriceData.t) (nodeLists : MarketNodeLists.t) :
  DLOB.orderLists d !! m = Some nodeLists →
  sideGenerator side d m vPrice slot oracle
  = {| keeps := sideKeeps side; mergeOracle := oracle; mergeSlot := slot;
       sources := Ok (sideSources side nodeLists vPrice) |}.
Proof.
  intros Hm. destruct side; unfold sideGenerator, DLOB.getAsks, DLOB.getBids;
    by rewrite (marketLists_known _ _ _ _ Hm).
Qed.

(** X13: on a market of the book that holds no order, whatever the two vAMM
    prices (also when [vBid] is above [vAsk]) and with or without oracle
    data: the two merges yield the vAMM's node and nothing else, the best ask
    is [vAsk] and the best bid is [vBid], and there is nothing to fill and
    nothing to trigger. *)
Theorem X13_market_without_orders (d : DLOB.t) (m vBid vAsk slot oraclePrice : Z)
    (oracle : option OraclePriceData.t) (nodeLists : MarketNodeLists.t) :
  DLOB.orderLists d !! m = Some nodeLists →
  noOrders nodeLists →
  yielded (DLOB.getAsks d m vAsk slot oracle) = Ok [VammNode vAsk]
  ∧ yielded (DLOB.getBids d m vBid slot oracle) = Ok [VammNode vBid]
  ∧ DLOB.getBestAsk d m vAsk slot oracle = Ok vAsk
  ∧ DLOB.getBestBid d m vBid slot oracle = Ok vBid
  ∧ DLOB.findNodesToFill d m vBid vAsk slot oracle = Ok []
  ∧ DLOB.findNodesToTrigger d m slot oraclePrice = Ok [].
Proof.
  intros Hm Hno.
  pose proof (sideGenerator_any_oracle SideAsk d m vAsk slot oracle nodeLists Hm) as HA.
  pose proof (sideGenerator_any_oracle SideBid d m vBid slot oracle nodeLists Hm) as HB.
  rewrite noOrders_sideSources in HA, HB by done. cbn [sideGenerator sideKeeps] in HA, HB.
  assert (Hmarket : DLOB.findMarketNodesToFill d m slot = Ok []).
  { rewrite (findMarketNodesToFill_known d m slot nodeLists Hm). unfold marketFills.
    by rewrite (Hno NMarket SubBid _ eq_refl), (Hno NMarket SubAsk _ eq_refl). }
  repeat split.
  - by rewrite HA.
  - by rewrite HB.
  - unfold DLOB.getBestAsk. by rewrite HA.
  - unfold DLOB.getBestBid. by rewrite HB.
  - unfold DLOB.findNodesToFill, DLOB.findCrossingNodesToFill, DLOB.scanCrossingNodes.
    rewrite Hmarket, HA, HB. cbn. by destruct (vBid <? vAsk).
  - unfold DLOB.findNodesToTrigger. rewrite (marketLists_known _ _ _ _ Hm).
    cbn [mbind Result_bind]. unfold NodeList.getGenerator.
    rewrite (Hno NTrigger SubAbove _ eq_refl). cbn [map forOf mbind Result_bind].
    by rewrite (Hno NTrigger SubBelow _ eq_refl).
Qed.

Lemma X13_market_without_orders_witness :
  yielded (DLOB.getAsks emptyBook 0 100 5 None) = Ok [VammNode 100]
  ∧ yielded (DLOB.getBids emptyBook 0 105 5 None) = Ok [VammNode 105]
  ∧ DLOB.getBestAsk emptyBook 0 100 5 None = Ok 100
  ∧ DLOB.getBestBid emptyBook 0 105 5 None = Ok 105
  ∧ DLOB.findNodesToFill emptyBook 0 105 100 5 None = Ok []
  ∧ DLOB.findNodesToTrigger emptyBook 0 5 97 = Ok [].
Proof.
  apply (X13_market_without_orders emptyBook 0 105 100 5 97 None (DLOB.newMarket 0)).
  - reflexivity.
  - intros type subType l. destruct type, subType; cbn; intros [= <-]; reflexivity.
Defined.

(** ** The order within a list *)

Lemma mergeStep_done_all (keeps : Z → Z → bool) oracle slot (gens gens' : list Peeked) :
  mergeStep keeps oracle slot gens = Ok (None, gens') →
  Forall (λ q, elems q = []) gens.
Proof.
  unfold mergeStep, reduce. destruct (indexed gens) as [|b l] eqn:E; [done|].
  destruct (foldlM (reducer keeps oracle slot) l b) as [[i p]|e] eqn:Hfold; cbn; [|done].
  destruct (next p) as [v|] eqn:Hv; [done|]. intros _.
  pose proof (foldlM_reducer_done keeps oracle slot l b (i, p) Hfold Hv) as Hall.
  rewrite <- E in Hall.
  apply Forall_lookup. intros j q Hq. rewrite Forall_lookup in Hall.
  assert (Hnone : next q = None).
  { apply (Hall j (j, q)). apply indexed_lookup. by exists q. }
  unfold elems. by rewrite Hnone.
Qed.

Lemma drain_interleaved (fuel : nat) (g : MergeGenerator) (gens : list Peeked)
    (out : list DLOBNode) :
  sources g = Ok gens →
  drain fuel g = Ok out →
  interleaved (map elems gens) out.
Proof.
  revert g gens out. induction fuel as [|fuel IH]; intros g gens out Hsrc; [done|].
  cbn [drain]. unfold MergeGenerator_next. rewrite Hsrc. cbn [mbind Result_bind].
  destruct (mergeStep (keeps g) (mergeOracle g) (mergeSlot g) gens)
    as [[value gens']|e] eqn:Hstep; cbn [mbind Result_bind]; [|done].
  destruct value as [v|].
  - apply mergeStep_shape in Hstep as [[? _] | (i & p & v' & [= <-] & Hp & Hv & ->)];
      [done|].
    destruct (drain fuel _) as [rest|] eqn:Hrest; cbn; [|done]. intros [= <-].
    apply (interleaved_take _ i v (generator p)).
    + rewrite list_lookup_fmap, Hp. cbn. unfold elems. by rewrite Hv.
    + apply (IH _ (<[i := peek (generator p)]> gens)) in Hrest; [|done].
      by rewrite list_fmap_insert, elems_peek in Hrest.
  - intros [= <-]. constructor. apply Forall_fmap.
    by eapply mergeStep_done_all.
Qed.

(** X18: what [getAsks] (resp. [getBids]) yields for a market of the book is
    a merge of the limit list, the floating-limit list and the market list of
    the side and of the one node of the vAMM: the nodes of each list come out
    in the order of the list, whatever the prices and the oracle data. *)
Theorem X18_merge_keeps_list_order (side : Side) (d : DLOB.t) (m vPrice slot : Z)
    (oracle : option OraclePriceData.t) (nodeLists : MarketNodeLists.t)
    (out : list DLOBNode) :
  DLOB.orderLists d !! m = Some nodeLists →
  yielded (sideGenerator side d m vPrice slot oracle) = Ok out →
  interleaved (map NodeList.getGenerator (sideLists side nodeLists) ++ [[VammNode vPrice]])
              out.
Proof.
  intros Hm. rewrite (sideGenerator_any_oracle _ _ _ _ _ _ _ Hm).
  unfold yielded. cbn [sources].
  intros Hout%(drain_interleaved _ _ (sideSources side nodeLists vPrice)); [|done].
  unfold sideSources in Hout. rewrite <- list_fmap_compose in Hout.
  erewrite list_fmap_ext in Hout; [|intros ? x ?; apply (elems_peek x)].
  by rewrite list_fmap_id in Hout.
Qed.

Lemma X18_merge_keeps_list_order_witness :
  interleaved
    (map NodeList.getGenerator (sideLists SideAsk (listsOf auctionBook 0))
     ++ [[VammNode 200]])
    (returned [] (yielded (sideGenerator SideAsk auctionBook 0 200 5 (oracleAt 0)))).
Proof.
  apply (X18_merge_keeps_list_order SideAsk auctionBook 0 200 5 (oracleAt 0)
           (listsOf auctionBook 0)).
  - vm_compute. reflexivity.
  - vm_compute. reflexivity.
Defined.

(** ** The order of the lists under the mutators *)

Lemma triggerSorted_keyOrder (l : NodeList.t) (ns : list OrderNode) :
  NodeList.nodeType l = NTrigger →
  StronglySorted (keyOrder l) ns → triggerSorted (NodeList.sortDirection l) ns.
Proof.
  intros Hty. induction 1 as [|n ns _ IH Hn]; [done|]. split; [|exact IH].
  eapply Forall_impl; [exact Hn|]. intros n'. unfold keyOrder. rewrite Hty.
  by destruct (NodeList.sortDirection l).
Qed.

Lemma StronglySorted_filter_nodes (R : OrderNode → OrderNode → Prop)
    (P : OrderNode → Prop) `{∀ n, Decision (P n)} (ns : list OrderNode) :
  StronglySorted R ns → StronglySorted R (filter P ns).
Proof.
  induction 1 as [|n ns _ IH Hn]; [constructor|].
  rewrite filter_cons. destruct (decide (P n)); [|exact IH].
  constructor; [exact IH|]. apply Forall_forall. intros n' [_ Hin]%list_elem_of_filter.
  rewrite Forall_forall in Hn. by apply Hn.
Qed.

Lemma NodeList_remove_keyOrder (l : NodeList.t) (o : Order) (user : PublicKey) :
  StronglySorted (keyOrder l) (NodeList.nodes l) →
  StronglySorted (keyOrder (NodeList.remove o user l))
                 (NodeList.nodes (NodeList.remove o user l)).
Proof. intros Hs. by apply (StronglySorted_filter_nodes (keyOrder l)). Qed.

Lemma listAt_same_lists (d d' : DLOB.t) (r : ListRef) :
  DLOB.orderLists d' = DLOB.orderLists d → listAt d' r = listAt d r.
Proof. unfold listAt. by intros ->. Qed.

Lemma inKeyOrder_same_lists (d d' : DLOB.t) :
  DLOB.orderLists d' = DLOB.orderLists d → inKeyOrder d → inKeyOrder d'.
Proof.
  intros Heq Hd r l Hl. apply Hd. by rewrite <- (listAt_same_lists d d' r Heq).
Qed.

(** Replacing a list by one of the same class and direction that is in the
    order of its key keeps the book in order. *)
Lemma withList_inKeyOrder (d : DLOB.t) (r : ListRef) (l0 l : NodeList.t) :
  inKeyOrder d → listAt d r = Some l0 →
  NodeList.nodeType l = NodeList.nodeType l0 →
  NodeList.sortDirection l = NodeList.sortDirection l0 →
  StronglySorted (keyOrder l) (NodeList.nodes l) →
  inKeyOrder (withList d r l).
Proof.
  intros Hd Hl0 Hty Hdir Hs r' l'. rewrite (listAt_withList d r r' l0 l Hl0).
  destruct (decide (r = r')) as [<- | Hne]; [|apply Hd].
  intros [= <-]. destruct (Hd r l0 Hl0) as (Hty0 & Hdir0 & _).
  split; [congruence|]. split; [congruence | done].
Qed.

(** The book the constructor builds is in order. *)
Lemma new_inKeyOrder (marketIndexes : list Z) : inKeyOrder (DLOB.new marketIndexes).
Proof.
  intros [m type subType] l. unfold listAt, DLOB.new. cbn.
  rewrite new_lookup_fold, lookup_empty.
  destruct (decide (m ∈ marketIndexes)); cbn; [|done].
  destruct type, subType; cbn; intros [= <-]; cbn; (split; [done|]);
    (split; [done | constructor]).
Qed.

(** [insert], [remove] and [trigger] keep the book in order, whether they
    return or throw. *)
Lemma insert_inKeyOrder (d : DLOB.t) (o : Order) (user : PublicKey) :
  inKeyOrder d → inKeyOrder (after (DLOB.insert o user None) d).
Proof.
  intros Hd. unfold after.
  destruct (DLOB.orderLists d !! marketIndex o) as [nodeLists|] eqn:Hm.
  - destruct (listAt_routed d o nodeLists Hm) as [l Hl].
    rewrite (insert_run d o user l Hl). cbn.
    apply (withList_inKeyOrder _ _ l); [by eapply inKeyOrder_same_lists | done..|].
    apply NodeList_insert_keyOrder. by apply (Hd (routedRef o)).
  - destruct (insert_unknown_market d o user None Hm) as [reading ->]. cbn.
    by eapply inKeyOrder_same_lists.
Qed.

Lemma remove_inKeyOrder (d : DLOB.t) (o : Order) (user : PublicKey) :
  inKeyOrder d → inKeyOrder (after (DLOB.remove o user None) d).
Proof.
  intros Hd. unfold after.
  destruct (DLOB.orderLists d !! marketIndex o) as [nodeLists|] eqn:Hm.
  - destruct (listAt_routed d o nodeLists Hm) as [l Hl].
    rewrite (remove_run d o user l Hl). cbn.
    apply (withList_inKeyOrder _ _ l); [by eapply inKeyOrder_same_lists | done..|].
    apply NodeList_remove_keyOrder. by apply (Hd (routedRef o)).
  - destruct (remove_unknown_market d o user None Hm) as [reading ->]. cbn.
    by eapply inKeyOrder_same_lists.
Qed.

Lemma trigger_inKeyOrder (d : DLOB.t) (o : Order) (user : PublicKey) :
  inKeyOrder d → inKeyOrder (after (DLOB.trigger o user None) d).
Proof.
  intros Hd.
  destruct (DLOB.orderLists d !! marketIndex o) as [nodeLists|] eqn:Hm.
  - destruct (listAt_trigger d o nodeLists Hm) as [l1 Hl1].
    assert (Hd1 : inKeyOrder (withList d (triggerRef o) (NodeList.remove o user l1))).
    { apply (withList_inKeyOrder _ _ l1); [done..|].
      apply NodeList_remove_keyOrder. by apply (Hd (triggerRef o)). }
    assert (Hl2 : is_Some (listAt (withList d (triggerRef o) (NodeList.remove o user l1))
                             (routedRef o))).
    { erewrite listAt_withList by exact Hl1. case_decide; [by eexists|].
      by eapply listAt_routed. }
    destruct Hl2 as [l2 Hl2]. unfold after.
    rewrite (trigger_run d o user l1 l2 Hl1 Hl2). cbn.
    apply (withList_inKeyOrder _ _ l2); [done..|].
    apply NodeList_insert_keyOrder. by apply (Hd1 (routedRef o)).
  - by rewrite trigger_unknown_market.
Qed.

Lemma inserted_inKeyOrder (orders : list (Order * PublicKey)) (d : DLOB.t) :
  inKeyOrder d → inKeyOrder (inserted orders d).
Proof.
  unfold inserted. revert d. induction orders as [|[o user] orders IH]; intros d Hd; [done|].
  cbn [fold_left]. apply IH. by apply insert_inKeyOrder.
Qed.

(** In a book in order, the trigger lists are in the order that the scan of
    [findNodesToTrigger] relies on. *)
Lemma inKeyOrder_triggerSorted (d : DLOB.t) (m : Z) (nodeLists : MarketNodeLists.t) :
  inKeyOrder d → DLOB.orderLists d !! m = Some nodeLists →
  triggerSorted asc
    (NodeList.nodes (MarketNodeLists.above (MarketNodeLists.trigger nodeLists)))
  ∧ triggerSorted desc
      (NodeList.nodes (MarketNodeLists.below (MarketNodeLists.trigger nodeLists))).
Proof.
  intros Hd Hm. split.
  - destruct (Hd {| refMarket := m; refType := NTrigger; refSubType := SubAbove |}
                 (MarketNodeLists.above (MarketNodeLists.trigger nodeLists)))
      as (Hty & Hdir & Hs).
    { unfold listAt. cbn. by rewrite Hm. }
    cbn in Hty, Hdir. rewrite <- Hdir. by apply triggerSorted_keyOrder.
  - destruct (Hd {| refMarket := m; refType := NTrigger; refSubType := SubBelow |}
                 (MarketNodeLists.below (MarketNodeLists.trigger nodeLists)))
      as (Hty & Hdir & Hs).
    { unfold listAt. cbn. by rewrite Hm. }
    cbn in Hty, Hdir. rewrite <- Hdir. by apply triggerSorted_keyOrder.
Qed.

(** [update] does not keep the book in order: it leaves the node where it
    is, whatever the new key. *)
Example update_not_inKeyOrder :
  inKeyOrder triggerBook ∧ ¬ inKeyOrder updatedTriggerBook.
Proof.
  split.
  - apply inserted_inKeyOrder, new_inKeyOrder.
  - intros Hd.
    destruct (inKeyOrder_triggerSorted updatedTriggerBook 0 (listsOf updatedTriggerBook 0) Hd)
      as [Habove _]; [vm_compute; reflexivity|].
    vm_compute in Habove. destruct Habove as [Hhead _].
    apply Forall_cons in Hhead as [Hle _]. by apply Hle.
Qed.

(** ** The keys of [orderLists] *)

(** The mutators add no market to the book and take none away. *)
Lemma mutators_same_markets (d : DLOB.t) (o : Order) (user : PublicKey) (m : Z)
    (mutator : DLOB.M unit) :
  mutator ∈ mutators o user →
  is_Some (DLOB.orderLists (after mutator d) !! m) ↔ is_Some (DLOB.orderLists d !! m).
Proof.
  intros Hin. destruct (decide (m = marketIndex o)) as [-> | Hne];
    [|by rewrite (mutators_other_market d o user m mutator Hne Hin)].
  unfold mutators in Hin.
  destruct (DLOB.orderLists d !! marketIndex o) as [nodeLists|] eqn:Hm.
  - split; [by eexists | intros _].
    assert (Hsome : is_Some (DLOB.orderLists d !! marketIndex o)) by (by eexists).
    destruct (listAt_routed d o nodeLists Hm) as [l Hl].
    destruct (listAt_trigger d o nodeLists Hm) as [l1 Hl1].
    repeat (apply elem_of_cons in Hin as [-> | Hin]); [| | | |by apply elem_of_nil in Hin];
      unfold after.
    + rewrite (insert_run d o user l Hl). cbn. by apply withList_known.
    + rewrite (remove_run d o user l Hl). cbn. by apply withList_known.
    + rewrite (update_run d o user l Hl). cbn. by apply withList_known.
    + assert (Hl2 : is_Some (listAt (withList d (triggerRef o) (NodeList.remove o user l1))
                               (routedRef o))).
      { erewrite listAt_withList by exact Hl1. case_decide; by eexists. }
      destruct Hl2 as [l2 Hl2].
      rewrite (trigger_run d o user l1 l2 Hl1 Hl2). cbn.
      by do 2 apply withList_known.
  - assert (Hsame : DLOB.orderLists (after mutator d) = DLOB.orderLists d).
    { repeat (apply elem_of_cons in Hin as [-> | Hin]); [| | | |by apply elem_of_nil in Hin].
      - unfold after. by destruct (insert_unknown_market d o user None Hm) as [reading ->].
      - unfold after. by destruct (remove_unknown_market d o user None Hm) as [reading ->].
      - by rewrite update_unknown_market.
      - by rewrite trigger_unknown_market. }
    by rewrite Hsame, Hm.
Qed.

(** So every book that the constructor built and the mutators changed holds
    only markets whose index [toNumber] converts: on these books
    [DLOB.marketLists] is the look-up of the source
    ([marketLists_converts_first]). *)
Lemma mutators_wellKeyed (d : DLOB.t) (o : Order) (user : PublicKey)
    (mutator : DLOB.M unit) :
  mutator ∈ mutators o user → wellKeyed d → wellKeyed (after mutator d).
Proof.
  intros Hin Hd m Hm. apply Hd. by apply (mutators_same_markets d o user m mutator Hin).
Qed.
